(** * Cartesian position controller: the per-cycle supervision loop

    A shallow embedding of
    [reflexxes_position_controllers/src/cartesian_position_controller.cpp]:
    the constructor, [init], [starting], [update], [setTrajectoryCommand],
    [rml_debug] and [operator<<] of [CartesianPositionController], with
    the theorems that settle what the specification says about one
    control cycle, and further properties of the cycle and of [init].

    The controller talks to five collaborators whose code lives in other
    packages: the Reflexxes motion library, the TRAC-IK solver, the KDL
    forward solver, the ROS clock types and the realtime buffer.  They are
    an interface here ([Libraries], [Collaborators]); every theorem holds
    for all implementations of that interface.  What [init] reads (the
    parameter server, the URDF, the hardware interface) and the
    constructors it calls are a second interface ([Platform]).  A
    [double] is a binary64 float. *)

From Stdlib Require Import ZArith List Lia PrimFloat String.
From stdpp Require Import base list.

Set Default Proof Using "Type".

(** ** Numbers and vectors *)

Abbreviation double := float.

#[global] Instance double_inhabited : Inhabited double := populate 0%float.

(** [KDL::JntArray], [std::vector<double>] and the [VecData] of an
    [RMLVector] are all arrays of doubles indexed from 0. *)
Abbreviation JntArray := (list double).

(** A read [v[i]].  Inside its bounds it is the element; the controller
    sizes every vector to [n_joints_] in [init] and only indexes below
    that. *)
Definition at_ {A} `{Inhabited A} (v : list A) (i : nat) : A := v !!! i.

(** ** The collaborators *)

(** The types of the libraries the controller is written against: the
    messages of [geometry_msgs], [KDL::Frame], the ROS clock, and the
    objects with hidden state (the realtime buffer, the two kinematic
    solvers, the Reflexxes planner). *)
Class Libraries : Type := {
  Header : Type;
  Pose : Type;
  Frame : Type;
  Time : Type;
  Duration : Type;
  RealtimeBuffer : Type;
  TRAC_IK : Type;
  ChainFkSolverPos : Type;
  ReflexxesAPI : Type
}.

Record PoseStamped {Lib : Libraries} : Type := mkPoseStamped {
  header : Header;
  pose : Pose
}.

Arguments mkPoseStamped {_} _ _.

(** [RMLPositionInputParameters], the fields the controller touches. *)
Record RMLPositionInputParameters : Set := mkRMLPositionInputParameters {
  SelectionVector : list bool;
  CurrentPositionVector : list double;
  CurrentVelocityVector : list double;
  CurrentAccelerationVector : list double;
  MaxVelocityVector : list double;
  MaxAccelerationVector : list double;
  MaxJerkVector : list double;
  TargetPositionVector : list double;
  TargetVelocityVector : list double;
  MinimumSynchronizationTime : double
}.

Definition set_SelectionVector (v : list bool) (s : RMLPositionInputParameters) : RMLPositionInputParameters :=
  mkRMLPositionInputParameters v (CurrentPositionVector s)
    (CurrentVelocityVector s) (CurrentAccelerationVector s)
    (MaxVelocityVector s) (MaxAccelerationVector s) (MaxJerkVector s)
    (TargetPositionVector s) (TargetVelocityVector s)
    (MinimumSynchronizationTime s).

Definition set_CurrentPositionVector (v : list double) (s : RMLPositionInputParameters) : RMLPositionInputParameters :=
  mkRMLPositionInputParameters (SelectionVector s) v (CurrentVelocityVector s)
    (CurrentAccelerationVector s) (MaxVelocityVector s)
    (MaxAccelerationVector s) (MaxJerkVector s) (TargetPositionVector s)
    (TargetVelocityVector s) (MinimumSynchronizationTime s).

Definition set_CurrentVelocityVector (v : list double) (s : RMLPositionInputParameters) : RMLPositionInputParameters :=
  mkRMLPositionInputParameters (SelectionVector s) (CurrentPositionVector s) v
    (CurrentAccelerationVector s) (MaxVelocityVector s)
    (MaxAccelerationVector s) (MaxJerkVector s) (TargetPositionVector s)
    (TargetVelocityVector s) (MinimumSynchronizationTime s).

Definition set_CurrentAccelerationVector (v : list double) (s : RMLPositionInputParameters) : RMLPositionInputParameters :=
  mkRMLPositionInputParameters (SelectionVector s) (CurrentPositionVector s)
    (CurrentVelocityVector s) v (MaxVelocityVector s)
    (MaxAccelerationVector s) (MaxJerkVector s) (TargetPositionVector s)
    (TargetVelocityVector s) (MinimumSynchronizationTime s).

Definition set_TargetPositionVector (v : list double) (s : RMLPositionInputParameters) : RMLPositionInputParameters :=
  mkRMLPositionInputParameters (SelectionVector s) (CurrentPositionVector s)
    (CurrentVelocityVector s) (CurrentAccelerationVector s)
    (MaxVelocityVector s) (MaxAccelerationVector s) (MaxJerkVector s) v
    (TargetVelocityVector s) (MinimumSynchronizationTime s).

Definition set_TargetVelocityVector (v : list double) (s : RMLPositionInputParameters) : RMLPositionInputParameters :=
  mkRMLPositionInputParameters (SelectionVector s) (CurrentPositionVector s)
    (CurrentVelocityVector s) (CurrentAccelerationVector s)
    (MaxVelocityVector s) (MaxAccelerationVector s) (MaxJerkVector s)
    (TargetPositionVector s) v (MinimumSynchronizationTime s).

Definition set_MinimumSynchronizationTime (v : double) (s : RMLPositionInputParameters) : RMLPositionInputParameters :=
  mkRMLPositionInputParameters (SelectionVector s) (CurrentPositionVector s)
    (CurrentVelocityVector s) (CurrentAccelerationVector s)
    (MaxVelocityVector s) (MaxAccelerationVector s) (MaxJerkVector s)
    (TargetPositionVector s) (TargetVelocityVector s) v.

(** [RMLPositionOutputParameters]: the controller reads one vector. *)
Record RMLPositionOutputParameters : Set := mkRMLPositionOutputParameters {
  NewPositionVector : list double
}.

Inductive FinalMotionBehavior : Set :=
| KEEP_TARGET_VELOCITY
| RECOMPUTE_TRAJECTORY.

Inductive SyncBehavior : Set :=
| PHASE_SYNCHRONIZATION_IF_POSSIBLE
| ONLY_TIME_SYNCHRONIZATION
| ONLY_PHASE_SYNCHRONIZATION
| NO_SYNCHRONIZATION.

Record RMLPositionFlags : Set := mkRMLPositionFlags {
  BehaviorAfterFinalStateOfMotionIsReached : FinalMotionBehavior;
  SynchronizationBehavior : SyncBehavior
}.

(** The result codes of [ReflexxesAPI] that [update] switches on; every
    other value of the [int] is an error code. *)
Definition RML_WORKING : Z := 0%Z.
Definition RML_FINAL_STATE_REACHED : Z := 1%Z.

(** What the controller calls on them.  A method of an object with hidden
    state returns the object after the call; an out-parameter is passed in
    and returned. *)
Class Collaborators {Lib : Libraries} : Type := {
  (* geometry_msgs::PoseStamped (), kdl_conversions *)
  Header_default : Header;
  poseMsgToKDL : Pose -> Frame;
  poseKDLToMsg : Frame -> Pose;
  (* ros::Time and ros::Duration *)
  Time_minus : Time -> Time -> Duration;
  Duration_times : Duration -> double -> Duration;
  toSec : Duration -> double;
  (* realtime_tools::RealtimeBuffer<geometry_msgs::PoseStamped> *)
  initRT : RealtimeBuffer -> PoseStamped -> RealtimeBuffer;
  readFromRT : RealtimeBuffer -> RealtimeBuffer * PoseStamped;
  writeFromNonRT : RealtimeBuffer -> PoseStamped -> RealtimeBuffer;
  (* TRAC_IK::TRAC_IK::CartToJnt (q_init, p_in, q_out) *)
  CartToJnt : TRAC_IK -> JntArray -> Frame -> JntArray -> TRAC_IK * JntArray * Z;
  (* KDL::ChainFkSolverPos_recursive::JntToCart (q_in, p_out) *)
  Frame_default : Frame;
  JntToCart : ChainFkSolverPos -> JntArray -> Frame -> ChainFkSolverPos * Frame;
  (* ReflexxesAPI::RMLPosition (in, out, flags) and
     ReflexxesAPI::RMLPositionAtAGivenSampleTime (t, out) *)
  RMLPosition :
    ReflexxesAPI -> RMLPositionInputParameters -> RMLPositionOutputParameters ->
    RMLPositionFlags -> ReflexxesAPI * RMLPositionOutputParameters * Z;
  RMLPositionAtAGivenSampleTime :
    ReflexxesAPI -> double -> RMLPositionOutputParameters ->
    ReflexxesAPI * RMLPositionOutputParameters * Z
}.

(** ** The hardware joint handle *)

(** [hardware_interface::JointHandle]: the measured position and velocity
    of the joint and the command slot [setCommand] writes. *)
Record JointHandle : Set := mkJointHandle {
  getPosition : double;
  getVelocity : double;
  getCommand : double
}.

Definition setCommand (c : double) (j : JointHandle) : JointHandle :=
  mkJointHandle (getPosition j) (getVelocity j) c.

#[global] Instance JointHandle_inhabited : Inhabited JointHandle :=
  populate (mkJointHandle 0%float 0%float 0%float).

(** ** The controller object *)

Section Controller.
Context {Lib : Libraries}.

(** The members [update], [starting], [setTrajectoryCommand] and the
    constructor use.  The class is declared in the header; the two
    counters [loop_count_] and [decimation_] are integers without a bound
    here, so what is proved about counting holds as long as the counter
    of the program has not overflowed. *)
Record Controller : Type := mkController {
  loop_count_ : Z;
  decimation_ : Z;
  sampling_resolution_ : double;
  new_reference_ : bool;
  recompute_trajectory_ : bool;
  n_joints_ : nat;
  joints_ : list JointHandle;
  position_tolerances_ : list double;
  commanded_positions_ : list double;
  previous_joint_velocity : JntArray;
  current_joint_acceleration : JntArray;
  current_joint_position : JntArray;
  target_joint_position : JntArray;
  target_cart_position : Frame;
  tracik_solver : TRAC_IK;
  fk_solver : ChainFkSolverPos;
  rml_ : ReflexxesAPI;
  rml_in_ : RMLPositionInputParameters;
  rml_out_ : RMLPositionOutputParameters;
  rml_flags_ : RMLPositionFlags;
  traj_start_time_ : Time;
  trajectory_command_buffer_ : RealtimeBuffer
}.

(** Assignments to one member. *)
Definition set_loop_count_ (v : Z) (s : Controller) : Controller :=
  mkController v (decimation_ s) (sampling_resolution_ s) (new_reference_ s)
    (recompute_trajectory_ s) (n_joints_ s) (joints_ s)
    (position_tolerances_ s) (commanded_positions_ s)
    (previous_joint_velocity s) (current_joint_acceleration s)
    (current_joint_position s) (target_joint_position s)
    (target_cart_position s) (tracik_solver s) (fk_solver s) (rml_ s)
    (rml_in_ s) (rml_out_ s) (rml_flags_ s) (traj_start_time_ s)
    (trajectory_command_buffer_ s).

Definition set_decimation_ (v : Z) (s : Controller) : Controller :=
  mkController (loop_count_ s) v (sampling_resolution_ s) (new_reference_ s)
    (recompute_trajectory_ s) (n_joints_ s) (joints_ s)
    (position_tolerances_ s) (commanded_positions_ s)
    (previous_joint_velocity s) (current_joint_acceleration s)
    (current_joint_position s) (target_joint_position s)
    (target_cart_position s) (tracik_solver s) (fk_solver s) (rml_ s)
    (rml_in_ s) (rml_out_ s) (rml_flags_ s) (traj_start_time_ s)
    (trajectory_command_buffer_ s).

Definition set_sampling_resolution_ (v : double) (s : Controller) : Controller :=
  mkController (loop_count_ s) (decimation_ s) v (new_reference_ s)
    (recompute_trajectory_ s) (n_joints_ s) (joints_ s)
    (position_tolerances_ s) (commanded_positions_ s)
    (previous_joint_velocity s) (current_joint_acceleration s)
    (current_joint_position s) (target_joint_position s)
    (target_cart_position s) (tracik_solver s) (fk_solver s) (rml_ s)
    (rml_in_ s) (rml_out_ s) (rml_flags_ s) (traj_start_time_ s)
    (trajectory_command_buffer_ s).

Definition set_new_reference_ (v : bool) (s : Controller) : Controller :=
  mkController (loop_count_ s) (decimation_ s) (sampling_resolution_ s) v
    (recompute_trajectory_ s) (n_joints_ s) (joints_ s)
    (position_tolerances_ s) (commanded_positions_ s)
    (previous_joint_velocity s) (current_joint_acceleration s)
    (current_joint_position s) (target_joint_position s)
    (target_cart_position s) (tracik_solver s) (fk_solver s) (rml_ s)
    (rml_in_ s) (rml_out_ s) (rml_flags_ s) (traj_start_time_ s)
    (trajectory_command_buffer_ s).

Definition set_recompute_trajectory_ (v : bool) (s : Controller) : Controller :=
  mkController (loop_count_ s) (decimation_ s) (sampling_resolution_ s)
    (new_reference_ s) v (n_joints_ s) (joints_ s) (position_tolerances_ s)
    (commanded_positions_ s) (previous_joint_velocity s)
    (current_joint_acceleration s) (current_joint_position s)
    (target_joint_position s) (target_cart_position s) (tracik_solver s)
    (fk_solver s) (rml_ s) (rml_in_ s) (rml_out_ s) (rml_flags_ s)
    (traj_start_time_ s) (trajectory_command_buffer_ s).

Definition set_joints_ (v : list JointHandle) (s : Controller) : Controller :=
  mkController (loop_count_ s) (decimation_ s) (sampling_resolution_ s)
    (new_reference_ s) (recompute_trajectory_ s) (n_joints_ s) v
    (position_tolerances_ s) (commanded_positions_ s)
    (previous_joint_velocity s) (current_joint_acceleration s)
    (current_joint_position s) (target_joint_position s)
    (target_cart_position s) (tracik_solver s) (fk_solver s) (rml_ s)
    (rml_in_ s) (rml_out_ s) (rml_flags_ s) (traj_start_time_ s)
    (trajectory_command_buffer_ s).

Definition set_commanded_positions_ (v : list double) (s : Controller) : Controller :=
  mkController (loop_count_ s) (decimation_ s) (sampling_resolution_ s)
    (new_reference_ s) (recompute_trajectory_ s) (n_joints_ s) (joints_ s)
    (position_tolerances_ s) v (previous_joint_velocity s)
    (current_joint_acceleration s) (current_joint_position s)
    (target_joint_position s) (target_cart_position s) (tracik_solver s)
    (fk_solver s) (rml_ s) (rml_in_ s) (rml_out_ s) (rml_flags_ s)
    (traj_start_time_ s) (trajectory_command_buffer_ s).

Definition set_previous_joint_velocity (v : JntArray) (s : Controller) : Controller :=
  mkController (loop_count_ s) (decimation_ s) (sampling_resolution_ s)
    (new_reference_ s) (recompute_trajectory_ s) (n_joints_ s) (joints_ s)
    (position_tolerances_ s) (commanded_positions_ s) v
    (current_joint_acceleration s) (current_joint_position s)
    (target_joint_position s) (target_cart_position s) (tracik_solver s)
    (fk_solver s) (rml_ s) (rml_in_ s) (rml_out_ s) (rml_flags_ s)
    (traj_start_time_ s) (trajectory_command_buffer_ s).

Definition set_current_joint_acceleration (v : JntArray) (s : Controller) : Controller :=
  mkController (loop_count_ s) (decimation_ s) (sampling_resolution_ s)
    (new_reference_ s) (recompute_trajectory_ s) (n_joints_ s) (joints_ s)
    (position_tolerances_ s) (commanded_positions_ s)
    (previous_joint_velocity s) v (current_joint_position s)
    (target_joint_position s) (target_cart_position s) (tracik_solver s)
    (fk_solver s) (rml_ s) (rml_in_ s) (rml_out_ s) (rml_flags_ s)
    (traj_start_time_ s) (trajectory_command_buffer_ s).

Definition set_current_joint_position (v : JntArray) (s : Controller) : Controller :=
  mkController (loop_count_ s) (decimation_ s) (sampling_resolution_ s)
    (new_reference_ s) (recompute_trajectory_ s) (n_joints_ s) (joints_ s)
    (position_tolerances_ s) (commanded_positions_ s)
    (previous_joint_velocity s) (current_joint_acceleration s) v
    (target_joint_position s) (target_cart_position s) (tracik_solver s)
    (fk_solver s) (rml_ s) (rml_in_ s) (rml_out_ s) (rml_flags_ s)
    (traj_start_time_ s) (trajectory_command_buffer_ s).

Definition set_target_joint_position (v : JntArray) (s : Controller) : Controller :=
  mkController (loop_count_ s) (decimation_ s) (sampling_resolution_ s)
    (new_reference_ s) (recompute_trajectory_ s) (n_joints_ s) (joints_ s)
    (position_tolerances_ s) (commanded_positions_ s)
    (previous_joint_velocity s) (current_joint_acceleration s)
    (current_joint_position s) v (target_cart_position s) (tracik_solver s)
    (fk_solver s) (rml_ s) (rml_in_ s) (rml_out_ s) (rml_flags_ s)
    (traj_start_time_ s) (trajectory_command_buffer_ s).

Definition set_target_cart_position (v : Frame) (s : Controller) : Controller :=
  mkController (loop_count_ s) (decimation_ s) (sampling_resolution_ s)
    (new_reference_ s) (recompute_trajectory_ s) (n_joints_ s) (joints_ s)
    (position_tolerances_ s) (commanded_positions_ s)
    (previous_joint_velocity s) (current_joint_acceleration s)
    (current_joint_position s) (target_joint_position s) v (tracik_solver s)
    (fk_solver s) (rml_ s) (rml_in_ s) (rml_out_ s) (rml_flags_ s)
    (traj_start_time_ s) (trajectory_command_buffer_ s).

Definition set_tracik_solver (v : TRAC_IK) (s : Controller) : Controller :=
  mkController (loop_count_ s) (decimation_ s) (sampling_resolution_ s)
    (new_reference_ s) (recompute_trajectory_ s) (n_joints_ s) (joints_ s)
    (position_tolerances_ s) (commanded_positions_ s)
    (previous_joint_velocity s) (current_joint_acceleration s)
    (current_joint_position s) (target_joint_position s)
    (target_cart_position s) v (fk_solver s) (rml_ s) (rml_in_ s) (rml_out_ s)
    (rml_flags_ s) (traj_start_time_ s) (trajectory_command_buffer_ s).

Definition set_fk_solver (v : ChainFkSolverPos) (s : Controller) : Controller :=
  mkController (loop_count_ s) (decimation_ s) (sampling_resolution_ s)
    (new_reference_ s) (recompute_trajectory_ s) (n_joints_ s) (joints_ s)
    (position_tolerances_ s) (commanded_positions_ s)
    (previous_joint_velocity s) (current_joint_acceleration s)
    (current_joint_position s) (target_joint_position s)
    (target_cart_position s) (tracik_solver s) v (rml_ s) (rml_in_ s)
    (rml_out_ s) (rml_flags_ s) (traj_start_time_ s)
    (trajectory_command_buffer_ s).

Definition set_rml_ (v : ReflexxesAPI) (s : Controller) : Controller :=
  mkController (loop_count_ s) (decimation_ s) (sampling_resolution_ s)
    (new_reference_ s) (recompute_trajectory_ s) (n_joints_ s) (joints_ s)
    (position_tolerances_ s) (commanded_positions_ s)
    (previous_joint_velocity s) (current_joint_acceleration s)
    (current_joint_position s) (target_joint_position s)
    (target_cart_position s) (tracik_solver s) (fk_solver s) v (rml_in_ s)
    (rml_out_ s) (rml_flags_ s) (traj_start_time_ s)
    (trajectory_command_buffer_ s).

Definition set_rml_in_ (v : RMLPositionInputParameters) (s : Controller) : Controller :=
  mkController (loop_count_ s) (decimation_ s) (sampling_resolution_ s)
    (new_reference_ s) (recompute_trajectory_ s) (n_joints_ s) (joints_ s)
    (position_tolerances_ s) (commanded_positions_ s)
    (previous_joint_velocity s) (current_joint_acceleration s)
    (current_joint_position s) (target_joint_position s)
    (target_cart_position s) (tracik_solver s) (fk_solver s) (rml_ s) v
    (rml_out_ s) (rml_flags_ s) (traj_start_time_ s)
    (trajectory_command_buffer_ s).

Definition set_rml_out_ (v : RMLPositionOutputParameters) (s : Controller) : Controller :=
  mkController (loop_count_ s) (decimation_ s) (sampling_resolution_ s)
    (new_reference_ s) (recompute_trajectory_ s) (n_joints_ s) (joints_ s)
    (position_tolerances_ s) (commanded_positions_ s)
    (previous_joint_velocity s) (current_joint_acceleration s)
    (current_joint_position s) (target_joint_position s)
    (target_cart_position s) (tracik_solver s) (fk_solver s) (rml_ s)
    (rml_in_ s) v (rml_flags_ s) (traj_start_time_ s)
    (trajectory_command_buffer_ s).

Definition set_rml_flags_ (v : RMLPositionFlags) (s : Controller) : Controller :=
  mkController (loop_count_ s) (decimation_ s) (sampling_resolution_ s)
    (new_reference_ s) (recompute_trajectory_ s) (n_joints_ s) (joints_ s)
    (position_tolerances_ s) (commanded_positions_ s)
    (previous_joint_velocity s) (current_joint_acceleration s)
    (current_joint_position s) (target_joint_position s)
    (target_cart_position s) (tracik_solver s) (fk_solver s) (rml_ s)
    (rml_in_ s) (rml_out_ s) v (traj_start_time_ s)
    (trajectory_command_buffer_ s).

Definition set_traj_start_time_ (v : Time) (s : Controller) : Controller :=
  mkController (loop_count_ s) (decimation_ s) (sampling_resolution_ s)
    (new_reference_ s) (recompute_trajectory_ s) (n_joints_ s) (joints_ s)
    (position_tolerances_ s) (commanded_positions_ s)
    (previous_joint_velocity s) (current_joint_acceleration s)
    (current_joint_position s) (target_joint_position s)
    (target_cart_position s) (tracik_solver s) (fk_solver s) (rml_ s)
    (rml_in_ s) (rml_out_ s) (rml_flags_ s) v (trajectory_command_buffer_ s).

Definition set_trajectory_command_buffer_ (v : RealtimeBuffer) (s : Controller) : Controller :=
  mkController (loop_count_ s) (decimation_ s) (sampling_resolution_ s)
    (new_reference_ s) (recompute_trajectory_ s) (n_joints_ s) (joints_ s)
    (position_tolerances_ s) (commanded_positions_ s)
    (previous_joint_velocity s) (current_joint_acceleration s)
    (current_joint_position s) (target_joint_position s)
    (target_cart_position s) (tracik_solver s) (fk_solver s) (rml_ s)
    (rml_in_ s) (rml_out_ s) (rml_flags_ s) (traj_start_time_ s) v.

(** ** What a cycle does to the outside *)

(** The calls a cycle makes on its collaborators, with their arguments,
    the commands it writes to the joints and the log lines it prints, in
    program order. *)
Inductive event : Type :=
| ROS_DEBUG (msg : string)
| ROS_DEBUG_vector (msg : string) (v : list double)
| ROS_WARN_tracking (i : nat) (tracking_error tolerance : double)
| ROS_ERROR_reflexxes (code : Z)
| ROS_INFO_period (seconds : double)
| CartToJnt_called (q_init : JntArray) (p_in : Frame)
| RMLPosition_called (inp : RMLPositionInputParameters) (flags : RMLPositionFlags)
| RMLPositionAtAGivenSampleTime_called (t : double)
| setCommand_called (i : nat) (command : double).

(** A member function: it reads and writes the object and appends to the
    trace. *)
Definition M (A : Type) : Type := Controller -> A * Controller * list event.

#[global] Instance M_ret : MRet M := fun A a s => (a, s, []).

#[global] Instance M_bind : MBind M := fun A B k m s =>
  let r1 := m s in
  let r2 := k r1.1.1 r1.1.2 in
  (r2.1.1, r2.1.2, r1.2 ++ r2.2).

Definition gets {A} (f : Controller -> A) : M A := fun s => (f s, s, []).
Definition modify (f : Controller -> Controller) : M unit := fun s => (tt, f s, []).
Definition emit (e : event) : M unit := fun s => (tt, s, [e]).

Definition result {A} (r : A * Controller * list event) : A := r.1.1.
Definition after {A} (r : A * Controller * list event) : Controller := r.1.2.
Definition trace {A} (r : A * Controller * list event) : list event := r.2.

Fixpoint for_each (l : list nat) (body : nat -> M unit) : M unit :=
  match l with
  | [] => mret tt
  | i :: l' => body i ;; for_each l' body
  end.

(** [for (int i = 0; i < n_joints_; i++) body] *)
Definition for_joints (body : nat -> M unit) : M unit :=
  n ← gets n_joints_; for_each (seq 0 n) body.

(** [joints_[i]] *)
Definition joint (i : nat) : M JointHandle := gets (fun s => at_ (joints_ s) i).

(** [rml_in_->f = ...] *)
Definition modify_rml_in
    (f : RMLPositionInputParameters -> RMLPositionInputParameters) : M unit :=
  modify (fun s => set_rml_in_ (f (rml_in_ s)) s).

(** ** Constructor, [starting], [setTrajectoryCommand] *)

Context {Col : Collaborators}.

(** The constructor's member initialisers, over the members as they are
    default-constructed. *)
Definition CartesianPositionController (raw : Controller) : Controller :=
  set_recompute_trajectory_ false
    (set_new_reference_ false
      (set_sampling_resolution_ 0x1.0624dd2f1a9fcp-10%float (* 0.001 *)
        (set_decimation_ 10%Z
          (set_loop_count_ 0%Z raw)))).

Definition starting (time : Time) : M unit :=
  (* Define an initial command point from the current position *)
  n ← gets n_joints_;
  js ← gets joints_;
  let initial_joint_position :=
    fold_left (fun q i => <[i := getPosition (at_ js i)]> q) (seq 0 n)
              (replicate n 0%float) in
  fk ← gets fk_solver;
  let r := JntToCart fk initial_joint_position Frame_default in
  modify (set_fk_solver r.1);;
  let initial_point := mkPoseStamped Header_default (poseKDLToMsg r.2) in
  modify (fun s => set_trajectory_command_buffer_
                     (initRT (trajectory_command_buffer_ s) initial_point) s);;
  (* Reset commands *)
  for_joints (fun i =>
    j ← joint i;
    modify (fun s => set_commanded_positions_
                       (<[i := getPosition j]> (commanded_positions_ s)) s));;
  (* Set new reference flag for initial command point *)
  modify (set_new_reference_ true).

Definition setTrajectoryCommand (msg : PoseStamped) : M unit :=
  emit (ROS_DEBUG "Received new command");;
  modify (fun s => set_trajectory_command_buffer_
                     (writeFromNonRT (trajectory_command_buffer_ s) msg) s);;
  modify (set_new_reference_ true).

(** ** [update], block by block *)

(** Read the latest commanded cartesian pose message (line 283). *)
Definition read_command : M PoseStamped := fun s =>
  let r := readFromRT (trajectory_command_buffer_ s) in
  (r.2, set_trajectory_command_buffer_ r.1 s, []).

(** Check for a new reference (lines 286-294). *)
Definition check_new_reference : M unit :=
  new_ref ← gets new_reference_;
  if (new_ref : bool) then
    modify (set_new_reference_ false);;
    modify (set_recompute_trajectory_ true);;
    emit (ROS_DEBUG "Received new reference.")
  else mret tt.

(** Compute acceleration (lines 297-300). *)
Definition compute_acceleration : M unit :=
  for_joints (fun i =>
    j ← joint i;
    previous ← gets (fun s => at_ (previous_joint_velocity s) i);
    modify (fun s => set_current_joint_acceleration
                       (<[i := PrimFloat.sub (getVelocity j) previous]>
                          (current_joint_acceleration s)) s);;
    j ← joint i;
    modify (fun s => set_previous_joint_velocity
                       (<[i := getVelocity j]> (previous_joint_velocity s)) s)).

Definition call_CartToJnt : M Z := fun s =>
  let r := CartToJnt (tracik_solver s) (current_joint_position s)
                     (target_cart_position s) (target_joint_position s) in
  (r.2,
   set_target_joint_position r.1.2 (set_tracik_solver r.1.1 s),
   [CartToJnt_called (current_joint_position s) (target_cart_position s)]).

Definition call_RMLPosition : M Z := fun s =>
  let r := RMLPosition (rml_ s) (rml_in_ s) (rml_out_ s) (rml_flags_ s) in
  (r.2,
   set_rml_out_ r.1.2 (set_rml_ r.1.1 s),
   [RMLPosition_called (rml_in_ s) (rml_flags_ s)]).

Definition call_RMLPositionAtAGivenSampleTime (t : double) : M Z := fun s =>
  let r := RMLPositionAtAGivenSampleTime (rml_ s) t (rml_out_ s) in
  (r.2,
   set_rml_out_ r.1.2 (set_rml_ r.1.1 s),
   [RMLPositionAtAGivenSampleTime_called t]).

(** Update RML input parameters (lines 317-326), one joint. *)
Definition update_rml_input (i : nat) : M unit :=
  j ← joint i;
  modify_rml_in (fun p =>
    set_CurrentPositionVector (<[i := getPosition j]> (CurrentPositionVector p)) p);;
  j ← joint i;
  modify_rml_in (fun p =>
    set_CurrentVelocityVector (<[i := getVelocity j]> (CurrentVelocityVector p)) p);;
  acc ← gets (fun s => at_ (current_joint_acceleration s) i);
  modify_rml_in (fun p =>
    set_CurrentAccelerationVector (<[i := acc]> (CurrentAccelerationVector p)) p);;
  target ← gets (fun s => at_ (target_joint_position s) i);
  modify_rml_in (fun p =>
    set_TargetPositionVector (<[i := target]> (TargetPositionVector p)) p);;
  modify_rml_in (fun p =>
    set_TargetVelocityVector (<[i := 0%float]> (TargetVelocityVector p)) p);;
  modify_rml_in (fun p =>
    set_SelectionVector (<[i := true]> (SelectionVector p)) p).

(** Solve inverse kinematics (lines 308-311).  The value is [rc]. *)
Definition solve_inverse_kinematics (commanded_trajectory : PoseStamped) : M Z :=
  for_joints (fun i =>
    j ← joint i;
    modify (fun s => set_current_joint_position
                       (<[i := getPosition j]> (current_joint_position s)) s));;
  modify (set_target_cart_position (poseMsgToKDL (pose commanded_trajectory)));;
  call_CartToJnt.

(** Fill in the planner's input and flags (lines 314-342). *)
Definition prepare_plan (time : Time) (period : Duration) : M unit :=
  emit (ROS_DEBUG "RML Recomputing trajectory...");;
  (* Update RML input parameters *)
  for_joints update_rml_input;;
  cur ← gets (fun s => CurrentPositionVector (rml_in_ s));
  emit (ROS_DEBUG_vector "Current position: " cur);;
  tgt ← gets (fun s => TargetPositionVector (rml_in_ s));
  emit (ROS_DEBUG_vector "Target position: " tgt);;
  (* Store the traj start time *)
  modify (set_traj_start_time_ time);;
  (* Set desired execution time for this trajectory *)
  modify_rml_in
    (set_MinimumSynchronizationTime (toSec (Duration_times period 2%float)));;
  modify (fun s => set_rml_flags_
    (mkRMLPositionFlags KEEP_TARGET_VELOCITY
       (SynchronizationBehavior (rml_flags_ s))) s);;
  modify (fun s => set_rml_flags_
    (mkRMLPositionFlags
       (BehaviorAfterFinalStateOfMotionIsReached (rml_flags_ s))
       ONLY_TIME_SYNCHRONIZATION) s).

(** Compute RML traj (lines 306-351).  [rml_result] is the local of
    [update], passed in and handed back; [rc] is never read. *)
Definition recompute (commanded_trajectory : PoseStamped)
    (time : Time) (period : Duration) (rml_result : Z) : M Z :=
  flag ← gets recompute_trajectory_;
  if (flag : bool) then
    rc ← solve_inverse_kinematics commanded_trajectory;
    prepare_plan time period;;
    (* Compute trajectory *)
    rml_result ← call_RMLPosition;
    (* Disable recompute flag *)
    modify (set_recompute_trajectory_ false);;
    mret rml_result
  else mret rml_result.

(** Sample the already computed trajectory (lines 354-356). *)
Definition sample (time : Time) : M Z :=
  start ← gets traj_start_time_;
  call_RMLPositionAtAGivenSampleTime (toSec (Time_minus time start)).

(** Determine if any of the joint tolerances have been violated
    (lines 360-368). *)
Definition tracking_error (s : Controller) (i : nat) : double :=
  PrimFloat.abs
    (PrimFloat.sub (at_ (NewPositionVector (rml_out_ s)) i)
                   (getPosition (at_ (joints_ s) i))).

Definition check_tolerances : M unit :=
  for_joints (fun i =>
    err ← gets (fun s => tracking_error s i);
    tol ← gets (fun s => at_ (position_tolerances_ s) i);
    if PrimFloat.ltb tol err then
      modify (set_recompute_trajectory_ true);;
      emit (ROS_WARN_tracking i err tol)
    else mret tt).

(** Compute command (lines 371-373). *)
Definition compute_command : M unit :=
  for_joints (fun i =>
    x ← gets (fun s => at_ (NewPositionVector (rml_out_ s)) i);
    modify (fun s => set_commanded_positions_
                       (<[i := x]> (commanded_positions_ s)) s)).

(** The switch on [rml_result] (lines 376-395). *)
Definition hold_measured_position : M unit :=
  for_joints (fun i =>
    j ← joint i;
    modify (fun s => set_commanded_positions_
                       (<[i := getPosition j]> (commanded_positions_ s)) s)).

Definition select_command (rml_result : Z) : M unit :=
  if Z.eqb rml_result RML_WORKING then
    mret tt
  else if Z.eqb rml_result RML_FINAL_STATE_REACHED then
    emit (ROS_DEBUG "final state reached");;
    modify (set_recompute_trajectory_ true)
  else
    count ← gets loop_count_;
    decimation ← gets decimation_;
    (if Z.eqb (Z.rem count decimation) 0
     then emit (ROS_ERROR_reflexxes rml_result)
     else mret tt);;
    hold_measured_position.

(** Set the lower-level commands (lines 398-401). *)
Definition set_commands : M unit :=
  emit (ROS_DEBUG "setting command");;
  for_joints (fun i =>
    c ← gets (fun s => at_ (commanded_positions_ s) i);
    modify (fun s => set_joints_
                       (<[i := setCommand c (at_ (joints_ s) i)]> (joints_ s)) s);;
    emit (setCommand_called i c)).

(** Publish state, report the period, increment the loop count (lines
    403-436).  The body of the publishing branch is commented out in the
    source. *)
Definition count_loop (period : Duration) : M unit :=
  count ← gets loop_count_;
  decimation ← gets decimation_;
  (if Z.eqb (Z.rem count decimation) 0 then mret tt else mret tt);;
  count ← gets loop_count_;
  (if Z.eqb count 1000 then emit (ROS_INFO_period (toSec period)) else mret tt);;
  modify (fun s => set_loop_count_ (loop_count_ s + 1)%Z s).

(** The cycle up to and including the sampling call: what it returns is
    the [rml_result] the switch sees. *)
Definition plan_and_sample (time : Time) (period : Duration) : M Z :=
  commanded_trajectory ← read_command;
  check_new_reference;;
  compute_acceleration;;
  (* Initialize RML result *)
  let rml_result := 0%Z in
  rml_result ← recompute commanded_trajectory time period rml_result;
  rml_result ← sample time;
  mret rml_result.

(** The rest of the cycle. *)
Definition supervise_and_command (period : Duration) (rml_result : Z) : M unit :=
  check_tolerances;;
  compute_command;;
  select_command rml_result;;
  set_commands;;
  count_loop period.

Definition update (time : Time) (period : Duration) : M unit :=
  rml_result ← plan_and_sample time period;
  supervise_and_command period rml_result.

End Controller.

(** ** Observations and runs *)

Section Observations.
Context {Lib : Libraries}.

(** The three kinds of event the specification speaks about, read off a
    trace in order: the plans begun, the planner errors reported and the
    commands written to the joints. *)
Definition planning_call (e : event)
    : option (RMLPositionInputParameters * RMLPositionFlags) :=
  match e with RMLPosition_called inp flags => Some (inp, flags) | _ => None end.

Definition error_log (e : event) : option Z :=
  match e with ROS_ERROR_reflexxes code => Some code | _ => None end.

Definition command_set (e : event) : option (nat * double) :=
  match e with setCommand_called i c => Some (i, c) | _ => None end.

Definition planning_calls (tr : list event) := omap planning_call tr.
Definition error_logs (tr : list event) := omap error_log tr.
Definition commands_set (tr : list event) := omap command_set tr.

(** The test of line 363 for joint [i], on the state the sampling call
    leaves. *)
Definition violated (s : Controller) (i : nat) : bool :=
  PrimFloat.ltb (at_ (position_tolerances_ s) i) (tracking_error s i).

(** Some joint is outside its tolerance. *)
Definition any_violation (s : Controller) : bool :=
  existsb (violated s) (seq 0 (n_joints_ s)).

(** The [default:] label of the switch: a result code that is neither of
    the two named ones. *)
Definition planner_error (rml_result : Z) : bool :=
  negb (Z.eqb rml_result RML_WORKING || Z.eqb rml_result RML_FINAL_STATE_REACHED).

(** What the specification's command selection prescribes for joint [i]
    on the state the sampling call leaves: the sampled position, or the
    measured one when the planner reports an error. *)
Definition selected_command (rml_result : Z) (s : Controller) (i : nat) : double :=
  if planner_error rml_result
  then getPosition (at_ (joints_ s) i)
  else at_ (NewPositionVector (rml_out_ s)) i.

(** What the [resize] calls and the constructors of [init] establish for
    the vectors the controller itself writes: each has [n_joints_]
    entries. *)
Definition input_sized (n : nat) (p : RMLPositionInputParameters) : Prop :=
  length (SelectionVector p) = n /\
  length (CurrentPositionVector p) = n /\
  length (CurrentVelocityVector p) = n /\
  length (CurrentAccelerationVector p) = n /\
  length (TargetPositionVector p) = n /\
  length (TargetVelocityVector p) = n.

Definition sized (s : Controller) : Prop :=
  let n := n_joints_ s in
  length (joints_ s) = n /\
  length (position_tolerances_ s) = n /\
  length (commanded_positions_ s) = n /\
  length (previous_joint_velocity s) = n /\
  length (current_joint_acceleration s) = n /\
  length (current_joint_position s) = n /\
  input_sized n (rml_in_ s).

(** The same controller with other tolerances configured. *)
Definition with_tolerances (tol : list double) (s : Controller) : Controller :=
  mkController (loop_count_ s) (decimation_ s) (sampling_resolution_ s)
    (new_reference_ s) (recompute_trajectory_ s) (n_joints_ s) (joints_ s)
    tol (commanded_positions_ s) (previous_joint_velocity s)
    (current_joint_acceleration s) (current_joint_position s)
    (target_joint_position s) (target_cart_position s) (tracik_solver s)
    (fk_solver s) (rml_ s) (rml_in_ s) (rml_out_ s) (rml_flags_ s)
    (traj_start_time_ s) (trajectory_command_buffer_ s).

Context {Col : Collaborators}.

(** What reaches the controller while it runs: the hardware refreshes the
    measured position and velocity of the joints, the subscriber delivers
    a pose, the controller manager calls [update]. *)
Inductive stimulus : Type :=
| hardware_read (readings : list (double * double))
| command_received (msg : PoseStamped)
| cycle (time : Time) (period : Duration).

Definition refresh (readings : list (double * double)) (js : list JointHandle)
    : list JointHandle :=
  imap (fun i j =>
          match readings !! i with
          | Some r => mkJointHandle r.1 r.2 (getCommand j)
          | None => j
          end) js.

Definition react (x : stimulus) : M unit :=
  match x with
  | hardware_read readings =>
      modify (fun s => set_joints_ (refresh readings (joints_ s)) s)
  | command_received msg => setTrajectoryCommand msg
  | cycle time period => update time period
  end.

Fixpoint run (xs : list stimulus) : M unit :=
  match xs with
  | [] => mret tt
  | x :: xs' => react x ;; run xs'
  end.

Definition is_cycle (x : stimulus) : bool :=
  match x with cycle _ _ => true | _ => false end.

(** The number of control cycles in a run. *)
Fixpoint cycles (xs : list stimulus) : nat :=
  match xs with
  | [] => 0
  | x :: xs' => (if is_cycle x then 1 else 0) + cycles xs'
  end.

(** The state in which the replanning block starts. *)
Definition before_recompute (s : Controller) : Controller :=
  after (compute_acceleration (after (check_new_reference (after (read_command s))))).

(** What the sampling call returned and left in [rml_out_]. *)
Definition sampled_status (time : Time) (period : Duration) (s : Controller) : Z :=
  result (plan_and_sample time period s).

Definition sampled_position (time : Time) (period : Duration) (s : Controller)
    (i : nat) : double :=
  at_ (NewPositionVector (rml_out_ (after (plan_and_sample time period s)))) i.

Definition measured_position (s : Controller) (i : nat) : double :=
  getPosition (at_ (joints_ s) i).

(** The command joint [i] holds when the cycle returns. *)
Definition emitted_command (s' : Controller) (i : nat) : double :=
  getCommand (at_ (joints_ s') i).

(** Some joint is outside its tolerance after the sampling call. *)
Definition tolerance_violated (time : Time) (period : Duration) (s : Controller)
    : bool :=
  any_violation (after (plan_and_sample time period s)).

(** What lines 318-325 leave in the planner's input for joint [i]. *)
Definition input_filled (s : Controller) (p : RMLPositionInputParameters)
    (i : nat) : Prop :=
  at_ (CurrentPositionVector p) i = getPosition (at_ (joints_ s) i) /\
  at_ (CurrentVelocityVector p) i = getVelocity (at_ (joints_ s) i) /\
  at_ (CurrentAccelerationVector p) i = at_ (current_joint_acceleration s) i /\
  at_ (TargetPositionVector p) i = at_ (target_joint_position s) i /\
  at_ (TargetVelocityVector p) i = 0%float /\
  at_ (SelectionVector p) i = true.

(** The flags every plan is begun with (lines 341-342). *)
Definition plan_flags : RMLPositionFlags :=
  mkRMLPositionFlags KEEP_TARGET_VELOCITY ONLY_TIME_SYNCHRONIZATION.

(** The same collaborators, except that the result code of plan creation
    goes through [g] before the controller sees it. *)
Definition with_plan_status (g : Z -> Z) (C : Collaborators) : Collaborators := {|
  Header_default := Header_default;
  poseMsgToKDL := poseMsgToKDL;
  poseKDLToMsg := poseKDLToMsg;
  Time_minus := Time_minus;
  Duration_times := Duration_times;
  toSec := toSec;
  initRT := initRT;
  readFromRT := readFromRT;
  writeFromNonRT := writeFromNonRT;
  CartToJnt := CartToJnt;
  Frame_default := Frame_default;
  JntToCart := JntToCart;
  RMLPosition := fun rml inp out flags =>
    let r := RMLPosition rml inp out flags in (r.1, g r.2);
  RMLPositionAtAGivenSampleTime := RMLPositionAtAGivenSampleTime
|}.

(** How many of the [len] loop counts from [a] on are multiples of [N]. *)
Fixpoint multiples (N a : Z) (len : nat) : nat :=
  match len with
  | 0 => 0
  | S len' => (if Z.eqb (Z.rem a N) 0 then 1 else 0) + multiples N (a + 1) len'
  end.

End Observations.

(** ** Predicates of the proofs *)

Section Predicates.
Context {Lib : Libraries}.

(** [m] leaves the part [f] of the object as it found it. *)
Definition preserves {A B} (f : Controller -> B) (m : M A) : Prop :=
  forall s, f (after (m s)) = f s.

(** [m] emits nothing that the observation [f] picks up. *)
Definition silent {A X} (f : event -> option X) (m : M A) : Prop :=
  forall s, omap f (trace (m s)) = [].

(** The sizes [sized] speaks about, as one value. *)
Definition shape (s : Controller) :=
  (n_joints_ s, length (joints_ s), length (position_tolerances_ s),
   length (commanded_positions_ s), length (previous_joint_velocity s),
   length (current_joint_acceleration s), length (current_joint_position s),
   (length (SelectionVector (rml_in_ s)),
    length (CurrentPositionVector (rml_in_ s)),
    length (CurrentVelocityVector (rml_in_ s)),
    length (CurrentAccelerationVector (rml_in_ s)),
    length (TargetPositionVector (rml_in_ s)),
    length (TargetVelocityVector (rml_in_ s)))).

(** [m] neither reads nor writes the tolerances. *)
Definition tolerance_blind {A} (m : M A) : Prop :=
  forall tol s,
    m (with_tolerances tol s)
    = (result (m s), with_tolerances tol (after (m s)), trace (m s)).

End Predicates.

(** ** More observations of a cycle *)

Section MoreObservations.
Context {Lib : Libraries}.

Definition solver_call (e : event) : option (JntArray * Frame) :=
  match e with CartToJnt_called q_init p_in => Some (q_init, p_in) | _ => None end.

Definition sampling_call (e : event) : option double :=
  match e with RMLPositionAtAGivenSampleTime_called t => Some t | _ => None end.

Definition tracking_warning (e : event) : option (nat * double * double) :=
  match e with ROS_WARN_tracking i err tol => Some (i, err, tol) | _ => None end.

Definition solver_calls (tr : list event) := omap solver_call tr.
Definition sampling_calls (tr : list event) := omap sampling_call tr.
Definition tracking_warnings (tr : list event) := omap tracking_warning tr.

(** What the hardware reports: position and velocity of every joint. *)
Definition measured (s : Controller) : list double * list double :=
  (map getPosition (joints_ s), map getVelocity (joints_ s)).

(** What [init] configures and the cycle only reads. *)
Definition configuration (s : Controller) :=
  (n_joints_ s, position_tolerances_ s, decimation_ s, sampling_resolution_ s,
   fk_solver s,
   (MaxVelocityVector (rml_in_ s), MaxAccelerationVector (rml_in_ s),
    MaxJerkVector (rml_in_ s))).

(** The members only the replanning block writes. *)
Definition plan_bookkeeping (s : Controller) :=
  (rml_in_ s, rml_flags_ s, traj_start_time_ s, target_joint_position s,
   target_cart_position s, tracik_solver s, current_joint_position s).

Definition period_log (e : event) : option double :=
  match e with ROS_INFO_period t => Some t | _ => None end.

Definition period_logs (tr : list event) := omap period_log tr.

(** The calls on the solver, the planner, the sampler and the joints,
    without the log lines. *)
Definition collaborator_call (e : event) : option event :=
  match e with
  | CartToJnt_called _ _ | RMLPosition_called _ _
  | RMLPositionAtAGivenSampleTime_called _ | setCommand_called _ _ => Some e
  | _ => None
  end.

Definition collaborator_calls (tr : list event) := omap collaborator_call tr.

End MoreObservations.

(** ** The node, the robot description and the hardware, as [init] sees them *)

(** An [XmlRpc::XmlRpcValue]: [init] tells strings and arrays from every
    other type. *)
#[warnings="-register-all"]
Inductive XmlRpcValue : Type :=
| XmlString (s : string)
| XmlArray (items : list XmlRpcValue)
| XmlOther.

#[global] Instance XmlRpcValue_inhabited : Inhabited XmlRpcValue := populate XmlOther.

Inductive XmlRpcType : Set := TypeString | TypeArray | TypeOther.

Definition getType (v : XmlRpcValue) : XmlRpcType :=
  match v with
  | XmlString _ => TypeString
  | XmlArray _ => TypeArray
  | XmlOther => TypeOther
  end.

(** [xml_array.size()] *)
Definition size (v : XmlRpcValue) : nat :=
  match v with XmlArray items => length items | _ => 0 end.

(** [xml_array[i]] *)
Definition item (v : XmlRpcValue) (i : nat) : XmlRpcValue :=
  match v with XmlArray items => at_ items i | _ => XmlOther end.

(** [static_cast<std::string>(v)] *)
Definition to_string (v : XmlRpcValue) : string :=
  match v with XmlString s => s | _ => EmptyString end.

Definition is_type (t : XmlRpcType) (v : XmlRpcValue) : bool :=
  match t, getType v with
  | TypeString, TypeString | TypeArray, TypeArray | TypeOther, TypeOther => true
  | _, _ => false
  end.

#[global] Instance std_string_inhabited : Inhabited string := populate EmptyString.

(** [ros::console::levels::Level] *)
Inductive Level : Set := Debug | Info | Warn | Error | Fatal.

(** What [init] prints: the [printf]-style macros with their format and
    arguments, the stream macros with their level and text. *)
Inductive console : Type :=
| ROS_ERROR (format : string) (args : list string)
| ROS_INFO (format : string) (args : list string)
| ROS_LOG_STREAM (level : Level) (text : string).

(** The parameter server, the URDF parser, the hardware interface and the
    constructors of the libraries.  A [getParam] that finds nothing is
    [None]; so is a joint the hardware or the URDF does not know, and a
    URDF joint without limits. *)
Class Platform {Lib : Libraries} : Type := {
  NodeHandle : Type;
  PositionJointInterface : Type;
  Model : Type;
  UrdfJoint : Type;
  Chain : Type;
  Subscriber : Type;
  global_NodeHandle : NodeHandle;
  child_NodeHandle : NodeHandle -> string -> NodeHandle;
  getNamespace : NodeHandle -> string;
  getParam_XmlRpcValue : NodeHandle -> string -> option XmlRpcValue;
  getParam_string : NodeHandle -> string -> option string;
  getParam_double : NodeHandle -> string -> option double;
  hasParam : NodeHandle -> string -> bool;
  subscribe : NodeHandle -> string -> nat -> Subscriber;
  getHandle : PositionJointInterface -> string -> option JointHandle;
  initString : string -> option Model;
  getJoint : Model -> string -> option UrdfJoint;
  limits_velocity : UrdfJoint -> option double;
  new_ReflexxesAPI : nat -> double -> ReflexxesAPI;
  new_RMLPositionInputParameters : nat -> RMLPositionInputParameters;
  new_RMLPositionOutputParameters : nat -> RMLPositionOutputParameters;
  CheckForValidity : RMLPositionInputParameters -> bool;
  NumberOfDOFs : RMLPositionInputParameters -> nat;
  AlternativeTargetVelocityVector : RMLPositionInputParameters -> list double;
  new_TRAC_IK : string -> string -> TRAC_IK;
  getKDLChain : TRAC_IK -> bool * Chain;
  new_ChainFkSolverPos_recursive : Chain -> ChainFkSolverPos;
  show_double : double -> string;
  show_bool : bool -> string;
  show_unsigned : nat -> string
}.

(** How a statement of [init] ends: control falls through to the next
    statement, [init] returns, or [init] does not return at all (an
    exception of [getHandle] leaves it, or a null pointer is
    dereferenced). *)
Inductive flow (A : Type) : Type :=
| Next (a : A)
| Return (b : bool)
| Abort.

Arguments Next {A} a.
Arguments Return {A} b.
Arguments Abort {A}.

Section Init.
Context {Lib : Libraries} {Plat : Platform}.

Local Infix "+:+" := String.append (at level 60, right associativity).

(** ** What [init] writes that the cycle only reads *)

Definition set_n_joints_ (v : nat) (s : Controller) : Controller :=
  mkController (loop_count_ s) (decimation_ s) (sampling_resolution_ s)
    (new_reference_ s) (recompute_trajectory_ s) v (joints_ s)
    (position_tolerances_ s) (commanded_positions_ s)
    (previous_joint_velocity s) (current_joint_acceleration s)
    (current_joint_position s) (target_joint_position s)
    (target_cart_position s) (tracik_solver s) (fk_solver s) (rml_ s)
    (rml_in_ s) (rml_out_ s) (rml_flags_ s) (traj_start_time_ s)
    (trajectory_command_buffer_ s).

Definition set_position_tolerances_ (v : list double) (s : Controller) : Controller :=
  mkController (loop_count_ s) (decimation_ s) (sampling_resolution_ s)
    (new_reference_ s) (recompute_trajectory_ s) (n_joints_ s) (joints_ s)
    v (commanded_positions_ s)
    (previous_joint_velocity s) (current_joint_acceleration s)
    (current_joint_position s) (target_joint_position s)
    (target_cart_position s) (tracik_solver s) (fk_solver s) (rml_ s)
    (rml_in_ s) (rml_out_ s) (rml_flags_ s) (traj_start_time_ s)
    (trajectory_command_buffer_ s).

Definition set_MaxVelocityVector (v : list double) (s : RMLPositionInputParameters)
    : RMLPositionInputParameters :=
  mkRMLPositionInputParameters (SelectionVector s) (CurrentPositionVector s)
    (CurrentVelocityVector s) (CurrentAccelerationVector s)
    v (MaxAccelerationVector s) (MaxJerkVector s)
    (TargetPositionVector s) (TargetVelocityVector s)
    (MinimumSynchronizationTime s).

Definition set_MaxAccelerationVector (v : list double) (s : RMLPositionInputParameters)
    : RMLPositionInputParameters :=
  mkRMLPositionInputParameters (SelectionVector s) (CurrentPositionVector s)
    (CurrentVelocityVector s) (CurrentAccelerationVector s)
    (MaxVelocityVector s) v (MaxJerkVector s)
    (TargetPositionVector s) (TargetVelocityVector s)
    (MinimumSynchronizationTime s).

Definition set_MaxJerkVector (v : list double) (s : RMLPositionInputParameters)
    : RMLPositionInputParameters :=
  mkRMLPositionInputParameters (SelectionVector s) (CurrentPositionVector s)
    (CurrentVelocityVector s) (CurrentAccelerationVector s)
    (MaxVelocityVector s) (MaxAccelerationVector s) v
    (TargetPositionVector s) (TargetVelocityVector s)
    (MinimumSynchronizationTime s).

(** ** The members only [init] and the destructor use *)

Record Members : Type := mkMembers {
  nh_ : NodeHandle;
  root_name : string;
  tip_name : string;
  joint_names_ : list string;
  urdf_joints_ : list (option UrdfJoint);
  max_accelerations_ : list double;
  max_jerks_ : list double;
  trajectory_command_sub_ : option Subscriber
}.

Definition set_nh_ (v : NodeHandle) (m : Members) : Members :=
  mkMembers v (root_name m) (tip_name m) (joint_names_ m) (urdf_joints_ m)
    (max_accelerations_ m) (max_jerks_ m) (trajectory_command_sub_ m).

Definition set_root_name (v : string) (m : Members) : Members :=
  mkMembers (nh_ m) v (tip_name m) (joint_names_ m) (urdf_joints_ m)
    (max_accelerations_ m) (max_jerks_ m) (trajectory_command_sub_ m).

Definition set_tip_name (v : string) (m : Members) : Members :=
  mkMembers (nh_ m) (root_name m) v (joint_names_ m) (urdf_joints_ m)
    (max_accelerations_ m) (max_jerks_ m) (trajectory_command_sub_ m).

Definition set_joint_names_ (v : list string) (m : Members) : Members :=
  mkMembers (nh_ m) (root_name m) (tip_name m) v (urdf_joints_ m)
    (max_accelerations_ m) (max_jerks_ m) (trajectory_command_sub_ m).

Definition set_urdf_joints_ (v : list (option UrdfJoint)) (m : Members) : Members :=
  mkMembers (nh_ m) (root_name m) (tip_name m) (joint_names_ m) v
    (max_accelerations_ m) (max_jerks_ m) (trajectory_command_sub_ m).

Definition set_max_accelerations_ (v : list double) (m : Members) : Members :=
  mkMembers (nh_ m) (root_name m) (tip_name m) (joint_names_ m) (urdf_joints_ m)
    v (max_jerks_ m) (trajectory_command_sub_ m).

Definition set_max_jerks_ (v : list double) (m : Members) : Members :=
  mkMembers (nh_ m) (root_name m) (tip_name m) (joint_names_ m) (urdf_joints_ m)
    (max_accelerations_ m) v (trajectory_command_sub_ m).

Definition set_trajectory_command_sub_ (v : option Subscriber) (m : Members) : Members :=
  mkMembers (nh_ m) (root_name m) (tip_name m) (joint_names_ m) (urdf_joints_ m)
    (max_accelerations_ m) (max_jerks_ m) v.

(** The whole object: the members of the cycle and the members above. *)
Record Object : Type := mkObject {
  cycle_members : Controller;
  init_members : Members
}.

Definition on_cycle (f : Controller -> Controller) (o : Object) : Object :=
  mkObject (f (cycle_members o)) (init_members o).

Definition on_init (f : Members -> Members) (o : Object) : Object :=
  mkObject (cycle_members o) (f (init_members o)).

(** ** Statements that may return *)

Definition Stmt (A : Type) : Type := Object -> flow A * Object * list console.

#[global] Instance Stmt_ret : MRet Stmt := fun A a o => (Next a, o, []).

#[global] Instance Stmt_bind : MBind Stmt := fun A B k m o =>
  let r1 := m o in
  match r1.1.1 with
  | Next a => let r2 := k a r1.1.2 in (r2.1.1, r2.1.2, r1.2 ++ r2.2)
  | Return b => (Return b, r1.1.2, r1.2)
  | Abort => (Abort, r1.1.2, r1.2)
  end.

Definition get {A} (f : Object -> A) : Stmt A := fun o => (Next (f o), o, []).
Definition put (f : Object -> Object) : Stmt unit := fun o => (Next tt, f o, []).
Definition print (e : console) : Stmt unit := fun o => (Next tt, o, [e]).
Definition return_ {A} (b : bool) : Stmt A := fun o => (Return b, o, []).

(** A call that throws when there is nothing to hand back, or the
    dereference of a pointer that may be null. *)
Definition expect {A} (x : option A) : Stmt A := fun o =>
  (match x with Some a => Next a | None => Abort end, o, []).

Definition flow_of {A} (r : flow A * Object * list console) : flow A := r.1.1.
Definition object_of {A} (r : flow A * Object * list console) : Object := r.1.2.
Definition console_of {A} (r : flow A * Object * list console) : list console := r.2.

(** [if (c) stmt] *)
Definition when (c : bool) (stmt : Stmt unit) : Stmt unit :=
  if c then stmt else mret tt.

Fixpoint for_each_init (l : list nat) (body : nat -> Stmt unit) : Stmt unit :=
  match l with
  | [] => mret tt
  | i :: l' => body i ;; for_each_init l' body
  end.

(** [for (int i = 0; i < n_joints_; i++) body] *)
Definition for_joints_init (body : nat -> Stmt unit) : Stmt unit :=
  n ← get (fun o => n_joints_ (cycle_members o)); for_each_init (seq 0 n) body.

(** [nh.param(name, var, default)]: the parameter if there is one, the
    default otherwise. *)
Definition param (nh : NodeHandle) (name : string) (default_ : double) : double :=
  default default_ (getParam_double nh name).

(** [rml_in_->f = ...] in [init] *)
Definition put_rml_in
    (f : RMLPositionInputParameters -> RMLPositionInputParameters) : Stmt unit :=
  put (on_cycle (fun s => set_rml_in_ (f (rml_in_ s)) s)).

(** ** [operator<<] and [rml_debug] *)

(** [operator<<] on an [RMLVector]: the elements are the [VectorDimension]
    entries of [VecData]. *)
Definition stream_RMLVector {T} (show : T -> string) (stream : string)
    (rml_vec : list T) : string :=
  fold_left (fun stream x => stream +:+ show x +:+ ", ") rml_vec (stream +:+ "[ ")
  +:+ "]".

Definition rml_debug (level : Level) : Stmt unit :=
  p ← get (fun o => rml_in_ (cycle_members o));
  print (ROS_LOG_STREAM level
           ("RML INPUT NumberOfDOFs: " +:+ show_unsigned (NumberOfDOFs p)));;
  p ← get (fun o => rml_in_ (cycle_members o));
  print (ROS_LOG_STREAM level
           ("RML INPUT MinimumSynchronizationTime: "
            +:+ show_double (MinimumSynchronizationTime p)));;
  p ← get (fun o => rml_in_ (cycle_members o));
  print (ROS_LOG_STREAM level
           (stream_RMLVector show_bool "RML INPUT SelectionVector: "
              (SelectionVector p)));;
  p ← get (fun o => rml_in_ (cycle_members o));
  print (ROS_LOG_STREAM level
           (stream_RMLVector show_double "RML INPUT CurrentPositionVector: "
              (CurrentPositionVector p)));;
  p ← get (fun o => rml_in_ (cycle_members o));
  print (ROS_LOG_STREAM level
           (stream_RMLVector show_double "RML INPUT CurrentVelocityVector: "
              (CurrentVelocityVector p)));;
  p ← get (fun o => rml_in_ (cycle_members o));
  print (ROS_LOG_STREAM level
           (stream_RMLVector show_double "RML INPUT CurrentAccelerationVector: "
              (CurrentAccelerationVector p)));;
  p ← get (fun o => rml_in_ (cycle_members o));
  print (ROS_LOG_STREAM level
           (stream_RMLVector show_double "RML INPUT MaxAccelerationVector: "
              (MaxAccelerationVector p)));;
  p ← get (fun o => rml_in_ (cycle_members o));
  print (ROS_LOG_STREAM level
           (stream_RMLVector show_double "RML INPUT MaxJerkVector: "
              (MaxJerkVector p)));;
  p ← get (fun o => rml_in_ (cycle_members o));
  print (ROS_LOG_STREAM level
           (stream_RMLVector show_double "RML INPUT TargetVelocityVector: "
              (TargetVelocityVector p)));;
  p ← get (fun o => rml_in_ (cycle_members o));
  print (ROS_LOG_STREAM level
           (stream_RMLVector show_double "RML INPUT MaxVelocityVector: "
              (MaxVelocityVector p)));;
  p ← get (fun o => rml_in_ (cycle_members o));
  print (ROS_LOG_STREAM level
           (stream_RMLVector show_double "RML INPUT TargetPositionVector: "
              (TargetPositionVector p)));;
  p ← get (fun o => rml_in_ (cycle_members o));
  print (ROS_LOG_STREAM level
           (stream_RMLVector show_double
              "RML INPUT AlternativeTargetVelocityVector: "
              (AlternativeTargetVelocityVector p))).

(** ** [init], block by block *)

(** Store the node handle, get the joint names and their number (lines
    105-125).  The value is [xml_array]. *)
Definition get_joint_names (n : NodeHandle) : Stmt XmlRpcValue :=
  (* Store nodehandle *)
  put (on_init (set_nh_ n));;
  (* Get joint names *)
  nh ← get (fun o => nh_ (init_members o));
  let found := getParam_XmlRpcValue nh "joint_names" in
  let xml_array := default XmlOther found in
  when (negb (bool_decide (is_Some found)))
    (print (ROS_ERROR "No 'joint_names' parameter in controller (namespace '%s')"
              [getNamespace nh]);;
     return_ false);;
  (* Make sure it's an array type *)
  when (negb (is_type TypeArray xml_array))
    (print (ROS_ERROR "The 'joint_names' parameter is not an array (namespace '%s')"
              [getNamespace nh]);;
     return_ false);;
  (* Get number of joints *)
  put (on_cycle (set_n_joints_ (size xml_array)));;
  n_joints ← get (fun o => n_joints_ (cycle_members o));
  print (ROS_LOG_STREAM Info
           ("Initializing CartesianPositionController with "
            +:+ show_unsigned n_joints +:+ " joints."));;
  mret xml_array.

(** Get the sampling resolution and create the trajectory generator
    (lines 127-137). *)
Definition create_trajectory_generator : Stmt unit :=
  nh ← get (fun o => nh_ (init_members o));
  when (negb (hasParam nh "sampling_resolution"))
    (print (ROS_INFO "No sampling_resolution specified (namespace: %s), using default."
              [getNamespace nh]));;
  put (on_cycle (set_sampling_resolution_
                   (param nh "sampling_resolution" 0x1.0624dd2f1a9fcp-10%float)));;
  put (on_cycle (fun s => set_rml_ (new_ReflexxesAPI (n_joints_ s)
                                      (sampling_resolution_ s)) s));;
  put (on_cycle (fun s => set_rml_in_ (new_RMLPositionInputParameters (n_joints_ s)) s));;
  put (on_cycle (fun s => set_rml_out_ (new_RMLPositionOutputParameters (n_joints_ s)) s)).

(** Get the URDF (lines 139-150).  The value is [urdf]. *)
Definition get_urdf : Stmt Model :=
  let nh := global_NodeHandle in
  let urdf_str := default EmptyString (getParam_string nh "/robot_description") in
  put (on_init (fun m =>
         match getParam_string (nh_ m) "root_name" with
         | Some v => set_root_name v m
         | None => m
         end));;
  put (on_init (fun m =>
         match getParam_string (nh_ m) "tip_name" with
         | Some v => set_tip_name v m
         | None => m
         end));;
  match initString urdf_str with
  | None =>
      print (ROS_ERROR
               "Failed to parse urdf from '/robot_description' parameter (namespace: %s)"
               [getNamespace nh]);;
      return_ false
  | Some urdf => mret urdf
  end.

(** The [resize] calls of lines 153-161. *)
Definition resize_members : Stmt unit :=
  put (fun o =>
    let n := n_joints_ (cycle_members o) in
    on_init (fun m => set_joint_names_ (resize n EmptyString (joint_names_ m)) m) o);;
  put (on_cycle (fun s => set_joints_ (resize (n_joints_ s) inhabitant (joints_ s)) s));;
  put (fun o =>
    let n := n_joints_ (cycle_members o) in
    on_init (fun m => set_urdf_joints_ (resize n None (urdf_joints_ m)) m) o);;
  put (on_cycle (fun s => set_position_tolerances_
                            (resize (n_joints_ s) 0%float (position_tolerances_ s)) s));;
  put (fun o =>
    let n := n_joints_ (cycle_members o) in
    on_init (fun m => set_max_accelerations_
                        (resize n 0%float (max_accelerations_ m)) m) o);;
  put (fun o =>
    let n := n_joints_ (cycle_members o) in
    on_init (fun m => set_max_jerks_ (resize n 0%float (max_jerks_ m)) m) o);;
  put (on_cycle (fun s => set_commanded_positions_
                            (resize (n_joints_ s) 0%float (commanded_positions_ s)) s));;
  put (on_cycle (fun s => set_previous_joint_velocity
                            (resize (n_joints_ s) 0%float (previous_joint_velocity s)) s));;
  put (on_cycle (fun s => set_current_joint_acceleration
                            (resize (n_joints_ s) 0%float
                               (current_joint_acceleration s)) s)).

(** One turn of the loop of lines 163-218. *)
Definition load_joint (robot : PositionJointInterface) (urdf : Model)
    (xml_array : XmlRpcValue) (i : nat) : Stmt unit :=
  nh ← get (fun o => nh_ (init_members o));
  (* Get joint name *)
  when (negb (is_type TypeString (item xml_array i)))
    (print (ROS_ERROR
              "The 'joint_names' parameter contains a non-string element (namespace '%s')"
              [getNamespace nh]);;
     return_ false);;
  put (on_init (fun m => set_joint_names_
                           (<[i := to_string (item xml_array i)]> (joint_names_ m)) m));;
  name ← get (fun o => at_ (joint_names_ (init_members o)) i);
  (* Get the joint-namespace nodehandle *)
  let joint_nh := child_NodeHandle nh ("joints/" +:+ name) in
  print (ROS_INFO "Loading joint information for joint '%s' (namespace: %s)"
           [name; getNamespace joint_nh]);;
  (* Get position tolerance *)
  when (negb (hasParam joint_nh "position_tolerance"))
    (print (ROS_INFO "No position_tolerance specified (namespace: %s), using default."
              [getNamespace joint_nh]));;
  put (on_cycle (fun s => set_position_tolerances_
         (<[i := param joint_nh "position_tolerance" 0x1.999999999999ap-4%float]>
            (position_tolerances_ s)) s));;
  (* Get maximum acceleration *)
  when (negb (hasParam joint_nh "max_acceleration"))
    (print (ROS_INFO "No max_acceleration specified (namespace: %s), using default."
              [getNamespace joint_nh]));;
  put (on_init (fun m => set_max_accelerations_
         (<[i := param joint_nh "max_acceleration" 1%float]> (max_accelerations_ m)) m));;
  (* Get maximum acceleration *)
  when (negb (hasParam joint_nh "max_jerk"))
    (print (ROS_INFO "No max_jerk specified (namespace: %s), using default."
              [getNamespace joint_nh]));;
  put (on_init (fun m => set_max_jerks_
         (<[i := param joint_nh "max_jerk" 1000%float]> (max_jerks_ m)) m));;
  (* Get ros_control joint handle *)
  name ← get (fun o => at_ (joint_names_ (init_members o)) i);
  handle ← expect (getHandle robot name);
  put (on_cycle (fun s => set_joints_ (<[i := handle]> (joints_ s)) s));;
  (* Get urdf joint *)
  name ← get (fun o => at_ (joint_names_ (init_members o)) i);
  put (on_init (fun m => set_urdf_joints_
                           (<[i := getJoint urdf name]> (urdf_joints_ m)) m));;
  urdf_joint ← get (fun o => at_ (urdf_joints_ (init_members o)) i);
  when (negb (bool_decide (is_Some urdf_joint)))
    (name ← get (fun o => at_ (joint_names_ (init_members o)) i);
     print (ROS_ERROR "Could not find joint '%s' in urdf" [name]);;
     return_ false);;
  (* Get RML parameters from URDF *)
  urdf_joint ← get (fun o => at_ (urdf_joints_ (init_members o)) i);
  urdf_joint ← expect urdf_joint;
  velocity ← expect (limits_velocity urdf_joint);
  put_rml_in (fun p =>
    set_MaxVelocityVector (<[i := velocity]> (MaxVelocityVector p)) p);;
  acc ← get (fun o => at_ (max_accelerations_ (init_members o)) i);
  put_rml_in (fun p =>
    set_MaxAccelerationVector (<[i := acc]> (MaxAccelerationVector p)) p);;
  jerk ← get (fun o => at_ (max_jerks_ (init_members o)) i);
  put_rml_in (fun p =>
    set_MaxJerkVector (<[i := jerk]> (MaxJerkVector p)) p).

(** Lines 220-222. *)
Definition select_every_joint : Stmt unit :=
  for_joints_init (fun i =>
    put_rml_in (fun p => set_SelectionVector (<[i := true]> (SelectionVector p)) p)).

(** Lines 225-232. *)
Definition check_input : Stmt unit :=
  valid ← get (fun o => CheckForValidity (rml_in_ (cycle_members o)));
  if (valid : bool) then
    print (ROS_LOG_STREAM Info "RML INPUT Configuration Valid.");;
    rml_debug Debug
  else
    print (ROS_LOG_STREAM Error "RML INPUT Configuration Invalid!");;
    rml_debug Warn;;
    return_ false.

(** Stmt the kinematic solvers (lines 234-244). *)
Definition init_kinematic_solvers : Stmt unit :=
  put (fun o =>
    on_cycle (set_tracik_solver
                (new_TRAC_IK (root_name (init_members o)) (tip_name (init_members o)))) o);;
  parsed ← get (fun o => getKDLChain (tracik_solver (cycle_members o)));
  let chain := parsed.2 in
  let chain_parsed := parsed.1 in
  when (negb chain_parsed)
    (print (ROS_ERROR "trac_ik could not parse KDL chain from URDF!" []);;
     return_ false);;
  put (on_cycle (set_fk_solver (new_ChainFkSolverPos_recursive chain)));;
  put (on_cycle (fun s => set_current_joint_position
                            (resize (n_joints_ s) 0%float (current_joint_position s)) s));;
  put (on_cycle (fun s => set_target_joint_position
                            (resize (n_joints_ s) 0%float (target_joint_position s)) s)).

(** Create the command subscriber (lines 252-253). *)
Definition subscribe_command : Stmt unit :=
  put (on_init (fun m =>
         set_trajectory_command_sub_
           (Some (subscribe (nh_ m) "cartesian_position_command" 1)) m)).

Definition init (robot : PositionJointInterface) (n : NodeHandle) : Stmt bool :=
  xml_array ← get_joint_names n;
  create_trajectory_generator;;
  urdf ← get_urdf;
  resize_members;;
  for_joints_init (load_joint robot urdf xml_array);;
  select_every_joint;;
  check_input;;
  init_kinematic_solvers;;
  subscribe_command;;
  return_ true.

End Init.

(** ** What is observed of [init] *)

Section InitObservations.
Context {Lib : Libraries} {Plat : Platform}.

Local Infix "+:+" := String.append (at level 60, right associativity).

(** A line at error level. *)
Definition is_error (e : console) : bool :=
  match e with
  | ROS_ERROR _ _ | ROS_LOG_STREAM Error _ | ROS_LOG_STREAM Fatal _ => true
  | _ => false
  end.

Definition errors (tr : list console) : list console := List.filter is_error tr.

(** What the constructor [RMLPositionInputParameters(n)] of the Reflexxes
    library is relied on for: every vector has [n] entries. *)
Definition constructed (n : nat) (p : RMLPositionInputParameters) : Prop :=
  input_sized n p /\
  length (MaxVelocityVector p) = n /\
  length (MaxAccelerationVector p) = n /\
  length (MaxJerkVector p) = n.

(** What [resize] leaves: every per-joint vector has [n] entries. *)
Definition allocated (n : nat) (o : Object) : Prop :=
  let c := cycle_members o in
  let m := init_members o in
  length (joint_names_ m) = n /\
  length (joints_ c) = n /\
  length (urdf_joints_ m) = n /\
  length (position_tolerances_ c) = n /\
  length (max_accelerations_ m) = n /\
  length (max_jerks_ m) = n /\
  length (commanded_positions_ c) = n /\
  length (previous_joint_velocity c) = n /\
  length (current_joint_acceleration c) = n /\
  constructed n (rml_in_ c).

(** What the loop of lines 163-218 loads for joint [i], named [name]. *)
Definition joint_loaded (robot : PositionJointInterface) (urdf : Model)
    (n : NodeHandle) (name : string) (o : Object) (i : nat) : Prop :=
  let c := cycle_members o in
  let joint_nh := child_NodeHandle n ("joints/" +:+ name) in
  at_ (joint_names_ (init_members o)) i = name /\
  getHandle robot name = Some (at_ (joints_ c) i) /\
  at_ (position_tolerances_ c) i
  = param joint_nh "position_tolerance" 0x1.999999999999ap-4%float /\
  (exists u, getJoint urdf name = Some u /\
             limits_velocity u = Some (at_ (MaxVelocityVector (rml_in_ c)) i)) /\
  at_ (MaxAccelerationVector (rml_in_ c)) i
  = param joint_nh "max_acceleration" 1%float /\
  at_ (MaxJerkVector (rml_in_ c)) i = param joint_nh "max_jerk" 1000%float.

(** What a successful [init] leaves: the joints named by the parameter
    [joint_names] are loaded, every per-joint vector has one entry for
    each, every joint is selected, the planner's input passed its
    validity check, the solvers are built and the command subscriber is
    in place. *)
Definition configured (robot : PositionJointInterface)
    (n : NodeHandle) (o : Object) : Prop :=
  let c := cycle_members o in
  let m := init_members o in
  exists names urdf,
    getParam_XmlRpcValue n "joint_names" = Some (XmlArray (map XmlString names)) /\
    initString (default EmptyString
                  (getParam_string global_NodeHandle "/robot_description"))
    = Some urdf /\
    n_joints_ c = length names /\
    sized c /\
    length (target_joint_position c) = length names /\
    (forall i name, names !! i = Some name ->
       joint_loaded robot urdf n name o i /\
       at_ (SelectionVector (rml_in_ c)) i = true) /\
    CheckForValidity (rml_in_ c) = true /\
    sampling_resolution_ c
    = param n "sampling_resolution" 0x1.0624dd2f1a9fcp-10%float /\
    rml_ c = new_ReflexxesAPI (length names) (sampling_resolution_ c) /\
    tracik_solver c = new_TRAC_IK (root_name m) (tip_name m) /\
    (getKDLChain (tracik_solver c)).1 = true /\
    fk_solver c = new_ChainFkSolverPos_recursive (getKDLChain (tracik_solver c)).2 /\
    trajectory_command_sub_ m
    = Some (subscribe n "cartesian_position_command" 1).

(** Why [init] returns [false]: the parameter [joint_names] is not an
    array, the robot description does not parse, an entry of the array is
    not a string or names a joint the URDF does not have, the planner's
    input is invalid, or the solver has no chain. *)
Definition refused (n : NodeHandle) : Prop :=
  (forall items, getParam_XmlRpcValue n "joint_names" <> Some (XmlArray items)) \/
  initString (default EmptyString
                (getParam_string global_NodeHandle "/robot_description"))
  = None \/
  (exists items urdf i,
     getParam_XmlRpcValue n "joint_names" = Some (XmlArray items) /\
     initString (default EmptyString
                   (getParam_string global_NodeHandle "/robot_description"))
     = Some urdf /\
     i < length items /\
     (getType (at_ items i) <> TypeString \/
      getJoint urdf (to_string (at_ items i)) = None)) \/
  (exists p, CheckForValidity p = false) \/
  (exists ik, (getKDLChain ik).1 = false).

(** Why [init] does not return: the hardware has no handle for a joint
    of the array, so that [getHandle] throws, or the URDF joint has no
    limits to read the velocity from. *)
Definition stranded (robot : PositionJointInterface) (n : NodeHandle) : Prop :=
  exists items i,
    getParam_XmlRpcValue n "joint_names" = Some (XmlArray items) /\
    i < length items /\
    (getHandle robot (to_string (at_ items i)) = None \/
     exists urdf u,
       initString (default EmptyString
                     (getParam_string global_NodeHandle "/robot_description"))
       = Some urdf /\
       getJoint urdf (to_string (at_ items i)) = Some u /\
       limits_velocity u = None).

(** What holds when a statement is run on [o]: [Q] if control falls
    through, [R] if [init] returns, [X] if it does not return; each sees
    the object left and the lines printed. *)
Definition wp {A} (m : Stmt A)
    (Q : A -> Object -> list console -> Prop)
    (R : bool -> Object -> list console -> Prop)
    (X : Object -> list console -> Prop) (o : Object) : Prop :=
  match flow_of (m o) with
  | Next a => Q a (object_of (m o)) (console_of (m o))
  | Return b => R b (object_of (m o)) (console_of (m o))
  | Abort => X (object_of (m o)) (console_of (m o))
  end.

(** A statement leaves what [f] reads of the object as it was. *)
Definition keeps {A B} (f : Object -> B) (m : Stmt A) : Prop :=
  forall o, f (object_of (m o)) = f o.

(** The invariant of the loading loop: the sizes stand, the node handle
    and the number of joints are as the first block left them, and the
    joints below [k] are loaded. *)
Definition loading (robot : PositionJointInterface) (urdf : Model)
    (n : NodeHandle) (xml_array : XmlRpcValue) (N k : nat) (o : Object) : Prop :=
  nh_ (init_members o) = n /\
  n_joints_ (cycle_members o) = N /\
  allocated N o /\
  forall i, i < k ->
    exists name, item xml_array i = XmlString name /\
                 joint_loaded robot urdf n name o i.

(** A statement prints one line at error level when it makes [init]
    return [false], and none otherwise. *)
Definition honest {A} (m : Stmt A) : Prop :=
  forall o,
    match flow_of (m o) with
    | Return false => length (errors (console_of (m o))) = 1
    | _ => errors (console_of (m o)) = []
    end.

End InitObservations.

(** ** A bench rig for concrete cycles *)

(** A one-to-one gantry: a pose is the list of joint coordinates, so both
    kinematic maps are the identity when the solver succeeds.  The solver
    and the planner answer with fixed result codes, and sampling returns a
    fixed position vector, so a cycle can be put in any of its branches.
    Times are seconds held in a double; the buffer is one slot. *)
Module Bench.

#[export] Instance libraries : Libraries := {|
  Header := unit;
  Pose := list double;
  Frame := list double;
  Time := double;
  Duration := double;
  RealtimeBuffer := list double;
  TRAC_IK := unit;
  ChainFkSolverPos := unit;
  ReflexxesAPI := unit
|}.

Definition rig (ik_rc plan_rc sample_rc : Z) (sampled : list double)
    : Collaborators := {|
  Header_default := tt;
  poseMsgToKDL := fun p => p;
  poseKDLToMsg := fun f => f;
  Time_minus := PrimFloat.sub;
  Duration_times := PrimFloat.mul;
  toSec := fun d => d;
  initRT := fun _ msg => pose msg;
  readFromRT := fun b => (b, mkPoseStamped tt b);
  writeFromNonRT := fun _ msg => pose msg;
  CartToJnt := fun ik q_init p_in q_out =>
    (ik, if Z.leb 0 ik_rc then p_in else q_out, ik_rc);
  Frame_default := [];
  JntToCart := fun fk q p_out => (fk, q);
  RMLPosition := fun rml inp out flags => (rml, out, plan_rc);
  RMLPositionAtAGivenSampleTime := fun rml t out =>
    (rml, mkRMLPositionOutputParameters sampled, sample_rc)
|}.

(** Two joints after [init]: every vector has two entries. *)
Definition two_joints (measured : list JointHandle) (tolerances : list double)
    (target : list double) (replan : bool) (count : Z) : Controller :=
  {| loop_count_ := count;
     decimation_ := 10%Z;
     sampling_resolution_ := 0x1.0624dd2f1a9fcp-10%float;
     new_reference_ := false;
     recompute_trajectory_ := replan;
     n_joints_ := 2;
     joints_ := measured;
     position_tolerances_ := tolerances;
     commanded_positions_ := [0; 0]%float;
     previous_joint_velocity := [0; 0]%float;
     current_joint_acceleration := [0; 0]%float;
     current_joint_position := [0; 0]%float;
     target_joint_position := [0; 0]%float;
     target_cart_position := [0; 0]%float;
     tracik_solver := tt;
     fk_solver := tt;
     rml_ := tt;
     rml_in_ :=
       mkRMLPositionInputParameters [true; true]
         [0; 0]%float [0; 0]%float [0; 0]%float
         [1; 1]%float [1; 1]%float [1000; 1000]%float
         [0; 0]%float [7; 7]%float 0%float;
     rml_out_ := mkRMLPositionOutputParameters [0; 0]%float;
     rml_flags_ := mkRMLPositionFlags RECOMPUTE_TRAJECTORY
                     PHASE_SYNCHRONIZATION_IF_POSSIBLE;
     traj_start_time_ := 0%float;
     trajectory_command_buffer_ := target |}.

Definition moving : list JointHandle :=
  [mkJointHandle 1 0.5 0; mkJointHandle 2 0.25 0]%float.

End Bench.

(** ** A test stand for [init] *)

(** The node [/arm] of the bench gantry.  The parameter server holds what
    the stand is given for [joint_names], a robot description unless told
    otherwise, the two frame names, and one tolerance; the URDF knows the
    joints [x] and [y] of the gantry, the hardware a third one, [z]. *)
Module Stand.
Import Bench.

Local Open Scope string_scope.

Fixpoint assoc {A} (name : string) (l : list (string * A)) : option A :=
  match l with
  | [] => None
  | (k, v) :: l' => if String.eqb k name then Some v else assoc name l'
  end.

Definition gantry : list (string * option double) :=
  [("x", Some 2%float); ("y", Some 3%float)].

Definition hardware : list (string * JointHandle) :=
  [("x", mkJointHandle 1 0.5 0); ("y", mkJointHandle 2 0.25 0);
   ("z", mkJointHandle 3 0 0)]%float.

Definition stand (joint_names : option XmlRpcValue) (description : option string)
    (valid : bool) : Platform := {|
  NodeHandle := string;
  PositionJointInterface := list (string * JointHandle);
  Model := list (string * option double);
  UrdfJoint := option double;
  Chain := unit;
  Subscriber := string * nat;
  global_NodeHandle := "/";
  child_NodeHandle := fun nh name => nh ++ "/" ++ name;
  getNamespace := fun nh => nh;
  getParam_XmlRpcValue := fun nh name =>
    if String.eqb name "joint_names" then joint_names else None;
  getParam_string := fun nh name =>
    if String.eqb name "/robot_description" then description
    else if String.eqb name "root_name" then Some "base"
    else if String.eqb name "tip_name" then Some "tool"
    else None;
  getParam_double := fun nh name =>
    if String.eqb nh "/arm/joints/y" && String.eqb name "position_tolerance"
    then Some 0.25%float else None;
  hasParam := fun nh name =>
    String.eqb nh "/arm/joints/y" && String.eqb name "position_tolerance";
  subscribe := fun nh topic queue => (nh ++ "/" ++ topic, queue);
  getHandle := fun robot name => assoc name robot;
  initString := fun s => if String.eqb s "" then None else Some gantry;
  getJoint := fun urdf name => assoc name urdf;
  limits_velocity := fun u => u;
  new_ReflexxesAPI := fun _ _ => tt;
  new_RMLPositionInputParameters := fun n =>
    mkRMLPositionInputParameters (replicate n false)
      (replicate n 0%float) (replicate n 0%float) (replicate n 0%float)
      (replicate n 0%float) (replicate n 0%float) (replicate n 0%float)
      (replicate n 0%float) (replicate n 0%float) 0%float;
  new_RMLPositionOutputParameters := fun n =>
    mkRMLPositionOutputParameters (replicate n 0%float);
  CheckForValidity := fun _ => valid;
  NumberOfDOFs := fun p => length (SelectionVector p);
  AlternativeTargetVelocityVector := fun p => TargetVelocityVector p;
  new_TRAC_IK := fun _ _ => tt;
  getKDLChain := fun _ => (true, tt);
  new_ChainFkSolverPos_recursive := fun _ => tt;
  show_double := fun _ => "#";
  show_bool := fun b => if b then "1" else "0";
  show_unsigned := fun n => if Nat.eqb n 2 then "2" else "?"
|}.

(** The object as the constructor finds it: no vector has an entry. *)
Definition blank : Controller :=
  {| loop_count_ := 7%Z;
     decimation_ := 3%Z;
     sampling_resolution_ := 0%float;
     new_reference_ := true;
     recompute_trajectory_ := true;
     n_joints_ := 0;
     joints_ := [];
     position_tolerances_ := [];
     commanded_positions_ := [];
     previous_joint_velocity := [];
     current_joint_acceleration := [];
     current_joint_position := [];
     target_joint_position := [];
     target_cart_position := [];
     tracik_solver := tt;
     fk_solver := tt;
     rml_ := tt;
     rml_in_ := mkRMLPositionInputParameters [] [] [] [] [] [] [] [] [] 0%float;
     rml_out_ := mkRMLPositionOutputParameters [];
     rml_flags_ := mkRMLPositionFlags RECOMPUTE_TRAJECTORY
                     PHASE_SYNCHRONIZATION_IF_POSSIBLE;
     traj_start_time_ := 0%float;
     trajectory_command_buffer_ := [] |}.

Definition unset (P : Platform) : Members :=
  mkMembers (Plat := P) global_NodeHandle "" "" [] [] [] [] None.

Definition xy : option XmlRpcValue := Some (XmlArray [XmlString "x"; XmlString "y"]).

End Stand.

(** * Proofs *)

(** ** Reasoning about member functions *)

Section Reasoning.
Context {Lib : Libraries}.

Lemma after_bind {A B} (m : M A) (k : A -> M B) s :
  after ((m ≫= k) s) = after (k (result (m s)) (after (m s))).
Proof. reflexivity. Qed.

Lemma result_bind {A B} (m : M A) (k : A -> M B) s :
  result ((m ≫= k) s) = result (k (result (m s)) (after (m s))).
Proof. reflexivity. Qed.

Lemma trace_bind {A B} (m : M A) (k : A -> M B) s :
  trace ((m ≫= k) s) = trace (m s) ++ trace (k (result (m s)) (after (m s))).
Proof. reflexivity. Qed.

Lemma bind_gets {A B} (f : Controller -> A) (k : A -> M B) s :
  (gets f ≫= k) s = k (f s) s.
Proof.
  unfold mbind, M_bind, gets. simpl.
  destruct (k (f s) s) as [[b s'] tr]. reflexivity.
Qed.

Lemma preserves_ret {A B} (f : Controller -> B) (a : A) : preserves f (mret a).
Proof. intros s. reflexivity. Qed.

Lemma preserves_bind {A B C} (f : Controller -> C) (m : M A) (k : A -> M B) :
  preserves f m -> (forall a, preserves f (k a)) -> preserves f (m ≫= k).
Proof. intros Hm Hk s. rewrite after_bind, Hk, Hm. reflexivity. Qed.

Lemma preserves_gets {A B} (f : Controller -> B) (g : Controller -> A) :
  preserves f (gets g).
Proof. intros s. reflexivity. Qed.

Lemma preserves_emit {B} (f : Controller -> B) e : preserves f (emit e).
Proof. intros s. reflexivity. Qed.

Lemma preserves_modify {B} (f : Controller -> B) g :
  (forall s, f (g s) = f s) -> preserves f (modify g).
Proof. intros Hg s. apply Hg. Qed.

Lemma preserves_for_each {B} (f : Controller -> B) l body :
  (forall i, preserves f (body i)) -> preserves f (for_each l body).
Proof.
  intros Hb. induction l as [|i l IH]; simpl.
  - apply preserves_ret.
  - apply preserves_bind; auto.
Qed.

Lemma silent_ret {A X} (f : event -> option X) (a : A) : silent f (mret a).
Proof. intros s. reflexivity. Qed.

Lemma silent_bind {A B X} (f : event -> option X) (m : M A) (k : A -> M B) :
  silent f m -> (forall a, silent f (k a)) -> silent f (m ≫= k).
Proof. intros Hm Hk s. rewrite trace_bind, omap_app, Hm, Hk. reflexivity. Qed.

Lemma silent_gets {A X} (f : event -> option X) (g : Controller -> A) :
  silent f (gets g).
Proof. intros s. reflexivity. Qed.

Lemma silent_modify {X} (f : event -> option X) g : silent f (modify g).
Proof. intros s. reflexivity. Qed.

Lemma silent_emit {X} (f : event -> option X) e : f e = None -> silent f (emit e).
Proof. intros He s. unfold emit, trace. simpl. rewrite He. reflexivity. Qed.

Lemma silent_for_each {X} (f : event -> option X) l body :
  (forall i, silent f (body i)) -> silent f (for_each l body).
Proof.
  intros Hb. induction l as [|i l IH]; simpl.
  - apply silent_ret.
  - apply silent_bind; auto.
Qed.

(** The loop rule: an invariant of the index, the object and the events
    so far. *)
Lemma for_each_seq_inv (I : nat -> Controller -> list event -> Prop) body :
  forall len a s tr,
    I a s tr ->
    (forall k s' tr', a <= k < a + len -> I k s' tr' ->
       I (S k) (after (body k s')) (tr' ++ trace (body k s'))) ->
    I (a + len) (after (for_each (seq a len) body s))
      (tr ++ trace (for_each (seq a len) body s)).
Proof.
  induction len as [|len IH]; intros a s tr H0 Hstep.
  - rewrite Nat.add_0_r.
    change (I a s (tr ++ [])). rewrite app_nil_r. exact H0.
  - change (for_each (seq a (S len)) body)
      with (body a ≫= fun _ => for_each (seq (S a) len) body).
    rewrite after_bind, trace_bind, app_assoc.
    replace (a + S len) with (S a + len) by lia.
    apply IH.
    + apply Hstep; [lia | exact H0].
    + intros k s' tr' Hk. apply Hstep. lia.
Qed.

Lemma for_joints_inv (I : nat -> Controller -> list event -> Prop) body s :
  I 0 s [] ->
  (forall k s' tr', k < n_joints_ s -> I k s' tr' ->
     I (S k) (after (body k s')) (tr' ++ trace (body k s'))) ->
  I (n_joints_ s) (after (for_joints body s)) (trace (for_joints body s)).
Proof.
  intros H0 Hstep.
  apply (for_each_seq_inv I body (n_joints_ s) 0 s []); [exact H0|].
  intros k s' tr' [_ Hk]. apply Hstep. exact Hk.
Qed.

End Reasoning.

Create HintDb cycle.

#[global] Hint Unfold update plan_and_sample supervise_and_command
  check_new_reference compute_acceleration recompute sample
  solve_inverse_kinematics prepare_plan
  check_tolerances compute_command select_command hold_measured_position
  set_commands count_loop update_rml_input for_joints joint modify_rml_in
  starting setTrajectoryCommand : cycle.

Ltac head_of t :=
  lazymatch t with
  | ?g _ => head_of g
  | _ => t
  end.

Ltac frame_step :=
  lazymatch goal with
  | |- preserves _ (mret _) => apply preserves_ret
  | |- preserves _ (_ ≫= _) => apply preserves_bind; [|intros ?]
  | |- preserves _ (gets _) => apply preserves_gets
  | |- preserves _ (emit _) => apply preserves_emit
  | |- preserves _ (modify _) =>
      apply preserves_modify; intros ?;
      first [ reflexivity
            | lazymatch goal with
              | |- ?f _ = _ => let h := head_of f in try unfold h
              end;
              simpl; rewrite ?length_insert; reflexivity ]
  | |- preserves _ (for_each _ _) => apply preserves_for_each; intros ?
  | |- preserves _ (if ?b then _ else _) => destruct b
  | |- preserves _ _ =>
      first [ progress autounfold with cycle | intros ?; reflexivity ]
  end.

Ltac frame := repeat frame_step.

Ltac silent_step :=
  lazymatch goal with
  | |- silent _ (mret _) => apply silent_ret
  | |- silent _ (_ ≫= _) => apply silent_bind; [|intros ?]
  | |- silent _ (gets _) => apply silent_gets
  | |- silent _ (emit _) => apply silent_emit; reflexivity
  | |- silent _ (modify _) => apply silent_modify
  | |- silent _ (for_each _ _) => apply silent_for_each; intros ?
  | |- silent _ (if ?b then _ else _) => destruct b
  | |- silent _ _ =>
      first [ progress autounfold with cycle | intros ?; reflexivity ]
  end.

Ltac hush := repeat silent_step.

Section Cycle.
Context {Lib : Libraries} {Col : Collaborators}.

Lemma plan_and_sample_silent_commands time period :
  silent command_set (plan_and_sample time period).
Proof. hush. Qed.

Lemma plan_and_sample_silent_errors time period :
  silent error_log (plan_and_sample time period).
Proof. hush. Qed.

(** *** Reads and writes of one vector entry *)

Lemma at_insert_eq {A} `{Inhabited A} (v : list A) i x :
  i < length v -> at_ (<[i:=x]> v) i = x.
Proof. intros Hi. unfold at_. apply list_lookup_total_insert_eq. exact Hi. Qed.

Lemma at_insert_ne {A} `{Inhabited A} (v : list A) i j x :
  i <> j -> at_ (<[i:=x]> v) j = at_ v j.
Proof. intros Hij. unfold at_. apply list_lookup_total_insert_ne. exact Hij. Qed.

(** Entry [i] after one more iteration [k] of a loop that writes entry
    [k]: the new value at [k], what the invariant says below [k]. *)
Ltac entry i k :=
  destruct (decide (i = k)) as [->|];
  [ rewrite ?at_insert_eq by lia
  | rewrite ?at_insert_ne by lia ].

(** *** The loops *)

Lemma compute_acceleration_spec s :
  exists a p,
    after (compute_acceleration s)
    = set_current_joint_acceleration a (set_previous_joint_velocity p s) /\
    length a = length (current_joint_acceleration s) /\
    length p = length (previous_joint_velocity s) /\
    forall i, i < n_joints_ s ->
      i < length (current_joint_acceleration s) ->
      i < length (previous_joint_velocity s) ->
      at_ a i = PrimFloat.sub (getVelocity (at_ (joints_ s) i))
                              (at_ (previous_joint_velocity s) i) /\
      at_ p i = getVelocity (at_ (joints_ s) i).
Proof.
  pose (I := fun (k : nat) (s' : Controller) (_ : list event) =>
    exists a p,
      s' = set_current_joint_acceleration a (set_previous_joint_velocity p s) /\
      length a = length (current_joint_acceleration s) /\
      length p = length (previous_joint_velocity s) /\
      (forall i, i < k ->
         i < length (current_joint_acceleration s) ->
         i < length (previous_joint_velocity s) ->
         at_ a i = PrimFloat.sub (getVelocity (at_ (joints_ s) i))
                                 (at_ (previous_joint_velocity s) i) /\
         at_ p i = getVelocity (at_ (joints_ s) i)) /\
      (forall i, k <= i -> at_ p i = at_ (previous_joint_velocity s) i)).
  assert (HI : I (n_joints_ s) (after (compute_acceleration s))
                 (trace (compute_acceleration s))).
  { apply (for_joints_inv I).
    - exists (current_joint_acceleration s), (previous_joint_velocity s).
      split; [destruct s; reflexivity | repeat split; intros; lia].
    - intros k s' tr' Hk (a & p & -> & La & Lp & Hlt & Hge).
      exists (<[k := PrimFloat.sub (getVelocity (at_ (joints_ s) k)) (at_ p k)]> a),
             (<[k := getVelocity (at_ (joints_ s) k)]> p).
      split; [reflexivity|].
      rewrite !length_insert. repeat split; try assumption.
      + entry i k; [rewrite Hge by lia; reflexivity | apply Hlt; lia].
      + entry i k; [reflexivity | apply Hlt; lia].
      + intros i Hi. rewrite at_insert_ne by lia. apply Hge. lia. }
  destruct HI as (a & p & E & La & Lp & Hlt & _).
  exists a, p. repeat split; try assumption; apply Hlt; assumption.
Qed.

Lemma compute_command_spec s :
  exists c,
    after (compute_command s) = set_commanded_positions_ c s /\
    length c = length (commanded_positions_ s) /\
    forall i, i < n_joints_ s -> i < length (commanded_positions_ s) ->
      at_ c i = at_ (NewPositionVector (rml_out_ s)) i.
Proof.
  pose (I := fun (k : nat) (s' : Controller) (_ : list event) =>
    exists c,
      s' = set_commanded_positions_ c s /\
      length c = length (commanded_positions_ s) /\
      forall i, i < k -> i < length (commanded_positions_ s) ->
        at_ c i = at_ (NewPositionVector (rml_out_ s)) i).
  assert (HI : I (n_joints_ s) (after (compute_command s))
                 (trace (compute_command s))).
  { apply (for_joints_inv I).
    - exists (commanded_positions_ s).
      split; [destruct s; reflexivity | repeat split; intros; lia].
    - intros k s' tr' Hk (c & -> & Lc & Hlt).
      exists (<[k := at_ (NewPositionVector (rml_out_ s)) k]> c).
      split; [reflexivity|]. rewrite length_insert. split; [assumption|].
      intros i Hi Hl. entry i k; [reflexivity | apply Hlt; lia]. }
  exact HI.
Qed.

Lemma hold_measured_position_spec s :
  exists c,
    after (hold_measured_position s) = set_commanded_positions_ c s /\
    length c = length (commanded_positions_ s) /\
    forall i, i < n_joints_ s -> i < length (commanded_positions_ s) ->
      at_ c i = getPosition (at_ (joints_ s) i).
Proof.
  pose (I := fun (k : nat) (s' : Controller) (_ : list event) =>
    exists c,
      s' = set_commanded_positions_ c s /\
      length c = length (commanded_positions_ s) /\
      forall i, i < k -> i < length (commanded_positions_ s) ->
        at_ c i = getPosition (at_ (joints_ s) i)).
  assert (HI : I (n_joints_ s) (after (hold_measured_position s))
                 (trace (hold_measured_position s))).
  { apply (for_joints_inv I).
    - exists (commanded_positions_ s).
      split; [destruct s; reflexivity | repeat split; intros; lia].
    - intros k s' tr' Hk (c & -> & Lc & Hlt).
      exists (<[k := getPosition (at_ (joints_ s) k)]> c).
      split; [reflexivity|]. rewrite length_insert. split; [assumption|].
      intros i Hi Hl. entry i k; [reflexivity | apply Hlt; lia]. }
  exact HI.
Qed.

Lemma check_tolerances_spec s :
  after (check_tolerances s)
  = set_recompute_trajectory_ (recompute_trajectory_ s || any_violation s) s.
Proof.
  pose (I := fun (k : nat) (s' : Controller) (_ : list event) =>
    s' = set_recompute_trajectory_
           (recompute_trajectory_ s || existsb (violated s) (seq 0 k)) s).
  apply (for_joints_inv I).
  - unfold I. simpl. rewrite orb_false_r. destruct s; reflexivity.
  - intros k s' tr' Hk ->. unfold I.
    rewrite seq_S, existsb_app. simpl. rewrite orb_false_r.
    change (violated s k)
      with (PrimFloat.ltb (at_ (position_tolerances_ s) k) (tracking_error s k)).
    rewrite !after_bind.
    change (result (gets (fun s0 => tracking_error s0 k) _))
      with (tracking_error s k).
    change (result (gets (fun s0 => at_ (position_tolerances_ s0) k) _))
      with (at_ (position_tolerances_ s) k).
    destruct (PrimFloat.ltb (at_ (position_tolerances_ s) k) (tracking_error s k)).
    + rewrite !orb_true_r. reflexivity.
    + rewrite orb_false_r. reflexivity.
Qed.

Lemma set_commands_spec s :
  exists js,
    after (set_commands s) = set_joints_ js s /\
    length js = length (joints_ s) /\
    (forall i, i < n_joints_ s -> i < length (joints_ s) ->
       at_ js i = setCommand (at_ (commanded_positions_ s) i) (at_ (joints_ s) i)) /\
    commands_set (trace (set_commands s))
    = map (fun i => (i, at_ (commanded_positions_ s) i)) (seq 0 (n_joints_ s)).
Proof.
  pose (I := fun (k : nat) (s' : Controller) (tr : list event) =>
    exists js,
      s' = set_joints_ js s /\
      length js = length (joints_ s) /\
      (forall i, i < k -> i < length (joints_ s) ->
         at_ js i = setCommand (at_ (commanded_positions_ s) i) (at_ (joints_ s) i)) /\
      (forall i, k <= i -> at_ js i = at_ (joints_ s) i) /\
      commands_set tr
      = map (fun i => (i, at_ (commanded_positions_ s) i)) (seq 0 k)).
  assert (HI : I (n_joints_ s) (after (set_commands s))
                 (trace (set_commands s))).
  { unfold set_commands.
    match goal with |- context [for_joints ?b] => set (body := b) end.
    change (I (n_joints_ s) (after (for_joints body s))
              (ROS_DEBUG "setting command" :: trace (for_joints body s))).
    assert (HI : I (n_joints_ s) (after (for_joints body s))
                   (trace (for_joints body s))).
    { apply (for_joints_inv I).
      - exists (joints_ s).
        split; [destruct s; reflexivity | repeat split; intros; lia].
      - intros k s' tr' Hk (js & -> & Lj & Hlt & Hge & Htr).
        exists (<[k := setCommand (at_ (commanded_positions_ s) k) (at_ js k)]> js).
        split; [reflexivity|]. rewrite length_insert. repeat split.
        + assumption.
        + intros i Hi Hl. entry i k; [rewrite Hge by lia; reflexivity | apply Hlt; lia].
        + intros i Hi. rewrite at_insert_ne by lia. apply Hge. lia.
        + unfold commands_set in *. rewrite omap_app, Htr, seq_S, map_app.
          reflexivity. }
    destruct HI as (js & E & Lj & Hlt & Hge & Htr).
    exists js. repeat split; assumption. }
  destruct HI as (js & E & Lj & Hlt & _ & Htr).
  exists js. repeat split; assumption.
Qed.

Lemma update_rml_input_spec s :
  input_sized (n_joints_ s) (rml_in_ s) ->
  exists p,
    after (for_joints update_rml_input s) = set_rml_in_ p s /\
    input_sized (n_joints_ s) p /\
    forall i, i < n_joints_ s -> input_filled s p i.
Proof.
  intros Hs.
  pose (I := fun (k : nat) (s' : Controller) (_ : list event) =>
    exists p,
      s' = set_rml_in_ p s /\
      input_sized (n_joints_ s) p /\
      forall i, i < k -> input_filled s p i).
  assert (HI : I (n_joints_ s) (after (for_joints update_rml_input s))
                 (trace (for_joints update_rml_input s))).
  { apply (for_joints_inv I).
    - exists (rml_in_ s).
      split; [destruct s; reflexivity | split; [exact Hs | intros; lia]].
    - intros k s' tr' Hk (p & -> & Lp & Hlt).
      exists (mkRMLPositionInputParameters
                (<[k := true]> (SelectionVector p))
                (<[k := getPosition (at_ (joints_ s) k)]> (CurrentPositionVector p))
                (<[k := getVelocity (at_ (joints_ s) k)]> (CurrentVelocityVector p))
                (<[k := at_ (current_joint_acceleration s) k]>
                   (CurrentAccelerationVector p))
                (MaxVelocityVector p) (MaxAccelerationVector p) (MaxJerkVector p)
                (<[k := at_ (target_joint_position s) k]> (TargetPositionVector p))
                (<[k := 0%float]> (TargetVelocityVector p))
                (MinimumSynchronizationTime p)).
      split; [reflexivity|].
      destruct Lp as (L1 & L2 & L3 & L4 & L5 & L6).
      split.
      + unfold input_sized. simpl. rewrite !length_insert.
        repeat split; assumption.
      + intros i Hi. unfold input_filled. simpl.
        entry i k.
        * repeat split; reflexivity.
        * apply Hlt. lia. }
  exact HI.
Qed.

Lemma prepare_plan_spec time period s :
  input_sized (n_joints_ s) (rml_in_ s) ->
  exists p,
    after (prepare_plan time period s)
    = set_rml_flags_
        (mkRMLPositionFlags KEEP_TARGET_VELOCITY ONLY_TIME_SYNCHRONIZATION)
        (set_rml_in_ p (set_traj_start_time_ time s)) /\
    input_sized (n_joints_ s) p /\
    MinimumSynchronizationTime p = toSec (Duration_times period 2%float) /\
    forall i, i < n_joints_ s -> input_filled s p i.
Proof.
  intros Hs. destruct (update_rml_input_spec s Hs) as (p & E & Lp & Hp).
  exists (set_MinimumSynchronizationTime (toSec (Duration_times period 2%float)) p).
  split.
  - unfold prepare_plan. rewrite !after_bind.
    change (after (emit (ROS_DEBUG "RML Recomputing trajectory...") s)) with s.
    rewrite E. reflexivity.
  - repeat split; try apply Lp; apply Hp; assumption.
Qed.

(** *** The replanning block *)

Lemma recompute_clears_flag msg time period r s :
  recompute_trajectory_ (after (recompute msg time period r s)) = false.
Proof.
  unfold recompute. rewrite after_bind.
  change (result (gets recompute_trajectory_ s)) with (recompute_trajectory_ s).
  change (after (gets recompute_trajectory_ s)) with s.
  destruct (recompute_trajectory_ s) eqn:E; [reflexivity | exact E].
Qed.

Lemma recompute_idle msg time period r s :
  recompute_trajectory_ s = false ->
  recompute msg time period r s = (r, s, []).
Proof.
  intros E. unfold recompute. rewrite bind_gets. rewrite E. reflexivity.
Qed.

Lemma recompute_plans msg time period r s :
  input_sized (n_joints_ s) (rml_in_ s) ->
  recompute_trajectory_ s = true ->
  exists p,
    planning_calls (trace (recompute msg time period r s)) = [(p, plan_flags)] /\
    MinimumSynchronizationTime p = toSec (Duration_times period 2%float) /\
    forall i, i < n_joints_ s ->
      input_filled (after (solve_inverse_kinematics msg s)) p i.
Proof.
  intros Hs E.
  set (s1 := after (solve_inverse_kinematics msg s)).
  assert (Fn : n_joints_ s1 = n_joints_ s).
  { assert (F : preserves n_joints_ (solve_inverse_kinematics msg)) by frame.
    apply F. }
  assert (Fi : rml_in_ s1 = rml_in_ s).
  { assert (F : preserves rml_in_ (solve_inverse_kinematics msg)) by frame.
    apply F. }
  destruct (prepare_plan_spec time period s1) as (p & Ep & Lp & Hm & Hp).
  { rewrite Fn, Fi. exact Hs. }
  exists p. split; [|split; [exact Hm | rewrite <- Fn; exact Hp]].
  unfold recompute. rewrite bind_gets, E. unfold planning_calls.
  rewrite trace_bind, omap_app. fold s1.
  rewrite trace_bind, omap_app.
  rewrite trace_bind, omap_app.
  rewrite Ep.
  assert (S1 : silent planning_call (solve_inverse_kinematics msg)) by hush.
  assert (S2 : silent planning_call (prepare_plan time period)) by hush.
  rewrite S1, S2. reflexivity.
Qed.

(** *** The switch and the rest of the cycle *)

Lemma select_command_spec r s :
  exists c,
    after (select_command r s)
    = set_commanded_positions_ c
        (set_recompute_trajectory_
           (recompute_trajectory_ s || Z.eqb r RML_FINAL_STATE_REACHED) s) /\
    length c = length (commanded_positions_ s) /\
    (forall i, i < n_joints_ s -> i < length (commanded_positions_ s) ->
       at_ c i = if planner_error r
                 then getPosition (at_ (joints_ s) i)
                 else at_ (commanded_positions_ s) i) /\
    error_logs (trace (select_command r s))
    = if planner_error r && Z.eqb (Z.rem (loop_count_ s) (decimation_ s)) 0
      then [r] else [].
Proof.
  unfold select_command, planner_error.
  destruct (Z.eqb r RML_WORKING) eqn:E0.
  - apply Z.eqb_eq in E0. subst r.
    exists (commanded_positions_ s). simpl.
    rewrite orb_false_r. repeat split. destruct s; reflexivity.
  - destruct (Z.eqb r RML_FINAL_STATE_REACHED) eqn:E1.
    + exists (commanded_positions_ s). simpl.
      rewrite orb_true_r. repeat split.
    + destruct (hold_measured_position_spec s) as (c & E & Lc & Hc).
      exists c. rewrite !bind_gets. split; [|split; [exact Lc|split]].
      * rewrite after_bind.
        destruct (Z.eqb (Z.rem (loop_count_ s) (decimation_ s)) 0);
          (etransitivity; [exact E|]); simpl; rewrite orb_false_r;
          destruct s; reflexivity.
      * simpl. exact Hc.
      * unfold error_logs. rewrite trace_bind, omap_app.
        assert (S : silent error_log hold_measured_position) by hush.
        rewrite S, app_nil_r.
        destruct (Z.eqb (Z.rem (loop_count_ s) (decimation_ s)) 0); reflexivity.
Qed.

Lemma count_loop_after period s :
  after (count_loop period s) = set_loop_count_ (loop_count_ s + 1)%Z s.
Proof.
  unfold count_loop, after, mbind, M_bind, gets. simpl.
  destruct (Z.eqb (Z.rem (loop_count_ s) (decimation_ s)) 0); simpl;
    destruct (Z.eqb (loop_count_ s) 1000); reflexivity.
Qed.

Lemma supervise_and_command_spec period r s :
  length (commanded_positions_ s) = n_joints_ s ->
  length (joints_ s) = n_joints_ s ->
  exists c js,
    after (supervise_and_command period r s)
    = set_loop_count_ (loop_count_ s + 1)%Z
        (set_joints_ js
          (set_commanded_positions_ c
            (set_recompute_trajectory_
               (recompute_trajectory_ s || any_violation s
                || Z.eqb r RML_FINAL_STATE_REACHED) s))) /\
    length c = n_joints_ s /\
    length js = n_joints_ s /\
    (forall i, i < n_joints_ s ->
       at_ c i = selected_command r s i /\
       at_ js i = setCommand (selected_command r s i) (at_ (joints_ s) i)) /\
    commands_set (trace (supervise_and_command period r s))
    = map (fun i => (i, selected_command r s i)) (seq 0 (n_joints_ s)) /\
    error_logs (trace (supervise_and_command period r s))
    = if planner_error r && Z.eqb (Z.rem (loop_count_ s) (decimation_ s)) 0
      then [r] else [].
Proof.
  intros Lc Lj.
  pose proof (check_tolerances_spec s) as E2.
  set (s2 := set_recompute_trajectory_
               (recompute_trajectory_ s || any_violation s) s) in E2.
  destruct (compute_command_spec s2) as (c1 & E1 & L1 & H1).
  set (s3 := set_commanded_positions_ c1 s2) in E1.
  destruct (select_command_spec r s3) as (c & E3 & L3 & H3 & T3).
  set (s4 := set_commanded_positions_ c
               (set_recompute_trajectory_
                  (recompute_trajectory_ s3 || Z.eqb r RML_FINAL_STATE_REACHED) s3)) in E3.
  destruct (set_commands_spec s4) as (js & E4 & L4 & H4 & T4).
  set (s5 := set_joints_ js s4) in E4.
  pose proof (count_loop_after period s5) as E5.
  assert (L1' : length c1 = n_joints_ s) by (rewrite L1; exact Lc).
  assert (L3' : length c = n_joints_ s) by (rewrite L3; exact L1').
  assert (L4' : length js = n_joints_ s) by (rewrite L4; exact Lj).
  assert (Hc : forall i, i < n_joints_ s -> at_ c i = selected_command r s i).
  { intros i Hi. unfold selected_command.
    rewrite (H3 i) by (unfold s3, s2; simpl; lia).
    destruct (planner_error r); [reflexivity|].
    apply (H1 i); unfold s2; simpl; lia. }
  exists c, js. repeat split.
  - unfold supervise_and_command. rewrite !after_bind.
    rewrite E2, E1, E3, E4, E5. reflexivity.
  - exact L3'.
  - exact L4'.
  - apply Hc. assumption.
  - rewrite (H4 i) by (unfold s4, s3, s2; simpl; lia).
    unfold s4, s3, s2; simpl. rewrite Hc by assumption. reflexivity.
  - unfold supervise_and_command, commands_set.
    rewrite !trace_bind, !omap_app.
    rewrite E2, E1, E3, E4.
    assert (S1 : silent command_set check_tolerances) by hush.
    assert (S2 : silent command_set compute_command) by hush.
    assert (S3 : silent command_set (select_command r)) by hush.
    assert (S5 : silent command_set (count_loop period)) by hush.
    rewrite S1, S2, S3, S5, app_nil_r, !app_nil_l.
    unfold commands_set in T4. rewrite T4.
    change (n_joints_ s4) with (n_joints_ s).
    apply map_ext_in. intros i Hi. apply in_seq in Hi.
    change (commanded_positions_ s4) with c.
    rewrite Hc by lia. reflexivity.
  - unfold supervise_and_command, error_logs.
    rewrite !trace_bind, !omap_app.
    rewrite E2, E1, E3, E4.
    assert (S1 : silent error_log check_tolerances) by hush.
    assert (S2 : silent error_log compute_command) by hush.
    assert (S4 : silent error_log set_commands) by hush.
    assert (S5 : silent error_log (count_loop period)) by hush.
    rewrite S1, S2, S4, S5, !app_nil_r, !app_nil_l.
    exact T3.
Qed.

(** *** The first half of the cycle *)

Lemma check_new_reference_flag s :
  recompute_trajectory_ (after (check_new_reference s))
  = new_reference_ s || recompute_trajectory_ s.
Proof.
  unfold check_new_reference. rewrite bind_gets.
  destruct (new_reference_ s); reflexivity.
Qed.

Lemma before_recompute_flag s :
  recompute_trajectory_ (before_recompute s)
  = new_reference_ s || recompute_trajectory_ s.
Proof.
  unfold before_recompute.
  assert (F1 : preserves recompute_trajectory_ compute_acceleration) by frame.
  rewrite F1, check_new_reference_flag. reflexivity.
Qed.

Lemma before_recompute_frame {B} (f : Controller -> B) s :
  preserves f read_command -> preserves f check_new_reference ->
  preserves f compute_acceleration ->
  f (before_recompute s) = f s.
Proof.
  intros F1 F2 F3. unfold before_recompute. rewrite F3, F2, F1. reflexivity.
Qed.

Lemma plan_and_sample_after time period s :
  after (plan_and_sample time period s)
  = after (sample time
      (after (recompute (result (read_command s)) time period 0%Z
                (before_recompute s)))).
Proof. reflexivity. Qed.

Lemma plan_and_sample_result time period s :
  result (plan_and_sample time period s)
  = result (sample time
      (after (recompute (result (read_command s)) time period 0%Z
                (before_recompute s)))).
Proof. reflexivity. Qed.

Lemma plan_and_sample_clears_flag time period s :
  recompute_trajectory_ (after (plan_and_sample time period s)) = false.
Proof.
  rewrite plan_and_sample_after.
  assert (F : preserves recompute_trajectory_ (sample time)) by frame.
  rewrite F. apply recompute_clears_flag.
Qed.

Lemma plan_and_sample_planning time period s :
  planning_calls (trace (plan_and_sample time period s))
  = planning_calls
      (trace (recompute (result (read_command s)) time period 0%Z
                (before_recompute s))).
Proof.
  unfold plan_and_sample, planning_calls.
  rewrite !trace_bind, !omap_app.
  assert (S1 : silent planning_call read_command) by hush.
  assert (S2 : silent planning_call check_new_reference) by hush.
  assert (S3 : silent planning_call compute_acceleration) by hush.
  assert (S4 : silent planning_call (sample time)) by hush.
  rewrite S1, S2, S3, S4. simpl. rewrite app_nil_r. reflexivity.
Qed.

Lemma update_planning time period s :
  planning_calls (trace (update time period s))
  = planning_calls (trace (plan_and_sample time period s)).
Proof.
  unfold update, planning_calls. rewrite trace_bind, omap_app.
  assert (S : forall r, silent planning_call (supervise_and_command period r))
    by (intros r; hush).
  rewrite S, app_nil_r. reflexivity.
Qed.

(** *** The whole cycle *)

Lemma sized_lengths s :
  sized s ->
  length (joints_ s) = n_joints_ s /\
  length (commanded_positions_ s) = n_joints_ s.
Proof. intros (L1 & _ & L3 & _). split; assumption. Qed.

Lemma update_spec time period s :
  length (joints_ s) = n_joints_ s ->
  length (commanded_positions_ s) = n_joints_ s ->
  let r := sampled_status time period s in
  let s1 := after (plan_and_sample time period s) in
  exists c js,
    after (update time period s)
    = set_loop_count_ (loop_count_ s + 1)%Z
        (set_joints_ js
          (set_commanded_positions_ c
            (set_recompute_trajectory_
               (tolerance_violated time period s
                || Z.eqb r RML_FINAL_STATE_REACHED) s1))) /\
    length c = n_joints_ s /\
    length js = n_joints_ s /\
    (forall i, i < n_joints_ s ->
       at_ c i = selected_command r s1 i /\
       at_ js i = setCommand (selected_command r s1 i) (at_ (joints_ s) i)) /\
    commands_set (trace (update time period s))
    = map (fun i => (i, selected_command r s1 i)) (seq 0 (n_joints_ s)) /\
    error_logs (trace (update time period s))
    = if planner_error r && Z.eqb (Z.rem (loop_count_ s) (decimation_ s)) 0
      then [r] else [].
Proof.
  intros Lj Lc. cbv zeta.
  unfold sampled_status, tolerance_violated.
  set (r := result (plan_and_sample time period s)).
  set (s1 := after (plan_and_sample time period s)).
  assert (Fj : joints_ s1 = joints_ s).
  { assert (F : preserves joints_ (plan_and_sample time period)) by frame. apply F. }
  assert (Fn : n_joints_ s1 = n_joints_ s).
  { assert (F : preserves n_joints_ (plan_and_sample time period)) by frame. apply F. }
  assert (Fc : commanded_positions_ s1 = commanded_positions_ s).
  { assert (F : preserves commanded_positions_ (plan_and_sample time period))
      by frame. apply F. }
  assert (Fl : loop_count_ s1 = loop_count_ s).
  { assert (F : preserves loop_count_ (plan_and_sample time period)) by frame.
    apply F. }
  assert (Fd : decimation_ s1 = decimation_ s).
  { assert (F : preserves decimation_ (plan_and_sample time period)) by frame.
    apply F. }
  assert (Ff : recompute_trajectory_ s1 = false)
    by apply plan_and_sample_clears_flag.
  assert (Eu : after (update time period s)
               = after (supervise_and_command period r s1)).
  { unfold update. rewrite after_bind. reflexivity. }
  assert (Tu : trace (update time period s)
               = trace (plan_and_sample time period s)
                 ++ trace (supervise_and_command period r s1)).
  { unfold update. rewrite trace_bind. reflexivity. }
  clearbody r s1.
  destruct (supervise_and_command_spec period r s1)
    as (c & js & E & L1 & L2 & Hc & Tc & Te).
  { rewrite Fc, Fn. exact Lc. }
  { rewrite Fj, Fn. exact Lj. }
  rewrite Ff, Fl, Fd, Fn in *.
  exists c, js.
  split; [rewrite Eu, E; reflexivity|].
  split; [exact L1|]. split; [exact L2|].
  split; [|split].
  - intros i Hi. rewrite <- Fj. apply Hc. exact Hi.
  - unfold commands_set in *. rewrite Tu, omap_app.
    rewrite (plan_and_sample_silent_commands time period s). exact Tc.
  - unfold error_logs in *. rewrite Tu, omap_app.
    rewrite (plan_and_sample_silent_errors time period s). exact Te.
Qed.

(** *** Counting loops *)

Lemma update_loop_count time period s :
  loop_count_ (after (update time period s)) = (loop_count_ s + 1)%Z.
Proof.
  unfold update, supervise_and_command. rewrite !after_bind.
  rewrite count_loop_after. simpl.
  assert (F1 : preserves loop_count_ set_commands) by frame.
  assert (F2 : forall r, preserves loop_count_ (select_command r))
    by (intros r; frame).
  assert (F3 : preserves loop_count_ compute_command) by frame.
  assert (F4 : preserves loop_count_ check_tolerances) by frame.
  assert (F5 : preserves loop_count_ (plan_and_sample time period)) by frame.
  rewrite F1, F2, F3, F4, F5. reflexivity.
Qed.

Lemma update_decimation time period s :
  decimation_ (after (update time period s)) = decimation_ s.
Proof.
  assert (F : preserves decimation_ (update time period)) by frame.
  apply F.
Qed.

Lemma update_error_logs time period s :
  error_logs (trace (update time period s))
  = if planner_error (sampled_status time period s)
       && Z.eqb (Z.rem (loop_count_ s) (decimation_ s)) 0
    then [sampled_status time period s] else [].
Proof.
  unfold update, supervise_and_command, error_logs.
  rewrite !trace_bind, !omap_app.
  assert (S0 : silent error_log (plan_and_sample time period)) by hush.
  assert (S1 : silent error_log check_tolerances) by hush.
  assert (S2 : silent error_log compute_command) by hush.
  assert (S4 : silent error_log set_commands) by hush.
  assert (S5 : silent error_log (count_loop period)) by hush.
  rewrite S0, S1, S2, S4, S5, !app_nil_r, !app_nil_l.
  match goal with
  | |- omap error_log (trace (select_command ?r ?x)) = _ =>
      destruct (select_command_spec r x) as (c & _ & _ & _ & T);
      unfold error_logs in T; rewrite T;
      assert (Fl : loop_count_ x = loop_count_ s);
      [|assert (Fd : decimation_ x = decimation_ s)]
  end.
  - assert (F3 : preserves loop_count_ compute_command) by frame.
    assert (F4 : preserves loop_count_ check_tolerances) by frame.
    assert (F5 : preserves loop_count_ (plan_and_sample time period)) by frame.
    rewrite F3, F4, F5. reflexivity.
  - assert (F3 : preserves decimation_ compute_command) by frame.
    assert (F4 : preserves decimation_ check_tolerances) by frame.
    assert (F5 : preserves decimation_ (plan_and_sample time period)) by frame.
    rewrite F3, F4, F5. reflexivity.
  - rewrite Fl, Fd. reflexivity.
Qed.

(** *** Runs *)

Lemma multiples_none N a d len :
  (0 < d)%Z -> (d + Z.of_nat len <= N)%Z -> Z.rem a N = 0%Z ->
  multiples N (a + d) len = 0.
Proof.
  revert d. induction len as [|len IH]; intros d Hd Hle Ha; [reflexivity|].
  simpl multiples.
  assert (HN : N <> 0%Z) by lia.
  destruct (Z.eqb (Z.rem (a + d) N) 0) eqn:E.
  - exfalso. apply Z.eqb_eq in E.
    apply Z.rem_divide in Ha; [|exact HN].
    apply Z.rem_divide in E; [|exact HN].
    destruct Ha as [x Hx]. destruct E as [y Hy].
    assert (Hd' : d = ((y - x) * N)%Z) by lia.
    assert (0 < y - x)%Z by nia. nia.
  - rewrite <- Z.add_assoc. apply IH; lia.
Qed.

Lemma multiples_le_1 N a len :
  (0 < N)%Z -> (Z.of_nat len <= N)%Z -> multiples N a len <= 1.
Proof.
  intros HN. revert a. induction len as [|len IH]; intros a Hle; [simpl; lia|].
  simpl multiples.
  destruct (Z.eqb (Z.rem a N) 0) eqn:E.
  - apply Z.eqb_eq in E. rewrite (multiples_none N a 1 len); lia.
  - simpl. apply IH. lia.
Qed.

Lemma react_loop_count x s :
  loop_count_ (after (react x s))
  = (loop_count_ s + if is_cycle x then 1 else 0)%Z.
Proof.
  destruct x as [readings|msg|time period]; simpl is_cycle.
  - simpl. lia.
  - assert (F : preserves loop_count_ (setTrajectoryCommand msg)) by frame.
    simpl react. rewrite F. lia.
  - apply update_loop_count.
Qed.

Lemma react_decimation x s : decimation_ (after (react x s)) = decimation_ s.
Proof.
  assert (F : preserves decimation_ (react x))
    by (destruct x; simpl react; frame).
  apply F.
Qed.

Lemma react_error_logs x s :
  length (error_logs (trace (react x s)))
  <= if is_cycle x && Z.eqb (Z.rem (loop_count_ s) (decimation_ s)) 0
     then 1 else 0.
Proof.
  destruct x as [readings|msg|time period]; simpl is_cycle.
  - simpl. lia.
  - assert (S : silent error_log (setTrajectoryCommand msg)) by hush.
    simpl react. unfold error_logs. rewrite S. simpl. lia.
  - simpl react. rewrite update_error_logs.
    destruct (planner_error (sampled_status time period s));
      destruct (Z.eqb (Z.rem (loop_count_ s) (decimation_ s)) 0); simpl; lia.
Qed.

Lemma run_error_logs xs s :
  length (error_logs (trace (run xs s)))
  <= multiples (decimation_ s) (loop_count_ s) (cycles xs).
Proof.
  revert s. induction xs as [|x xs IH]; intros s; [simpl; lia|].
  change (run (x :: xs)) with (react x ≫= fun _ => run xs).
  unfold error_logs in *. rewrite trace_bind, omap_app, length_app.
  pose proof (react_error_logs x s) as Hx. unfold error_logs in Hx.
  pose proof (IH (after (react x s))) as Hxs.
  rewrite react_decimation, react_loop_count in Hxs.
  simpl cycles. destruct (is_cycle x); simpl in *.
  - destruct (Z.eqb (Z.rem (loop_count_ s) (decimation_ s)) 0); lia.
  - rewrite Z.add_0_r in Hxs. lia.
Qed.

End Cycle.

Section Sizes.
Context {Lib : Libraries} {Col : Collaborators}.

(** *** The vectors keep their size *)

Lemma sized_shape s s' : shape s' = shape s -> sized s -> sized s'.
Proof.
  unfold shape, sized, input_sized. intros E. injection E as -> -> -> -> -> -> -> -> -> -> -> -> ->.
  exact (fun x => x).
Qed.

Lemma update_sized time period s : sized s -> sized (after (update time period s)).
Proof.
  apply sized_shape.
  assert (F : preserves shape (update time period)) by frame.
  apply F.
Qed.

Lemma react_sized x s : sized s -> sized (after (react x s)).
Proof.
  destruct x as [readings|msg|time period]; simpl react.
  - apply sized_shape. unfold shape, refresh. simpl.
    rewrite length_imap. reflexivity.
  - apply sized_shape.
    assert (F : preserves shape (setTrajectoryCommand msg)) by frame.
    apply F.
  - apply update_sized.
Qed.

Lemma run_sized xs s : sized s -> sized (after (run xs s)).
Proof.
  revert s. induction xs as [|x xs IH]; intros s Hs; [exact Hs|].
  change (run (x :: xs)) with (react x ≫= fun _ => run xs).
  rewrite after_bind. apply IH, react_sized, Hs.
Qed.

Lemma starting_sized time s : sized s -> sized (after (starting time s)).
Proof.
  apply sized_shape.
  assert (F : preserves shape (starting time)) by frame.
  apply F.
Qed.

(** *** The tolerances are read by the tolerance check alone *)

Lemma blind_ret {A} (a : A) : tolerance_blind (mret a).
Proof. intros tol s. reflexivity. Qed.

Lemma blind_bind {A B} (m : M A) (k : A -> M B) :
  tolerance_blind m -> (forall a, tolerance_blind (k a)) ->
  tolerance_blind (m ≫= k).
Proof.
  intros Hm Hk tol s. unfold mbind, M_bind.
  rewrite Hm. simpl. rewrite Hk. reflexivity.
Qed.

Lemma blind_gets {A} (f : Controller -> A) :
  (forall tol s, f (with_tolerances tol s) = f s) -> tolerance_blind (gets f).
Proof. intros Hf tol s. unfold gets. rewrite Hf. reflexivity. Qed.

Lemma blind_modify g :
  (forall tol s, g (with_tolerances tol s) = with_tolerances tol (g s)) ->
  tolerance_blind (modify g).
Proof. intros Hg tol s. unfold modify. rewrite Hg. reflexivity. Qed.

Lemma blind_emit e : tolerance_blind (emit e).
Proof. intros tol s. reflexivity. Qed.

Lemma blind_for_each l body :
  (forall i, tolerance_blind (body i)) -> tolerance_blind (for_each l body).
Proof.
  intros Hb. induction l as [|i l IH]; simpl.
  - apply blind_ret.
  - apply blind_bind; auto.
Qed.

Ltac blind_step :=
  lazymatch goal with
  | |- tolerance_blind (mret _) => apply blind_ret
  | |- tolerance_blind (_ ≫= _) => apply blind_bind; [|intros ?]
  | |- tolerance_blind (gets _) => apply blind_gets; intros ? ?; reflexivity
  | |- tolerance_blind (emit _) => apply blind_emit
  | |- tolerance_blind (modify _) => apply blind_modify; intros ? ?; reflexivity
  | |- tolerance_blind (for_each _ _) => apply blind_for_each; intros ?
  | |- tolerance_blind (if ?b then _ else _) => destruct b
  | |- tolerance_blind _ =>
      first [ progress autounfold with cycle | intros ? ?; reflexivity ]
  end.

Lemma plan_and_sample_blind time period :
  tolerance_blind (plan_and_sample time period).
Proof. repeat blind_step. Qed.

End Sizes.

(** *** The result code of plan creation is dropped *)

Lemma outcome_eq {Lib : Libraries} {A} (x y : A * Controller * list event) :
  result x = result y -> after x = after y -> trace x = trace y -> x = y.
Proof.
  destruct x as [[a s] tr], y as [[a' s'] tr']. unfold result, after, trace.
  simpl. intros -> -> ->. reflexivity.
Qed.

Lemma trace_ret {Lib : Libraries} {A} (a : A) s : trace ((mret a : M A) s) = [].
Proof. reflexivity. Qed.

Lemma plan_and_sample_trace {Lib : Libraries} {Col : Collaborators} time period s :
  trace (plan_and_sample time period s)
  = trace (read_command s)
    ++ trace (check_new_reference (after (read_command s)))
    ++ trace (compute_acceleration
                (after (check_new_reference (after (read_command s)))))
    ++ trace (recompute (result (read_command s)) time period 0%Z
                (before_recompute s))
    ++ trace (sample time
                (after (recompute (result (read_command s)) time period 0%Z
                          (before_recompute s)))).
Proof.
  unfold plan_and_sample. rewrite !trace_bind.
  unfold before_recompute. rewrite trace_ret, app_nil_r. reflexivity.
Qed.

Section PlanStatus.
Context {Lib : Libraries} (C : Collaborators) (g : Z -> Z).

Lemma recompute_plan_status msg time period r s :
  after (recompute (Col := with_plan_status g C) msg time period r s)
  = after (recompute (Col := C) msg time period r s) /\
  trace (recompute (Col := with_plan_status g C) msg time period r s)
  = trace (recompute (Col := C) msg time period r s).
Proof.
  unfold recompute. rewrite !bind_gets.
  destruct (recompute_trajectory_ s); [|split; reflexivity].
  change (solve_inverse_kinematics (Col := with_plan_status g C) msg)
    with (solve_inverse_kinematics (Col := C) msg).
  change (prepare_plan (Col := with_plan_status g C) time period)
    with (prepare_plan (Col := C) time period).
  rewrite !after_bind, !trace_bind. split; reflexivity.
Qed.

Lemma plan_and_sample_plan_status time period s :
  plan_and_sample (Col := with_plan_status g C) time period s
  = plan_and_sample (Col := C) time period s.
Proof.
  apply outcome_eq.
  - rewrite !plan_and_sample_result.
    change (read_command (Col := with_plan_status g C)) with (read_command (Col := C)).
    change (before_recompute (Col := with_plan_status g C) s)
      with (before_recompute (Col := C) s).
    destruct (recompute_plan_status (result (read_command s)) time period 0%Z
                (before_recompute s)) as [-> _].
    reflexivity.
  - rewrite !plan_and_sample_after.
    change (read_command (Col := with_plan_status g C)) with (read_command (Col := C)).
    change (before_recompute (Col := with_plan_status g C) s)
      with (before_recompute (Col := C) s).
    destruct (recompute_plan_status (result (read_command s)) time period 0%Z
                (before_recompute s)) as [-> _].
    reflexivity.
  - rewrite !plan_and_sample_trace.
    change (read_command (Col := with_plan_status g C)) with (read_command (Col := C)).
    change (before_recompute (Col := with_plan_status g C) s)
      with (before_recompute (Col := C) s).
    change (sample (Col := with_plan_status g C) time) with (sample (Col := C) time).
    destruct (recompute_plan_status (result (read_command s)) time period 0%Z
                (before_recompute s)) as [-> ->].
    reflexivity.
Qed.

Lemma update_ignores_plan_status time period s :
  update (Col := with_plan_status g C) time period s
  = update (Col := C) time period s.
Proof.
  unfold update, mbind, M_bind.
  rewrite plan_and_sample_plan_status.
  reflexivity.
Qed.

End PlanStatus.

Section Consequences.
Context {Lib : Libraries} {Col : Collaborators}.

Lemma update_emitted time period s i :
  sized s -> i < n_joints_ s ->
  emitted_command (after (update time period s)) i
  = selected_command (sampled_status time period s)
      (after (plan_and_sample time period s)) i.
Proof.
  intros Hs Hi. destruct (sized_lengths s Hs) as [Lj Lc].
  destruct (update_spec time period s Lj Lc) as (c & js & E & _ & _ & Hc & _).
  unfold emitted_command. rewrite E. simpl.
  destruct (Hc i Hi) as [_ ->]. reflexivity.
Qed.

Lemma update_flag time period s :
  sized s ->
  recompute_trajectory_ (after (update time period s))
  = tolerance_violated time period s
    || Z.eqb (sampled_status time period s) RML_FINAL_STATE_REACHED.
Proof.
  intros Hs. destruct (sized_lengths s Hs) as [Lj Lc].
  destruct (update_spec time period s Lj Lc) as (c & js & E & _).
  rewrite E. reflexivity.
Qed.

Lemma update_commands time period s :
  sized s ->
  commands_set (trace (update time period s))
  = map (fun i => (i, selected_command (sampled_status time period s)
                        (after (plan_and_sample time period s)) i))
        (seq 0 (n_joints_ s)).
Proof.
  intros Hs. destruct (sized_lengths s Hs) as [Lj Lc].
  destruct (update_spec time period s Lj Lc) as (c & js & _ & _ & _ & _ & T & _).
  exact T.
Qed.

Lemma planner_error_true r :
  r <> RML_WORKING -> r <> RML_FINAL_STATE_REACHED -> planner_error r = true.
Proof.
  intros H0 H1. unfold planner_error.
  destruct (Z.eqb_spec r RML_WORKING); [contradiction|].
  destruct (Z.eqb_spec r RML_FINAL_STATE_REACHED); [contradiction|].
  reflexivity.
Qed.

Lemma selected_sampled time period s i :
  planner_error (sampled_status time period s) = false ->
  selected_command (sampled_status time period s)
    (after (plan_and_sample time period s)) i
  = sampled_position time period s i.
Proof. intros E. unfold selected_command. rewrite E. reflexivity. Qed.

Lemma selected_measured time period s i :
  planner_error (sampled_status time period s) = true ->
  selected_command (sampled_status time period s)
    (after (plan_and_sample time period s)) i
  = measured_position s i.
Proof.
  intros E. unfold selected_command, measured_position. rewrite E.
  assert (F : preserves joints_ (plan_and_sample time period)) by frame.
  rewrite F. reflexivity.
Qed.

Lemma violation_detected time period s i :
  i < n_joints_ s ->
  violated (after (plan_and_sample time period s)) i = true ->
  tolerance_violated time period s = true.
Proof.
  intros Hi Hv. unfold tolerance_violated, any_violation.
  apply existsb_exists. exists i. split; [|exact Hv].
  assert (F : preserves n_joints_ (plan_and_sample time period)) by frame.
  rewrite F. apply in_seq. lia.
Qed.

Lemma with_tolerances_sized_lengths tol s :
  sized s ->
  length (joints_ (with_tolerances tol s)) = n_joints_ (with_tolerances tol s) /\
  length (commanded_positions_ (with_tolerances tol s))
  = n_joints_ (with_tolerances tol s).
Proof. intros Hs. exact (sized_lengths s Hs). Qed.

Lemma update_commands_ignore_tolerances time period s tol :
  sized s ->
  commands_set (trace (update time period (with_tolerances tol s)))
  = commands_set (trace (update time period s)).
Proof.
  intros Hs. rewrite (update_commands time period s Hs).
  destruct (with_tolerances_sized_lengths tol s Hs) as [Lj Lc].
  destruct (update_spec time period (with_tolerances tol s) Lj Lc)
    as (c & js & _ & _ & _ & _ & T & _).
  rewrite T. unfold sampled_status.
  rewrite (plan_and_sample_blind time period tol s).
  reflexivity.
Qed.

(** Whatever result code the solver returned, a requested replan is
    begun, on the joint target the solver call left behind. *)
Lemma replan_takes_what_the_solver_left time period s :
  sized s ->
  new_reference_ s || recompute_trajectory_ s = true ->
  exists p,
    planning_calls (trace (update time period s)) = [(p, plan_flags)] /\
    forall i, i < n_joints_ s ->
      at_ (TargetPositionVector p) i
      = at_ (target_joint_position
               (after (solve_inverse_kinematics (result (read_command s))
                         (before_recompute s)))) i.
Proof.
  intros Hs Hf.
  rewrite update_planning, plan_and_sample_planning.
  assert (Fn : n_joints_ (before_recompute s) = n_joints_ s)
    by (apply (before_recompute_frame n_joints_ s); frame).
  assert (Fi : rml_in_ (before_recompute s) = rml_in_ s)
    by (apply (before_recompute_frame rml_in_ s); frame).
  destruct (recompute_plans (result (read_command s)) time period 0%Z
              (before_recompute s)) as (p & E & _ & Hp).
  { rewrite Fn, Fi. apply Hs. }
  { rewrite before_recompute_flag. exact Hf. }
  exists p. split; [exact E|].
  intros i Hi. apply Hp. rewrite Fn. exact Hi.
Qed.

End Consequences.

(** ** More about the cycle *)

(** Entry [i] after a write to entry [k]. *)
Ltac slot i k :=
  destruct (decide (i = k)) as [->|];
  [ rewrite ?at_insert_eq by lia
  | rewrite ?at_insert_ne by lia ].

(** Name a state and forget how it came about. *)
Ltac forget t x :=
  let E := fresh "E" in
  remember t as x eqn:E in *; clear E;
  generalize dependent x; intro x; intros.

Section MoreCycle.
Context {Lib : Libraries} {Col : Collaborators}.

(** *** The flags when the cycle returns *)

Lemma check_new_reference_clears s :
  new_reference_ (after (check_new_reference s)) = false.
Proof.
  unfold check_new_reference. rewrite bind_gets.
  destruct (new_reference_ s) eqn:E; [reflexivity | exact E].
Qed.

Lemma update_clears_new_reference time period s :
  new_reference_ (after (update time period s)) = false.
Proof.
  unfold update. rewrite after_bind.
  assert (F1 : forall r, preserves new_reference_ (supervise_and_command period r))
    by (intros r; frame).
  assert (F2 : preserves new_reference_ (sample time)) by frame.
  assert (F3 : forall msg r, preserves new_reference_ (recompute msg time period r))
    by (intros msg r; frame).
  assert (F4 : preserves new_reference_ compute_acceleration) by frame.
  rewrite F1, plan_and_sample_after, F2, F3.
  unfold before_recompute. rewrite F4. apply check_new_reference_clears.
Qed.

Lemma update_configuration time period :
  preserves configuration (update time period).
Proof. frame. Qed.

Lemma measured_set_command (js : list JointHandle) i c :
  map getPosition (<[i := setCommand c (at_ js i)]> js) = map getPosition js /\
  map getVelocity (<[i := setCommand c (at_ js i)]> js) = map getVelocity js.
Proof.
  split; apply list_eq; intros k; rewrite !list_lookup_fmap;
    (destruct (decide (i = k)) as [->|Hne];
     [ destruct (js !! k) as [x|] eqn:E;
       [ rewrite list_lookup_insert_eq by (eapply lookup_lt_Some; exact E);
         unfold at_; rewrite (list_lookup_total_correct js k x E); reflexivity
       | rewrite list_insert_ge by (apply lookup_ge_None; exact E);
         rewrite E; reflexivity ]
     | rewrite list_lookup_insert_ne by exact Hne; reflexivity ]).
Qed.

Lemma set_commands_measured : preserves measured set_commands.
Proof.
  unfold set_commands, for_joints.
  apply preserves_bind; [apply preserves_emit|intros _].
  apply preserves_bind; [apply preserves_gets|intros n].
  apply preserves_for_each. intros i.
  apply preserves_bind; [apply preserves_gets|intros c].
  apply preserves_bind; [|intros _; apply preserves_emit].
  apply preserves_modify. intros s. unfold measured. simpl.
  destruct (measured_set_command (joints_ s) i c) as [-> ->]. reflexivity.
Qed.

(** *** The solver call *)

Lemma solve_inverse_kinematics_spec msg s :
  exists q,
    let r := CartToJnt (tracik_solver s) q (poseMsgToKDL (pose msg))
                       (target_joint_position s) in
    after (solve_inverse_kinematics msg s)
    = set_target_joint_position r.1.2
        (set_tracik_solver r.1.1
           (set_target_cart_position (poseMsgToKDL (pose msg))
              (set_current_joint_position q s))) /\
    result (solve_inverse_kinematics msg s) = r.2 /\
    trace (solve_inverse_kinematics msg s)
    = [CartToJnt_called q (poseMsgToKDL (pose msg))] /\
    length q = length (current_joint_position s) /\
    forall i, i < n_joints_ s -> i < length (current_joint_position s) ->
      at_ q i = getPosition (at_ (joints_ s) i).
Proof.
  unfold solve_inverse_kinematics.
  match goal with |- context [for_joints ?b] => set (body := b) end.
  pose (I := fun (k : nat) (s' : Controller) (tr : list event) =>
    exists q,
      s' = set_current_joint_position q s /\ tr = [] /\
      length q = length (current_joint_position s) /\
      forall i, i < k -> i < length (current_joint_position s) ->
        at_ q i = getPosition (at_ (joints_ s) i)).
  assert (HI : I (n_joints_ s) (after (for_joints body s))
                 (trace (for_joints body s))).
  { apply (for_joints_inv I).
    - exists (current_joint_position s).
      split; [destruct s; reflexivity | repeat split; intros; lia].
    - intros k s' tr' Hk (q & -> & -> & Lq & Hlt).
      exists (<[k := getPosition (at_ (joints_ s) k)]> q).
      split; [reflexivity|]. split; [reflexivity|].
      rewrite length_insert. split; [assumption|].
      intros i Hi Hl. slot i k; [reflexivity | apply Hlt; lia]. }
  destruct HI as (q & E & Et & Lq & Hq).
  exists q. cbv zeta.
  rewrite !after_bind, !result_bind, !trace_bind, E, Et.
  repeat split; assumption.
Qed.

(** *** The tolerance warnings *)

Lemma check_tolerances_warnings s :
  tracking_warnings (trace (check_tolerances s))
  = map (fun i => (i, tracking_error s i, at_ (position_tolerances_ s) i))
        (List.filter (violated s) (seq 0 (n_joints_ s))).
Proof.
  pose (I := fun (k : nat) (s' : Controller) (tr : list event) =>
    (exists b, s' = set_recompute_trajectory_ b s) /\
    tracking_warnings tr
    = map (fun i => (i, tracking_error s i, at_ (position_tolerances_ s) i))
          (List.filter (violated s) (seq 0 k))).
  assert (HI : I (n_joints_ s) (after (check_tolerances s))
                 (trace (check_tolerances s))).
  { apply (for_joints_inv I).
    - split; [|reflexivity].
      exists (recompute_trajectory_ s). destruct s; reflexivity.
    - intros k s' tr' Hk [[b ->] Htr]. unfold I.
      rewrite seq_S, List.filter_app, map_app. simpl.
      unfold tracking_warnings in *. rewrite omap_app, Htr.
      rewrite !bind_gets.
      change (tracking_error (set_recompute_trajectory_ b s) k)
        with (tracking_error s k).
      change (at_ (position_tolerances_ (set_recompute_trajectory_ b s)) k)
        with (at_ (position_tolerances_ s) k).
      change (violated s k)
        with (PrimFloat.ltb (at_ (position_tolerances_ s) k) (tracking_error s k)).
      destruct (PrimFloat.ltb (at_ (position_tolerances_ s) k) (tracking_error s k)).
      + split; [exists true; reflexivity | reflexivity].
      + split; [exists b; reflexivity | reflexivity]. }
  apply HI.
Qed.

(** *** The replanning block, call by call *)

Lemma recompute_trace msg time period r s :
  recompute_trajectory_ s = true ->
  trace (recompute msg time period r s)
  = trace (solve_inverse_kinematics msg s)
    ++ trace (prepare_plan time period (after (solve_inverse_kinematics msg s)))
    ++ [RMLPosition_called
          (rml_in_ (after (prepare_plan time period
                             (after (solve_inverse_kinematics msg s)))))
          (rml_flags_ (after (prepare_plan time period
                                (after (solve_inverse_kinematics msg s)))))].
Proof.
  intros E. unfold recompute. rewrite bind_gets, E.
  rewrite !trace_bind. reflexivity.
Qed.

Lemma recompute_after msg time period r s :
  recompute_trajectory_ s = true ->
  let sx := after (prepare_plan time period
                     (after (solve_inverse_kinematics msg s))) in
  let x := RMLPosition (rml_ sx) (rml_in_ sx) (rml_out_ sx) (rml_flags_ sx) in
  after (recompute msg time period r s)
  = set_recompute_trajectory_ false (set_rml_out_ x.1.2 (set_rml_ x.1.1 sx)).
Proof.
  intros E sx x. unfold recompute. rewrite bind_gets, E.
  rewrite !after_bind. fold sx. subst x. clearbody sx. reflexivity.
Qed.

(** The state the replanning block starts in, against the state the cycle
    started in. *)
Lemma before_recompute_same {B} (f : Controller -> B) s :
  preserves f (read_command ≫= fun _ =>
               check_new_reference ≫= fun _ => compute_acceleration) ->
  f (before_recompute s) = f s.
Proof. intros F. apply F. Qed.

Lemma before_recompute_acceleration s i :
  sized s -> i < n_joints_ s ->
  at_ (current_joint_acceleration (before_recompute s)) i
  = PrimFloat.sub (getVelocity (at_ (joints_ s) i))
                  (at_ (previous_joint_velocity s) i).
Proof.
  intros (Lj & _ & _ & Lp & La & _) Hi.
  set (sb := after (check_new_reference (after (read_command s)))).
  assert (Fb : forall {B} (f : Controller -> B),
             preserves f (read_command ≫= fun _ => check_new_reference) ->
             f sb = f s).
  { intros B f F. apply F. }
  assert (Fj : joints_ sb = joints_ s) by (apply Fb; frame).
  assert (Fn : n_joints_ sb = n_joints_ s) by (apply Fb; frame).
  assert (Fa : current_joint_acceleration sb = current_joint_acceleration s)
    by (apply Fb; frame).
  assert (Fp : previous_joint_velocity sb = previous_joint_velocity s)
    by (apply Fb; frame).
  destruct (compute_acceleration_spec sb) as (a & p & E & _ & _ & Hap).
  rewrite Fj, Fn, Fa, Fp in Hap.
  unfold before_recompute. fold sb. rewrite E. simpl.
  apply Hap; lia.
Qed.

Lemma start_time_after_plan b o r (s : Controller) :
  traj_start_time_ (set_recompute_trajectory_ b (set_rml_out_ o (set_rml_ r s)))
  = traj_start_time_ s.
Proof. reflexivity. Qed.

(** Everything a replanning cycle hands to the solver and the planner. *)
Lemma replan_block time period s :
  sized s ->
  new_reference_ s || recompute_trajectory_ s = true ->
  let msg := result (read_command s) in
  exists q p,
    let x := CartToJnt (tracik_solver s) q (poseMsgToKDL (pose msg))
                       (target_joint_position s) in
    solver_calls (trace (recompute msg time period 0%Z (before_recompute s)))
    = [(q, poseMsgToKDL (pose msg))] /\
    planning_calls (trace (recompute msg time period 0%Z (before_recompute s)))
    = [(p, plan_flags)] /\
    sampling_calls (trace (recompute msg time period 0%Z (before_recompute s)))
    = [] /\
    traj_start_time_
      (after (recompute msg time period 0%Z (before_recompute s))) = time /\
    length q = n_joints_ s /\
    (MaxVelocityVector p, MaxAccelerationVector p, MaxJerkVector p)
    = (MaxVelocityVector (rml_in_ s), MaxAccelerationVector (rml_in_ s),
       MaxJerkVector (rml_in_ s)) /\
    input_sized (n_joints_ s) p /\
    forall i, i < n_joints_ s ->
      at_ q i = getPosition (at_ (joints_ s) i) /\
      at_ (CurrentPositionVector p) i = getPosition (at_ (joints_ s) i) /\
      at_ (CurrentVelocityVector p) i = getVelocity (at_ (joints_ s) i) /\
      at_ (CurrentAccelerationVector p) i
      = PrimFloat.sub (getVelocity (at_ (joints_ s) i))
                      (at_ (previous_joint_velocity s) i) /\
      at_ (TargetPositionVector p) i = at_ x.1.2 i /\
      at_ (SelectionVector p) i = true.
Proof.
  intros Hs Hf. cbv zeta.
  remember (result (read_command s)) as msg eqn:Hmsg. clear Hmsg.
  assert (Ff : recompute_trajectory_ (before_recompute s) = true)
    by (rewrite before_recompute_flag; exact Hf).
  pose proof (recompute_trace msg time period 0%Z _ Ff) as Tr.
  pose proof (recompute_after msg time period 0%Z _ Ff) as Af.
  cbv zeta in Af.
  destruct (solve_inverse_kinematics_spec msg (before_recompute s))
    as (q & Es & _ & Et & Lq & Hq).
  cbv zeta in Es.
  assert (Ha : forall i, i < n_joints_ s ->
             at_ (current_joint_acceleration (before_recompute s)) i
             = PrimFloat.sub (getVelocity (at_ (joints_ s) i))
                             (at_ (previous_joint_velocity s) i))
    by (intros i Hi; apply before_recompute_acceleration; assumption).
  remember (before_recompute s) as sc eqn:Hsc in *.
  assert (Fn : n_joints_ sc = n_joints_ s)
    by (rewrite Hsc; apply (before_recompute_frame n_joints_ s); frame).
  assert (Fj : joints_ sc = joints_ s)
    by (rewrite Hsc; apply (before_recompute_frame joints_ s); frame).
  assert (Fi : rml_in_ sc = rml_in_ s)
    by (rewrite Hsc; apply (before_recompute_frame rml_in_ s); frame).
  assert (Ft : tracik_solver sc = tracik_solver s)
    by (rewrite Hsc; apply (before_recompute_frame tracik_solver s); frame).
  assert (Fq : target_joint_position sc = target_joint_position s)
    by (rewrite Hsc; apply (before_recompute_frame target_joint_position s); frame).
  assert (Fc : current_joint_position sc = current_joint_position s)
    by (rewrite Hsc; apply (before_recompute_frame current_joint_position s); frame).
  clear Hsc Ff.
  destruct Hs as (Lj & Lt & Lc & Lp & La & Lcp & Lin).
  rewrite Fn, Fj, Ft, Fq, Fc in *.
  remember (after (solve_inverse_kinematics msg sc)) as s1 eqn:Hs1 in *.
  clear Hs1.
  assert (Gn : n_joints_ s1 = n_joints_ s) by (rewrite Es; exact Fn).
  assert (Gj : joints_ s1 = joints_ s) by (rewrite Es; exact Fj).
  assert (Gi : rml_in_ s1 = rml_in_ s) by (rewrite Es; exact Fi).
  assert (Ga : current_joint_acceleration s1 = current_joint_acceleration sc)
    by (rewrite Es; reflexivity).
  assert (Gq : target_joint_position s1
               = (CartToJnt (tracik_solver s) q (poseMsgToKDL (pose msg))
                    (target_joint_position s)).1.2)
    by (rewrite Es; reflexivity).
  clear Es.
  destruct (prepare_plan_spec time period s1) as (p & Ep & Lp' & _ & Hp).
  { rewrite Gn, Gi. exact Lin. }
  rewrite Gn in Lp'.
  assert (Fm : preserves
                 (fun s => (MaxVelocityVector (rml_in_ s),
                            MaxAccelerationVector (rml_in_ s),
                            MaxJerkVector (rml_in_ s)))
                 (prepare_plan time period)) by frame.
  specialize (Fm s1). cbv beta in Fm. rewrite Gi in Fm.
  assert (S2 : silent planning_call (prepare_plan time period)) by hush.
  assert (S3 : silent solver_call (prepare_plan time period)) by hush.
  assert (S4 : silent sampling_call (prepare_plan time period)) by hush.
  specialize (S2 s1). specialize (S3 s1). specialize (S4 s1).
  remember (after (prepare_plan time period s1)) as sx eqn:Hsx in *.
  clear Hsx.
  assert (Ei : rml_in_ sx = p) by (rewrite Ep; reflexivity).
  assert (Eg : rml_flags_ sx = plan_flags) by (rewrite Ep; reflexivity).
  assert (Ex : traj_start_time_ sx = time) by (rewrite Ep; reflexivity).
  clear Ep.
  rewrite Ei in Fm. rewrite Ei, Eg in Tr.
  exists q, p.
  unfold solver_calls, planning_calls, sampling_calls.
  rewrite Tr, !omap_app, S2, S3, S4, Et.
  split; [reflexivity|]. split; [reflexivity|]. split; [reflexivity|].
  split; [rewrite Af, start_time_after_plan; exact Ex|].
  split; [rewrite Lq; exact Lcp|].
  split; [exact Fm|].
  split; [exact Lp'|].
  intros i Hi.
  destruct (Hp i) as (H1 & H2 & H3 & H4 & _ & H6); [rewrite Gn; exact Hi|].
  rewrite Gj in H1, H2. rewrite Ga, (Ha i Hi) in H3. rewrite Gq in H4.
  split; [apply Hq; lia|]. repeat split; assumption.
Qed.

(** *** Lists given entry by entry *)

Lemma entries_map {A B} `{Inhabited A} `{Inhabited B} (f : A -> B)
    (q : list B) (l : list A) n :
  length q = n -> length l = n ->
  (forall i, i < n -> at_ q i = f (at_ l i)) ->
  q = map f l.
Proof.
  intros Lq Ll Hq. apply (list_eq_same_length _ _ n); [|exact Lq|].
  - rewrite length_map. exact Ll.
  - intros i x y Hi Hx Hy. rewrite list_lookup_fmap in Hy.
    destruct (l !! i) as [a|] eqn:Ea; [|discriminate].
    injection Hy as <-.
    pose proof (Hq i Hi) as E. unfold at_ in E.
    rewrite (list_lookup_total_correct q i x Hx) in E.
    rewrite (list_lookup_total_correct l i a Ea) in E. exact E.
Qed.

Lemma entries_eq {A} `{Inhabited A} (q l : list A) n :
  length q = n -> length l = n ->
  (forall i, i < n -> at_ q i = at_ l i) ->
  q = l.
Proof.
  intros Lq Ll Hq. rewrite <- (map_id l).
  apply (entries_map (fun x => x) q l n); assumption.
Qed.

(** *** What one cycle asks of the solver and the sampler *)

Lemma update_trace time period s :
  trace (update time period s)
  = trace (plan_and_sample time period s)
    ++ trace (supervise_and_command period (sampled_status time period s)
                (after (plan_and_sample time period s))).
Proof. unfold update. rewrite trace_bind. reflexivity. Qed.

Lemma update_after time period s :
  after (update time period s)
  = after (supervise_and_command period (sampled_status time period s)
             (after (plan_and_sample time period s))).
Proof. unfold update. rewrite after_bind. reflexivity. Qed.

Lemma sample_trace time s :
  trace (sample time s)
  = [RMLPositionAtAGivenSampleTime_called
       (toSec (Time_minus time (traj_start_time_ s)))].
Proof. unfold sample. rewrite bind_gets. reflexivity. Qed.

Lemma update_solver_calls time period s :
  solver_calls (trace (update time period s))
  = solver_calls (trace (recompute (result (read_command s)) time period 0%Z
                           (before_recompute s))).
Proof.
  unfold solver_calls.
  rewrite update_trace, omap_app, plan_and_sample_trace, !omap_app.
  assert (S1 : silent solver_call read_command) by hush.
  assert (S2 : silent solver_call check_new_reference) by hush.
  assert (S3 : silent solver_call compute_acceleration) by hush.
  assert (S4 : silent solver_call (sample time)) by hush.
  assert (S5 : forall r, silent solver_call (supervise_and_command period r))
    by (intros r; hush).
  rewrite S1, S2, S3, S4, S5. simpl. rewrite !app_nil_r. reflexivity.
Qed.

Lemma update_sampling_calls time period s :
  sampling_calls (trace (update time period s))
  = sampling_calls (trace (recompute (result (read_command s)) time period 0%Z
                             (before_recompute s)))
    ++ [toSec (Time_minus time
          (traj_start_time_
             (after (recompute (result (read_command s)) time period 0%Z
                       (before_recompute s)))))].
Proof.
  unfold sampling_calls.
  rewrite update_trace, omap_app, plan_and_sample_trace, !omap_app.
  assert (S1 : silent sampling_call read_command) by hush.
  assert (S2 : silent sampling_call check_new_reference) by hush.
  assert (S3 : silent sampling_call compute_acceleration) by hush.
  assert (S5 : forall r, silent sampling_call (supervise_and_command period r))
    by (intros r; hush).
  rewrite S1, S2, S3, S5, sample_trace. simpl. rewrite !app_nil_r. reflexivity.
Qed.

Lemma update_tracking_warnings time period s :
  tracking_warnings (trace (update time period s))
  = tracking_warnings (trace (check_tolerances (after (plan_and_sample time period s)))).
Proof.
  unfold tracking_warnings.
  rewrite update_trace, omap_app.
  assert (S0 : silent tracking_warning (plan_and_sample time period)) by hush.
  rewrite S0. unfold supervise_and_command. rewrite trace_bind, omap_app.
  assert (S1 : forall r, silent tracking_warning
                 (compute_command ≫= fun _ => select_command r ≫= fun _ =>
                  set_commands ≫= fun _ => count_loop period))
    by (intros r; hush).
  rewrite S1, app_nil_r. reflexivity.
Qed.

(** *** The replanning block against the state the cycle started in *)

Lemma replan_calls time period s :
  sized s ->
  let msg := result (read_command s) in
  let tr := trace (recompute msg time period 0%Z (before_recompute s)) in
  solver_calls tr
  = (if new_reference_ s || recompute_trajectory_ s
     then [(map getPosition (joints_ s), poseMsgToKDL (pose msg))] else []) /\
  sampling_calls tr = [] /\
  traj_start_time_ (after (recompute msg time period 0%Z (before_recompute s)))
  = if new_reference_ s || recompute_trajectory_ s
    then time else traj_start_time_ s.
Proof.
  intros Hs. cbv zeta.
  destruct (new_reference_ s || recompute_trajectory_ s) eqn:Hf.
  - destruct (replan_block time period s Hs Hf)
      as (q & p & T1 & _ & T3 & Ex & Lq & _ & _ & Hq).
    cbv zeta in T1, T3, Ex.
    rewrite T1, T3, Ex. split; [|split; reflexivity].
    rewrite (entries_map getPosition q (joints_ s) (n_joints_ s)); try assumption.
    + reflexivity.
    + apply Hs.
    + intros i Hi. apply (Hq i Hi).
  - rewrite recompute_idle by (rewrite before_recompute_flag; exact Hf).
    split; [reflexivity|]. split; [reflexivity|].
    apply (before_recompute_frame traj_start_time_ s); frame.
Qed.

Lemma replan_input time period s :
  sized s ->
  new_reference_ s || recompute_trajectory_ s = true ->
  let msg := result (read_command s) in
  let x := CartToJnt (tracik_solver s) (map getPosition (joints_ s))
                     (poseMsgToKDL (pose msg)) (target_joint_position s) in
  exists p,
    planning_calls (trace (recompute msg time period 0%Z (before_recompute s)))
    = [(p, plan_flags)] /\
    CurrentPositionVector p = map getPosition (joints_ s) /\
    CurrentVelocityVector p = map getVelocity (joints_ s) /\
    SelectionVector p = replicate (n_joints_ s) true /\
    length (CurrentAccelerationVector p) = n_joints_ s /\
    length (TargetPositionVector p) = n_joints_ s /\
    (MaxVelocityVector p, MaxAccelerationVector p, MaxJerkVector p)
    = (MaxVelocityVector (rml_in_ s), MaxAccelerationVector (rml_in_ s),
       MaxJerkVector (rml_in_ s)) /\
    forall i, i < n_joints_ s ->
      at_ (CurrentAccelerationVector p) i
      = PrimFloat.sub (getVelocity (at_ (joints_ s) i))
                      (at_ (previous_joint_velocity s) i) /\
      at_ (TargetPositionVector p) i = at_ x.1.2 i.
Proof.
  intros Hs Hf. cbv zeta.
  destruct (replan_block time period s Hs Hf)
    as (q & p & _ & T2 & _ & _ & Lq & Fm & Lp & Hq).
  cbv zeta in T2, Hq.
  assert (Eq : q = map getPosition (joints_ s)).
  { apply (entries_map getPosition q (joints_ s) (n_joints_ s)).
    - exact Lq.
    - apply Hs.
    - intros i Hi. apply (Hq i Hi). }
  subst q.
  destruct Lp as (L1 & L2 & L3 & L4 & L5 & L6).
  exists p. split; [exact T2|].
  split; [|split; [|split; [|split; [exact L4|split; [exact L5|split; [exact Fm|]]]]]].
  - apply (entries_map getPosition _ (joints_ s) (n_joints_ s)).
    + exact L2.
    + apply Hs.
    + intros i Hi. apply (Hq i Hi).
  - apply (entries_map getVelocity _ (joints_ s) (n_joints_ s)).
    + exact L3.
    + apply Hs.
    + intros i Hi. apply (Hq i Hi).
  - apply (entries_eq _ _ (n_joints_ s)).
    + exact L1.
    + apply length_replicate.
    + intros i Hi. unfold at_ at 2.
      rewrite (list_lookup_total_correct _ i true)
        by (apply lookup_replicate_2; exact Hi).
      apply (Hq i Hi).
  - intros i Hi. destruct (Hq i Hi) as (_ & _ & _ & H3 & H4 & _).
    split; assumption.
Qed.

(** *** Runs, stimulus by stimulus *)

Lemma run_cons_after x xs s :
  after (run (x :: xs) s) = after (run xs (after (react x s))).
Proof.
  change (run (x :: xs)) with (react x ≫= fun _ => run xs).
  rewrite after_bind. reflexivity.
Qed.

Lemma run_cons_trace x xs s :
  trace (run (x :: xs) s) = trace (react x s) ++ trace (run xs (after (react x s))).
Proof.
  change (run (x :: xs)) with (react x ≫= fun _ => run xs).
  rewrite trace_bind. reflexivity.
Qed.

Lemma run_app_after xs ys s :
  after (run (xs ++ ys) s) = after (run ys (after (run xs s))).
Proof.
  revert s. induction xs as [|x xs IH]; intros s; [reflexivity|].
  rewrite <- app_comm_cons, !run_cons_after. apply IH.
Qed.

Lemma run_app_trace xs ys s :
  trace (run (xs ++ ys) s)
  = trace (run xs s) ++ trace (run ys (after (run xs s))).
Proof.
  revert s. induction xs as [|x xs IH]; intros s; [reflexivity|].
  rewrite <- app_comm_cons, !run_cons_trace, run_cons_after, IH, app_assoc.
  reflexivity.
Qed.

Lemma run_one_trace x s : trace (run [x] s) = trace (react x s).
Proof. rewrite run_cons_trace. apply app_nil_r. Qed.

Lemma run_one_after x s : after (run [x] s) = after (react x s).
Proof. rewrite run_cons_after. reflexivity. Qed.

Lemma run_loop_count xs s :
  loop_count_ (after (run xs s)) = (loop_count_ s + Z.of_nat (cycles xs))%Z.
Proof.
  revert s. induction xs as [|x xs IH]; intros s.
  - change (after (run [] s)) with s. simpl cycles. lia.
  - rewrite run_cons_after, IH, react_loop_count.
    change (cycles (x :: xs)) with ((if is_cycle x then 1 else 0) + cycles xs).
    destruct (is_cycle x); lia.
Qed.

Lemma react_configuration x : preserves configuration (react x).
Proof. destruct x; simpl react; frame. Qed.

(** *** The flags when the cycle returns *)

Lemma update_start_time time period s :
  traj_start_time_ (after (update time period s))
  = traj_start_time_
      (after (recompute (result (read_command s)) time period 0%Z
                (before_recompute s))).
Proof.
  rewrite update_after.
  assert (F1 : forall r, preserves traj_start_time_ (supervise_and_command period r))
    by (intros r; frame).
  assert (F2 : preserves traj_start_time_ (sample time)) by frame.
  rewrite F1, plan_and_sample_after, F2. reflexivity.
Qed.

(** *** [starting] *)

Lemma fill_entries {A} `{Inhabited A} (f : nat -> A) k (l : list A) :
  k <= length l ->
  length (fold_left (fun q i => <[i := f i]> q) (seq 0 k) l) = length l /\
  forall i, i < k ->
    at_ (fold_left (fun q i => <[i := f i]> q) (seq 0 k) l) i = f i.
Proof.
  induction k as [|k IH]; intros Hk.
  - split; [reflexivity | intros; lia].
  - destruct IH as [L Hlt]; [lia|].
    rewrite seq_S, fold_left_app. simpl. rewrite length_insert.
    split; [exact L|].
    intros i Hi. slot i k; [reflexivity | apply Hlt; lia].
Qed.

Lemma trace_of_silence {A} (m : M A) s : silent Some m -> trace (m s) = [].
Proof.
  intros S. rewrite <- (S s).
  induction (trace (m s)) as [|e tr IH]; [reflexivity|].
  change (omap Some (e :: tr)) with (e :: omap Some tr).
  rewrite <- IH. reflexivity.
Qed.

Lemma starting_spec time s :
  sized s ->
  let q0 := map getPosition (joints_ s) in
  let r := JntToCart (fk_solver s) q0 Frame_default in
  after (starting time s)
  = set_new_reference_ true
      (set_commanded_positions_ q0
         (set_trajectory_command_buffer_
            (initRT (trajectory_command_buffer_ s)
                    (mkPoseStamped Header_default (poseKDLToMsg r.2)))
            (set_fk_solver r.1 s))) /\
  trace (starting time s) = [].
Proof.
  intros (Lj & _ & Lc & _) q0 r. split.
  - unfold starting. rewrite !bind_gets.
    destruct (fill_entries (fun i => getPosition (at_ (joints_ s) i))
                (n_joints_ s) (replicate (n_joints_ s) 0%float)) as [L0 H0].
    { rewrite length_replicate. lia. }
    rewrite length_replicate in L0.
    rewrite (entries_map getPosition _ (joints_ s) (n_joints_ s) L0 Lj H0).
    fold q0. fold r.
    rewrite !after_bind.
    match goal with
    | |- context [after (for_joints ?b ?x)] =>
        change (for_joints b) with hold_measured_position;
        destruct (hold_measured_position_spec x) as (c & E & L & Hc)
    end.
    rewrite E.
    rewrite (entries_map getPosition c (joints_ s) (n_joints_ s)).
    + reflexivity.
    + rewrite L. exact Lc.
    + exact Lj.
    + intros i Hi. apply Hc; simpl; lia.
  - apply trace_of_silence. hush.
Qed.

(** *** Stimuli between cycles *)

Lemma refresh_measured readings (js : list JointHandle) :
  length readings = length js ->
  map getPosition (refresh readings js) = map fst readings /\
  map getVelocity (refresh readings js) = map snd readings.
Proof.
  intros L. unfold refresh.
  split; apply list_eq; intros i; rewrite !list_lookup_fmap, list_lookup_imap;
    (destruct (js !! i) as [j|] eqn:Ej;
     [ destruct (readings !! i) as [r|] eqn:Er;
       [ reflexivity
       | apply lookup_lt_Some in Ej; apply lookup_ge_None in Er; lia ]
     | destruct (readings !! i) as [r|] eqn:Er;
       [ apply lookup_lt_Some in Er; apply lookup_ge_None in Ej; lia
       | reflexivity ] ]).
Qed.

Lemma read_then_cycle_trace readings time period s :
  trace (run [hardware_read readings; cycle time period] s)
  = trace (update time period (set_joints_ (refresh readings (joints_ s)) s)).
Proof.
  rewrite run_cons_trace, run_one_trace.
  change (trace (react (hardware_read readings) s)) with (@nil event).
  change (after (react (hardware_read readings) s))
    with (set_joints_ (refresh readings (joints_ s)) s).
  reflexivity.
Qed.

Lemma read_sized readings s :
  sized s -> sized (set_joints_ (refresh readings (joints_ s)) s).
Proof.
  apply sized_shape. unfold shape, refresh. simpl.
  rewrite length_imap. reflexivity.
Qed.

Lemma commands_received_frame {B} (f : Controller -> B) msgs s :
  (forall msg, preserves f (setTrajectoryCommand msg)) ->
  f (after (run (map command_received msgs) s)) = f s.
Proof.
  intros F. revert s. induction msgs as [|m msgs IH]; intros s; [reflexivity|].
  rewrite map_cons, run_cons_after, IH. apply (F m).
Qed.

Lemma commands_received_silent {X} (f : event -> option X) msgs s :
  (forall msg, silent f (setTrajectoryCommand msg)) ->
  omap f (trace (run (map command_received msgs) s)) = [].
Proof.
  intros S. revert s. induction msgs as [|m msgs IH]; intros s; [reflexivity|].
  rewrite map_cons, run_cons_trace, omap_app, IH, app_nil_r. apply (S m).
Qed.

Lemma commands_received_buffer msgs s :
  trajectory_command_buffer_ (after (run (map command_received msgs) s))
  = fold_left writeFromNonRT msgs (trajectory_command_buffer_ s).
Proof.
  revert s. induction msgs as [|m msgs IH]; intros s; [reflexivity|].
  rewrite map_cons, run_cons_after, IH. reflexivity.
Qed.

Lemma commands_received_flag msgs s :
  msgs <> [] ->
  new_reference_ (after (run (map command_received msgs) s)) = true.
Proof.
  intros Hn. destruct (exists_last Hn) as (msgs' & m & ->).
  rewrite map_app, run_app_after. reflexivity.
Qed.

(** *** The period report *)

Lemma update_period_logs time period s :
  period_logs (trace (update time period s))
  = if Z.eqb (loop_count_ s) 1000 then [toSec period] else [].
Proof.
  unfold period_logs, update, supervise_and_command.
  rewrite !trace_bind, !omap_app.
  assert (S0 : silent period_log (plan_and_sample time period)) by hush.
  assert (S1 : silent period_log check_tolerances) by hush.
  assert (S2 : silent period_log compute_command) by hush.
  assert (S3 : forall r, silent period_log (select_command r))
    by (intros r; hush).
  assert (S4 : silent period_log set_commands) by hush.
  rewrite S0, S1, S2, S3, S4, !app_nil_l.
  match goal with
  | |- omap period_log (trace (count_loop period ?x)) = _ =>
      assert (Fl : loop_count_ x = loop_count_ s);
      [|revert Fl; generalize x; intros sx Fl]
  end.
  - assert (F1 : preserves loop_count_ set_commands) by frame.
    assert (F2 : forall r, preserves loop_count_ (select_command r))
      by (intros r; frame).
    assert (F3 : preserves loop_count_ compute_command) by frame.
    assert (F4 : preserves loop_count_ check_tolerances) by frame.
    assert (F5 : preserves loop_count_ (plan_and_sample time period)) by frame.
    rewrite F1, F2, F3, F4, F5. reflexivity.
  - unfold count_loop. rewrite !bind_gets.
    rewrite trace_bind, omap_app.
    destruct (Z.eqb (Z.rem (loop_count_ sx) (decimation_ sx)) 0);
      rewrite bind_gets; unfold mret, M_ret, after; simpl; rewrite Fl;
      destruct (Z.eqb (loop_count_ s) 1000); reflexivity.
Qed.

Lemma react_period_logs x s :
  period_logs (trace (react x s))
  = match x with
    | cycle _ period => if Z.eqb (loop_count_ s) 1000 then [toSec period] else []
    | _ => []
    end.
Proof.
  destruct x as [readings|msg|time period]; simpl react.
  - reflexivity.
  - assert (S : silent period_log (setTrajectoryCommand msg)) by hush. apply S.
  - apply update_period_logs.
Qed.

Lemma run_period_logs_past xs s :
  (1000 < loop_count_ s)%Z -> period_logs (trace (run xs s)) = [].
Proof.
  revert s. induction xs as [|x xs IH]; intros s Hs; [reflexivity|].
  unfold period_logs in *. rewrite run_cons_trace, omap_app.
  rewrite IH by (rewrite react_loop_count; destruct (is_cycle x); lia).
  pose proof (react_period_logs x s) as E. unfold period_logs in E. rewrite E.
  destruct x as [readings|msg|time period]; try reflexivity.
  destruct (Z.eqb_spec (loop_count_ s) 1000); [lia | reflexivity].
Qed.

(** *** The calls of a cycle, in order *)

Lemma only_commands tr :
  solver_calls tr = [] -> planning_calls tr = [] -> sampling_calls tr = [] ->
  collaborator_calls tr
  = map (fun c => setCommand_called c.1 c.2) (commands_set tr).
Proof.
  unfold solver_calls, planning_calls, sampling_calls, collaborator_calls,
    commands_set.
  induction tr as [|e tr IH]; intros H1 H2 H3; [reflexivity|].
  destruct e; simpl in *; try discriminate; try (apply IH; assumption).
  f_equal. apply IH; assumption.
Qed.

Lemma idle_cycle_calls time period s :
  new_reference_ s || recompute_trajectory_ s = false ->
  solver_calls (trace (update time period s)) = [] /\
  planning_calls (trace (update time period s)) = [].
Proof.
  intros Hf.
  assert (Ei : recompute (result (read_command s)) time period 0%Z
                 (before_recompute s)
               = (0%Z, before_recompute s, []))
    by (apply recompute_idle; rewrite before_recompute_flag; exact Hf).
  split.
  - rewrite update_solver_calls, Ei. reflexivity.
  - rewrite update_planning, plan_and_sample_planning, Ei. reflexivity.
Qed.

End MoreCycle.

(** ** Reasoning about [init] *)

Section InitReasoning.
Context {Lib : Libraries} {Plat : Platform}.

Lemma wp_mono {A} (m : Stmt A) Q R X (Q' : A -> _) R' X' o :
  wp m Q R X o ->
  (forall a o' tr, Q a o' tr -> Q' a o' tr) ->
  (forall b o' tr, R b o' tr -> R' b o' tr) ->
  (forall o' tr, X o' tr -> X' o' tr) ->
  wp m Q' R' X' o.
Proof.
  unfold wp. intros H HQ HR HX.
  destruct (flow_of (m o)); auto.
Qed.

Lemma wp_ret {A} (a : A) Q R X o : Q a o [] -> wp (mret a) Q R X o.
Proof. intros H. exact H. Qed.

Lemma wp_bind {A B} (m : Stmt A) (k : A -> Stmt B) Q R X o :
  wp m (fun a o' tr =>
          wp (k a) (fun b o'' tr' => Q b o'' (tr ++ tr'))
                   (fun b o'' tr' => R b o'' (tr ++ tr'))
                   (fun o'' tr' => X o'' (tr ++ tr')) o')
       R X o ->
  wp (m ≫= k) Q R X o.
Proof.
  unfold wp, mbind, Stmt_bind, flow_of, object_of, console_of.
  destruct (m o) as [[[a|b|] o'] tr]; simpl; [|auto|auto].
  destruct (k a o') as [[[c|b|] o''] tr']; simpl; auto.
Qed.

Lemma wp_get {A} (f : Object -> A) Q R X o : Q (f o) o [] -> wp (get f) Q R X o.
Proof. intros H. exact H. Qed.

Lemma wp_put f Q R X o : Q tt (f o) [] -> wp (put f) Q R X o.
Proof. intros H. exact H. Qed.

Lemma wp_print e Q R X o : Q tt o [e] -> wp (print e) Q R X o.
Proof. intros H. exact H. Qed.

Lemma wp_return {A} b (Q : A -> _) R X o : R b o [] -> wp (return_ b) Q R X o.
Proof. intros H. exact H. Qed.

Lemma wp_expect {A} (x : option A) Q R X o :
  match x with Some a => Q a o [] | None => X o [] end ->
  wp (expect x) Q R X o.
Proof. unfold wp, expect, flow_of, object_of, console_of. destruct x; auto. Qed.

Lemma wp_when_print (c : bool) e (Q : unit -> _) R X o :
  (forall tr, Q tt o tr) -> wp (when c (print e)) Q R X o.
Proof. intros H. destruct c; apply H. Qed.

Lemma wp_when (c : bool) stmt Q R X o :
  (if c then wp stmt Q R X o else Q tt o []) -> wp (when c stmt) Q R X o.
Proof. unfold when. destruct c; auto. Qed.

(** The loop rule: an invariant of the index, the object and the lines
    printed so far. *)
Lemma wp_for_each (I : nat -> Object -> list console -> Prop) body
    (Q : unit -> _) R X :
  forall len a o tr,
    I a o tr ->
    (forall i o' tr', a <= i < a + len -> I i o' tr' ->
       wp (body i) (fun _ o'' tr'' => I (S i) o'' (tr' ++ tr''))
                   (fun b o'' tr'' => R b o'' (tr' ++ tr''))
                   (fun o'' tr'' => X o'' (tr' ++ tr'')) o') ->
    (forall o' tr', I (a + len) o' tr' -> Q tt o' tr') ->
    wp (for_each_init (seq a len) body)
       (fun u o' tr' => Q u o' (tr ++ tr'))
       (fun b o' tr' => R b o' (tr ++ tr'))
       (fun o' tr' => X o' (tr ++ tr')) o.
Proof.
  induction len as [|len IH]; intros a o tr H0 Hstep Hend.
  - simpl. apply wp_ret. rewrite app_nil_r. apply Hend.
    rewrite Nat.add_0_r. exact H0.
  - change (for_each_init (seq a (S len)) body)
      with (body a ≫= fun _ => for_each_init (seq (S a) len) body).
    apply wp_bind.
    eapply wp_mono; [apply (Hstep a o tr); [lia | exact H0]| | |].
    + intros [] o' tr' HI. simpl.
      eapply wp_mono; [apply (IH (S a) o' (tr ++ tr') HI)| | |].
      * intros i o'' tr'' Hi. apply Hstep. lia.
      * intros o'' tr''. replace (S a + len) with (a + S len) by lia.
        apply Hend.
      * intros u o'' tr''. rewrite app_assoc. auto.
      * intros b o'' tr''. rewrite app_assoc. auto.
      * intros o'' tr''. rewrite app_assoc. auto.
    + auto.
    + auto.
Qed.

Lemma wp_for_joints (I : nat -> Object -> list console -> Prop) body
    (Q : unit -> _) R X o :
  I 0 o [] ->
  (forall i o' tr', i < n_joints_ (cycle_members o) -> I i o' tr' ->
     wp (body i) (fun _ o'' tr'' => I (S i) o'' (tr' ++ tr''))
                 (fun b o'' tr'' => R b o'' (tr' ++ tr''))
                 (fun o'' tr'' => X o'' (tr' ++ tr'')) o') ->
  (forall o' tr', I (n_joints_ (cycle_members o)) o' tr' -> Q tt o' tr') ->
  wp (for_joints_init body) Q R X o.
Proof.
  intros H0 Hstep Hend. unfold for_joints_init.
  apply wp_bind, wp_get.
  apply (wp_for_each I body Q R X (n_joints_ (cycle_members o)) 0 o []).
  - exact H0.
  - intros i o' tr' [_ Hi]. apply Hstep. exact Hi.
  - exact Hend.
Qed.

End InitReasoning.

(** One statement of a straight-line block. *)
Ltac wp_step :=
  lazymatch goal with
  | |- wp (when _ (print _)) _ _ _ _ => apply wp_when_print; intros ?
  | |- wp (mret _) _ _ _ _ => apply wp_ret
  | |- wp (_ ≫= _) _ _ _ _ => apply wp_bind
  | |- wp (get _) _ _ _ _ => apply wp_get
  | |- wp (put _) _ _ _ _ => apply wp_put
  | |- wp (put_rml_in _) _ _ _ _ => apply wp_put
  | |- wp (print _) _ _ _ _ => apply wp_print
  | |- wp (return_ _) _ _ _ _ => apply wp_return
  | |- wp (expect _) _ _ _ _ => apply wp_expect
  | |- wp (when _ _) _ _ _ _ => apply wp_when
  end.

Arguments wp : simpl never.

Arguments String.append : simpl never.

Ltac wp_run := repeat (wp_step; cbv beta zeta).

Ltac wp_auto :=
  repeat first
    [ wp_step; cbv beta zeta
    | progress cbn
    | rewrite at_insert_eq by (rewrite ?length_insert; lia)
    | lazymatch goal with
      | |- context [bool_decide (is_Some ?x)] =>
          destruct x eqn:?;
          [ rewrite bool_decide_true by (eexists; reflexivity)
          | rewrite bool_decide_false by (intros [? ?]; discriminate) ]
      | |- if ?c then _ else _ => destruct c eqn:?
      | |- match ?x with Some _ => _ | None => _ end => destruct x eqn:?
      end ].

Section InitBlocks.
Context {Lib : Libraries} {Plat : Platform}.

Local Infix "+:+" := String.append (at level 60, right associativity).

Lemma get_joint_names_spec n o :
  wp (get_joint_names n)
     (fun xml o' tr =>
        exists items,
          getParam_XmlRpcValue n "joint_names" = Some (XmlArray items) /\
          xml = XmlArray items /\
          o' = on_cycle (set_n_joints_ (length items)) (on_init (set_nh_ n) o))
     (fun b o' tr =>
        b = false /\
        forall items, getParam_XmlRpcValue n "joint_names" <> Some (XmlArray items))
     (fun o' tr => False) o.
Proof.
  unfold get_joint_names. wp_run.
  cbn [nh_ init_members on_init set_nh_].
  destruct (getParam_XmlRpcValue n "joint_names") as [[s|items|]|];
    cbn [negb bool_decide default is_type getType];
    try (rewrite bool_decide_true by (eexists; reflexivity));
    try (rewrite bool_decide_false by (intros [x Hx]; discriminate Hx));
    cbn [negb]; wp_run; try (split; [reflexivity | intros items'; discriminate]).
  cbn [negb is_type getType]. wp_run.
  exists items. repeat split; reflexivity.
Qed.

Lemma create_trajectory_generator_spec o :
  wp create_trajectory_generator
     (fun _ o' tr =>
        let n := n_joints_ (cycle_members o) in
        let resolution :=
          param (nh_ (init_members o)) "sampling_resolution"
                0x1.0624dd2f1a9fcp-10%float in
        o' = on_cycle (fun s =>
               set_rml_out_ (new_RMLPositionOutputParameters n)
                 (set_rml_in_ (new_RMLPositionInputParameters n)
                    (set_rml_ (new_ReflexxesAPI n resolution)
                       (set_sampling_resolution_ resolution s)))) o)
     (fun b o' tr => False)
     (fun o' tr => False) o.
Proof.
  unfold create_trajectory_generator. wp_run.
  destruct (negb (hasParam (nh_ (init_members o)) "sampling_resolution"));
    wp_run; reflexivity.
Qed.

Lemma get_urdf_spec o :
  wp get_urdf
     (fun urdf o' tr =>
        initString (default EmptyString
                      (getParam_string global_NodeHandle "/robot_description"))
        = Some urdf /\
        cycle_members o' = cycle_members o /\
        nh_ (init_members o') = nh_ (init_members o) /\
        trajectory_command_sub_ (init_members o')
        = trajectory_command_sub_ (init_members o))
     (fun b o' tr =>
        b = false /\
        initString (default EmptyString
                      (getParam_string global_NodeHandle "/robot_description"))
        = None)
     (fun o' tr => False) o.
Proof.
  unfold get_urdf. wp_run.
  destruct (initString _) as [urdf|]; wp_run; [|split; reflexivity].
  destruct o as [c m]. cbn [on_init cycle_members init_members].
  split; [reflexivity|]. split; [reflexivity|].
  destruct (getParam_string (nh_ m) "root_name");
    cbn [nh_ set_root_name trajectory_command_sub_];
    destruct (getParam_string (nh_ m) "tip_name"); split; reflexivity.
Qed.

(** *** What a statement leaves alone *)

Lemma keeps_ret {A B} (f : Object -> B) (a : A) : keeps f (mret a).
Proof. intros o. reflexivity. Qed.

Lemma keeps_bind {A B C} (f : Object -> C) (m : Stmt A) (k : A -> Stmt B) :
  keeps f m -> (forall a, keeps f (k a)) -> keeps f (m ≫= k).
Proof.
  intros Hm Hk o. specialize (Hm o).
  unfold object_of, mbind, Stmt_bind in *.
  destruct (m o) as [[[a|b|] o'] tr]; simpl in *; try exact Hm.
  rewrite <- Hm. apply (Hk a o').
Qed.

Lemma keeps_get {A B} (f : Object -> B) (g : Object -> A) : keeps f (get g).
Proof. intros o. reflexivity. Qed.

Lemma keeps_put {B} (f : Object -> B) g :
  (forall o, f (g o) = f o) -> keeps f (put g).
Proof. intros Hg o. apply Hg. Qed.

Lemma keeps_print {B} (f : Object -> B) e : keeps f (print e).
Proof. intros o. reflexivity. Qed.

Lemma keeps_return {A B} (f : Object -> B) b : keeps f (return_ (A := A) b).
Proof. intros o. reflexivity. Qed.

Lemma keeps_expect {A B} (f : Object -> B) (x : option A) : keeps f (expect x).
Proof. intros o. reflexivity. Qed.

Lemma keeps_when {B} (f : Object -> B) c stmt :
  keeps f stmt -> keeps f (when c stmt).
Proof. intros H. destruct c; [exact H | apply keeps_ret]. Qed.

Lemma keeps_for_each {B} (f : Object -> B) l body :
  (forall i, keeps f (body i)) -> keeps f (for_each_init l body).
Proof.
  intros Hb. induction l as [|i l IH]; simpl.
  - apply keeps_ret.
  - apply keeps_bind; auto.
Qed.

Lemma wp_keeps {A B} (f : Object -> B) (m : Stmt A) Q R X o :
  keeps f m -> wp m Q R X o ->
  wp m (fun a o' tr => Q a o' tr /\ f o' = f o)
       (fun b o' tr => R b o' tr /\ f o' = f o)
       (fun o' tr => X o' tr /\ f o' = f o) o.
Proof.
  intros K H. specialize (K o). unfold wp in *.
  destruct (flow_of (m o)); split; assumption.
Qed.

End InitBlocks.

Create HintDb boot.

#[global] Hint Unfold init get_joint_names create_trajectory_generator get_urdf
  resize_members load_joint select_every_joint check_input
  init_kinematic_solvers subscribe_command rml_debug for_joints_init
  put_rml_in : boot.

Ltac keep_step :=
  lazymatch goal with
  | |- keeps _ (mret _) => apply keeps_ret
  | |- keeps _ (_ ≫= _) => apply keeps_bind; [|intros ?]
  | |- keeps _ (get _) => apply keeps_get
  | |- keeps _ (print _) => apply keeps_print
  | |- keeps _ (return_ _) => apply keeps_return
  | |- keeps _ (expect _) => apply keeps_expect
  | |- keeps _ (when _ _) => apply keeps_when
  | |- keeps _ (put _) =>
      apply keeps_put; intros [? ?];
      first [ reflexivity
            | lazymatch goal with
              | |- ?f _ = _ => let h := head_of f in try unfold h
              end;
              simpl; rewrite ?length_insert, ?length_resize; reflexivity
            | cbn;
              repeat match goal with
                     | |- context [match ?x with Some _ => _ | None => _ end] =>
                         destruct x
                     end;
              reflexivity ]
  | |- keeps _ (for_each_init _ _) => apply keeps_for_each; intros ?
  | |- keeps _ (if ?b then _ else _) => destruct b
  | |- keeps _ (match ?b with _ => _ end) => destruct b
  | |- keeps _ (let _ := _ in _) => cbv zeta
  | |- keeps _ _ => progress autounfold with boot
  end.

Ltac keep := repeat keep_step.

Section InitLoops.
Context {Lib : Libraries} {Plat : Platform}.

Local Infix "+:+" := String.append (at level 60, right associativity).

Lemma resize_members_spec o :
  wp resize_members
     (fun _ o' tr =>
        let n := n_joints_ (cycle_members o) in
        let c := cycle_members o' in
        let m := init_members o' in
        length (joint_names_ m) = n /\
        length (joints_ c) = n /\
        length (urdf_joints_ m) = n /\
        length (position_tolerances_ c) = n /\
        length (max_accelerations_ m) = n /\
        length (max_jerks_ m) = n /\
        length (commanded_positions_ c) = n /\
        length (previous_joint_velocity c) = n /\
        length (current_joint_acceleration c) = n)
     (fun b o' tr => False)
     (fun o' tr => False) o.
Proof.
  unfold resize_members. wp_run. destruct o as [c m]. simpl.
  rewrite !length_resize. repeat split; reflexivity.
Qed.

Lemma init_flags_kept robot n :
  keeps (fun o => let c := cycle_members o in
                  (loop_count_ c, decimation_ c, new_reference_ c,
                   recompute_trajectory_ c, rml_flags_ c, traj_start_time_ c,
                   target_cart_position c, trajectory_command_buffer_ c))
        (init robot n).
Proof. keep. Qed.

Lemma load_joint_spec robot urdf n xml_array N k o :
  k < N -> loading robot urdf n xml_array N k o ->
  wp (load_joint robot urdf xml_array k)
     (fun _ o' tr => loading robot urdf n xml_array N (S k) o')
     (fun b o' tr =>
        b = false /\
        (getType (item xml_array k) <> TypeString \/
         getJoint urdf (to_string (item xml_array k)) = None))
     (fun o' tr =>
        getHandle robot (to_string (item xml_array k)) = None \/
        exists u, getJoint urdf (to_string (item xml_array k)) = Some u /\
                  limits_velocity u = None) o.
Proof.
  intros Hk (Hn & HN & Ha & Hl).
  unfold allocated, constructed, input_sized in Ha.
  unfold joint_loaded in Hl.
  destruct o as [c m]. destruct c, m. cbn in Hn, HN, Ha, Hl.
  destruct Ha as (L1 & L2 & L3 & L4 & L5 & L6 & L7 & L8 & L9 &
                  (I1 & I2 & I3 & I4 & I5 & I6) & L10 & L11 & L12).
  subst.
  unfold load_joint. wp_run. cbn.
  destruct (item xml_array k) as [name| |] eqn:Ei;
    cbn [is_type getType negb]; wp_run;
    try (split; [reflexivity | left; discriminate]).
  wp_auto.
  - (* loaded *)
    unfold loading, allocated, constructed, input_sized, joint_loaded. cbn.
    rewrite !length_insert.
    split; [reflexivity|]. split; [reflexivity|].
    split; [repeat split; assumption|].
    intros i Hi. destruct (decide (i = k)) as [->|Hne].
    + exists name. rewrite !at_insert_eq by lia.
      repeat split; try reflexivity; try assumption.
      exists u. split; assumption.
    + destruct (Hl i) as (name' & E' & F1 & F2 & F3 & F4 & F5 & F6); [lia|].
      exists name'. rewrite !at_insert_ne by lia.
      repeat split; assumption.
  - (* a URDF joint without limits *)
    right. exists u. split; [reflexivity | assumption].
  - (* no such joint in the URDF *)
    split; [reflexivity | right; reflexivity].
  - (* the hardware does not know the joint *)
    left. reflexivity.
Qed.

Lemma load_joints_spec robot urdf n xml_array N o :
  loading robot urdf n xml_array N 0 o ->
  wp (for_joints_init (load_joint robot urdf xml_array))
     (fun _ o' tr => loading robot urdf n xml_array N N o')
     (fun b o' tr =>
        b = false /\
        exists i, i < N /\
          (getType (item xml_array i) <> TypeString \/
           getJoint urdf (to_string (item xml_array i)) = None))
     (fun o' tr =>
        exists i, i < N /\
          (getHandle robot (to_string (item xml_array i)) = None \/
           exists u, getJoint urdf (to_string (item xml_array i)) = Some u /\
                     limits_velocity u = None)) o.
Proof.
  intros H0.
  assert (HN : n_joints_ (cycle_members o) = N) by apply H0.
  apply (wp_for_joints (fun k o' _ => loading robot urdf n xml_array N k o')).
  - exact H0.
  - intros i o' tr' Hi HI. rewrite HN in Hi.
    eapply wp_mono;
      [apply (load_joint_spec robot urdf n xml_array N i o' Hi HI)| | |];
      cbv beta; auto.
    + intros b o'' tr'' [-> H]. split; [reflexivity|]. exists i. auto.
    + intros o'' tr'' H. exists i. auto.
  - intros o' tr'. rewrite HN. auto.
Qed.

Lemma select_every_joint_spec o :
  wp select_every_joint
     (fun _ o' tr =>
        exists sel,
          o' = on_cycle (fun s => set_rml_in_
                                    (set_SelectionVector sel (rml_in_ s)) s) o /\
          length sel = length (SelectionVector (rml_in_ (cycle_members o))) /\
          forall i, i < n_joints_ (cycle_members o) ->
                    i < length sel -> at_ sel i = true)
     (fun b o' tr => False)
     (fun o' tr => False) o.
Proof.
  unfold select_every_joint.
  apply (wp_for_joints (fun k o' _ =>
    exists sel,
      o' = on_cycle (fun s => set_rml_in_
                                (set_SelectionVector sel (rml_in_ s)) s) o /\
      length sel = length (SelectionVector (rml_in_ (cycle_members o))) /\
      forall i, i < k -> i < length sel -> at_ sel i = true)).
  - exists (SelectionVector (rml_in_ (cycle_members o))).
    split; [|split; [reflexivity | intros; lia]].
    destruct o as [c m].
    destruct c as [? ? ? ? ? ? ? ? ? ? ? ? ? ? ? ? ? p ? ? ? ?].
    destruct p. reflexivity.
  - intros k o' tr' Hk (sel & -> & L & Hlt). wp_run.
    exists (<[k := true]> sel). rewrite length_insert.
    split; [reflexivity|]. split; [exact L|].
    intros i Hi Hl. slot i k; [reflexivity | apply Hlt; lia].
  - intros o' tr' H. exact H.
Qed.

Lemma rml_debug_spec level o :
  wp (rml_debug level)
     (fun _ o' tr => o' = o /\ length tr = 12 /\
                     Forall (fun e => exists text, e = ROS_LOG_STREAM level text) tr)
     (fun b o' tr => False)
     (fun o' tr => False) o.
Proof.
  unfold rml_debug. wp_run. cbn [app length].
  split; [reflexivity|]. split; [reflexivity|].
  repeat (apply Forall_cons; split; [eexists; reflexivity|]).
  apply Forall_nil. exact I.
Qed.

Lemma check_input_spec o :
  wp check_input
     (fun _ o' tr =>
        o' = o /\ CheckForValidity (rml_in_ (cycle_members o)) = true)
     (fun b o' tr =>
        b = false /\ CheckForValidity (rml_in_ (cycle_members o)) = false)
     (fun o' tr => False) o.
Proof.
  unfold check_input. wp_run.
  destruct (CheckForValidity (rml_in_ (cycle_members o))) eqn:E; wp_run.
  - eapply wp_mono; [apply rml_debug_spec| | |]; cbv beta.
    + intros _ o' tr (-> & _). split; reflexivity.
    + intros b o' tr [].
    + intros o' tr [].
  - eapply wp_mono; [apply rml_debug_spec| | |]; cbv beta.
    + intros _ o' tr (-> & _). wp_run. split; reflexivity.
    + intros b o' tr [].
    + intros o' tr [].
Qed.

Lemma init_kinematic_solvers_spec o :
  wp init_kinematic_solvers
     (fun _ o' tr =>
        let m := init_members o in
        let ik := new_TRAC_IK (root_name m) (tip_name m) in
        (getKDLChain ik).1 = true /\
        o' = on_cycle (fun s =>
               set_target_joint_position
                 (resize (n_joints_ s) 0%float (target_joint_position s))
                 (set_current_joint_position
                    (resize (n_joints_ s) 0%float (current_joint_position s))
                    (set_fk_solver
                       (new_ChainFkSolverPos_recursive (getKDLChain ik).2)
                       (set_tracik_solver ik s)))) o)
     (fun b o' tr =>
        b = false /\
        (getKDLChain (new_TRAC_IK (root_name (init_members o))
                                  (tip_name (init_members o)))).1 = false)
     (fun o' tr => False) o.
Proof.
  unfold init_kinematic_solvers. wp_run.
  destruct o as [c m]. cbn.
  destruct (getKDLChain (new_TRAC_IK (root_name m) (tip_name m))) as [[|] chain];
    cbn; wp_run; split; reflexivity.
Qed.

Lemma all_strings (items : list XmlRpcValue) :
  (forall i, i < length items -> exists name, at_ items i = XmlString name) ->
  items = map XmlString (map to_string items).
Proof.
  intros H. apply list_eq. intros i. rewrite !list_lookup_fmap.
  destruct (items !! i) as [x|] eqn:E; [|reflexivity].
  destruct (H i) as [name Hn]; [eapply lookup_lt_Some; exact E|].
  unfold at_ in Hn. rewrite (list_lookup_total_correct _ _ _ E) in Hn.
  subst x. reflexivity.
Qed.

(** Use the specification of the first statement of a sequence. *)
Ltac wp_use H :=
  apply wp_bind; eapply wp_mono; [apply H | cbv beta | cbv beta | cbv beta].

Lemma init_spec robot n o :
  (forall k, constructed k (new_RMLPositionInputParameters k)) ->
  wp (init robot n)
     (fun _ _ _ => False)
     (fun b o' _ => if b then configured robot n o' else refused n)
     (fun _ _ => stranded robot n) o.
Proof.
  intros Hnew. unfold init.
  wp_use (get_joint_names_spec n o);
    [|intros b o' tr [-> H]; left; exact H | intros o' tr []].
  intros xml o1 tr1 (items & Ep & -> & ->).
  wp_use create_trajectory_generator_spec;
    [|intros b o' tr [] | intros o' tr []].
  intros _ o2 tr2 ->.
  wp_use get_urdf_spec;
    [|intros b o' tr [-> H]; right; left; exact H | intros o' tr []].
  intros urdf o3 tr3 (Eu & Ec & En & _).
  destruct o as [c0 m0]. cbn in Ec, En.
  set (N := length items) in *.
  set (res := param n "sampling_resolution" 0x1.0624dd2f1a9fcp-10%float) in *.
  pose (plan := fun o : Object =>
          let c := cycle_members o in
          (nh_ (init_members o), n_joints_ c, rml_in_ c,
           sampling_resolution_ c, rml_ c)).
  assert (P3 : plan o3 = (n, N, new_RMLPositionInputParameters N, res,
                          new_ReflexxesAPI N res)).
  { unfold plan. cbv zeta. rewrite Ec, En. reflexivity. }
  clear Ec En.
  assert (K4 : keeps plan resize_members) by (unfold plan; keep).
  wp_use (wp_keeps plan _ _ _ _ o3 K4 (resize_members_spec o3));
    [|intros b o' tr [[] _] | intros o' tr [[] _]].
  intros _ o4 tr4 (HL & P4). rewrite P3 in P4. cbv zeta in HL.
  assert (HN3 : n_joints_ (cycle_members o3) = N)
    by (unfold plan in P3; cbv zeta in P3; congruence).
  rewrite HN3 in HL. clear P3 HN3 K4.
  assert (H0 : loading robot urdf n (XmlArray items) N 0 o4).
  { unfold plan in P4. cbv zeta in P4. injection P4 as E1 E2 E3 _ _.
    split; [exact E1|]. split; [exact E2|]. split; [|intros i Hi; lia].
    unfold allocated. cbv zeta. rewrite E3.
    destruct HL as (L1 & L2 & L3 & L4 & L5 & L6 & L7 & L8 & L9).
    repeat split; try assumption; apply (Hnew N). }
  pose (generator := fun o : Object =>
          let c := cycle_members o in (sampling_resolution_ c, rml_ c)).
  assert (G4 : generator o4 = (res, new_ReflexxesAPI N res)).
  { unfold plan in P4. cbv zeta in P4. injection P4 as _ _ _ E4 E5.
    unfold generator. cbv zeta. rewrite E4, E5. reflexivity. }
  clear P4 HL plan.
  assert (K5 : keeps generator
                 (for_joints_init (load_joint robot urdf (XmlArray items))))
    by (unfold generator; keep).
  wp_use (wp_keeps generator _ _ _ _ o4 K5
            (load_joints_spec robot urdf n (XmlArray items) N o4 H0));
    [|intros b o' tr [[-> (i & Hi & H)] _]; right; right; left;
      exists items, urdf, i; repeat split; assumption
     | intros o' tr [(i & Hi & H) _]; exists items, i;
       split; [exact Ep|]; split; [exact Hi|];
       destruct H as [H|(u & H1 & H2)];
       [left; exact H | right; exists urdf, u; repeat split; assumption]].
  intros _ o5 tr5 (H5 & G5). rewrite G4 in G5. clear G4 K5 H0.
  wp_use select_every_joint_spec; [|intros b o' tr [] | intros o' tr []].
  intros _ o6 tr6 (sel & -> & Lsel & Hsel).
  wp_use check_input_spec;
    [|intros b o' tr [-> H]; right; right; right; left; eexists; exact H
     | intros o' tr []].
  intros _ o7 tr7 (-> & Hvalid).
  wp_use init_kinematic_solvers_spec;
    [|intros b o' tr [-> H]; right; right; right; right; eexists; exact H
     | intros o' tr []].
  intros _ o8 tr8 (Hchain & ->).
  unfold subscribe_command. wp_run.
  destruct H5 as (Hn & HN & Ha & Hl).
  unfold allocated, constructed, input_sized in Ha. cbv zeta in Ha.
  destruct Ha as (L1 & L2 & L3 & L4 & L5 & L6 & L7 & L8 & L9 &
                  (I1 & I2 & I3 & I4 & I5 & I6) & L10 & L11 & L12).
  unfold generator in G5. cbv zeta in G5. injection G5 as G5 G6.
  destruct o5 as [c5 m5]. cbn in *.
  assert (Hitems : items = map XmlString (map to_string items)).
  { apply all_strings. intros i Hi. destruct (Hl i Hi) as (name & E & _).
    exists name. exact E. }
  exists (map to_string items), urdf.
  rewrite <- Hitems, length_map. fold N.
  split; [exact Ep|]. split; [exact Eu|]. split; [exact HN|].
  split.
  { unfold sized, input_sized. cbn. rewrite !length_resize, HN, Lsel.
    repeat split; first [assumption | reflexivity]. }
  split; [cbn; rewrite length_resize; exact HN|].
  split.
  { intros i name Hi. rewrite list_lookup_fmap in Hi.
    destruct (items !! i) as [x|] eqn:Ex; [|discriminate]. injection Hi as <-.
    assert (Hlt : i < N) by (eapply lookup_lt_Some; exact Ex).
    destruct (Hl i Hlt) as (name' & E' & F).
    unfold at_ in E'. rewrite (list_lookup_total_correct _ _ _ Ex) in E'.
    subst x. split.
    - unfold joint_loaded in *. cbn in *. exact F.
    - apply Hsel; lia. }
  cbn.
  split; [exact Hvalid|]. split; [exact G5|].
  split; [rewrite G5; exact G6|]. split; [reflexivity|].
  split; [exact Hchain|]. split; [reflexivity|].
  rewrite Hn. reflexivity.
Qed.

End InitLoops.

(** *** One error line for every refusal *)

Section Honesty.
Context {Lib : Libraries} {Plat : Platform}.

Lemma honest_ret {A} (a : A) : honest (mret a).
Proof. intros o. reflexivity. Qed.

Lemma honest_get {A} (f : Object -> A) : honest (get f).
Proof. intros o. reflexivity. Qed.

Lemma honest_put f : honest (put f).
Proof. intros o. reflexivity. Qed.

Lemma honest_expect {A} (x : option A) : honest (expect x).
Proof. intros o. unfold expect, flow_of. destruct x; reflexivity. Qed.

Lemma honest_return_true {A} : honest (return_ (A := A) true).
Proof. intros o. reflexivity. Qed.

Lemma honest_print e : is_error e = false -> honest (print e).
Proof.
  intros He o. unfold print, flow_of, console_of, errors. simpl.
  rewrite He. reflexivity.
Qed.

Lemma honest_bind {A B} (m : Stmt A) (k : A -> Stmt B) :
  honest m -> (forall a, honest (k a)) -> honest (m ≫= k).
Proof.
  intros Hm Hk o. specialize (Hm o).
  unfold flow_of, console_of, mbind, Stmt_bind in *.
  destruct (m o) as [[[a|b|] o'] tr]; simpl in *; try exact Hm.
  specialize (Hk a o'). unfold flow_of, console_of in Hk.
  destruct (k a o') as [[f o''] tr']. simpl in *.
  unfold errors in *. rewrite List.filter_app, Hm. exact Hk.
Qed.

Lemma honest_fail {A} e :
  is_error e = true -> honest (print e ≫= fun _ => return_ (A := A) false).
Proof.
  intros He o. unfold flow_of, console_of, errors. simpl.
  rewrite He. reflexivity.
Qed.

Lemma honest_when c stmt : honest stmt -> honest (when c stmt).
Proof. intros H. destruct c; [exact H | apply honest_ret]. Qed.

Lemma honest_for_each l body :
  (forall i, honest (body i)) -> honest (for_each_init l body).
Proof.
  intros Hb. induction l as [|i l IH]; simpl.
  - apply honest_ret.
  - apply honest_bind; auto.
Qed.

Lemma rml_debug_quiet level o :
  level <> Error -> level <> Fatal ->
  flow_of (rml_debug level o) = Next tt /\
  errors (console_of (rml_debug level o)) = [].
Proof.
  intros H1 H2. pose proof (rml_debug_spec level o) as H. unfold wp in H.
  destruct (flow_of (rml_debug level o)) as [[]|b|]; try contradiction.
  destruct H as (_ & _ & Hall). split; [reflexivity|].
  unfold errors.
  induction Hall as [|e tr [text ->] _ IH]; [reflexivity|].
  change (List.filter is_error (ROS_LOG_STREAM level text :: tr))
    with (if is_error (ROS_LOG_STREAM level text)
          then ROS_LOG_STREAM level text :: List.filter is_error tr
          else List.filter is_error tr).
  destruct level; try contradiction; exact IH.
Qed.

Lemma honest_quiet level :
  level <> Error -> level <> Fatal -> honest (rml_debug level).
Proof.
  intros H1 H2 o. destruct (rml_debug_quiet level o H1 H2) as [-> E]. exact E.
Qed.

Lemma honest_error_then {A} e (m : Stmt A) :
  is_error e = true ->
  (forall o, flow_of (m o) = Return false /\ errors (console_of (m o)) = []) ->
  honest (print e ≫= fun _ => m).
Proof.
  intros He Hm o. destruct (Hm o) as [F E].
  unfold flow_of, console_of, mbind, Stmt_bind, print in *.
  cbn [fst snd] in *. destruct (m o) as [[f o'] tr]. cbn [fst snd] in *.
  subst f. unfold errors in *. rewrite List.filter_app, E, app_nil_r.
  change (List.filter is_error [e]) with (if is_error e then [e] else []).
  rewrite He. reflexivity.
Qed.

Lemma check_input_honest : honest check_input.
Proof.
  unfold check_input. apply honest_bind; [apply honest_get|]. intros [|].
  - apply honest_bind; [apply honest_print; reflexivity|]. intros _.
    apply honest_quiet; discriminate.
  - apply honest_error_then; [reflexivity|]. intros o.
    destruct (rml_debug_quiet Warn o) as [F E]; try discriminate.
    unfold flow_of, console_of, mbind, Stmt_bind, return_ in *.
    destruct (rml_debug Warn o) as [[f o'] tr]. cbn [fst snd] in *.
    subst f. cbn [fst snd]. rewrite app_nil_r. split; [reflexivity | exact E].
Qed.

End Honesty.

Ltac honest_step :=
  lazymatch goal with
  | |- honest (print _ ≫= fun _ => return_ false) =>
      apply honest_fail; reflexivity
  | |- honest check_input => apply check_input_honest
  | |- honest (mret _) => apply honest_ret
  | |- honest (_ ≫= _) => apply honest_bind; [|intros ?]
  | |- honest (get _) => apply honest_get
  | |- honest (put _) => apply honest_put
  | |- honest (print _) => apply honest_print; reflexivity
  | |- honest (return_ true) => apply honest_return_true
  | |- honest (expect _) => apply honest_expect
  | |- honest (when _ _) => apply honest_when
  | |- honest (for_each_init _ _) => apply honest_for_each; intros ?
  | |- honest (match ?b with _ => _ end) => destruct b
  | |- honest (let _ := _ in _) => cbv zeta
  | |- honest ?m => let h := head_of m in progress unfold h
  end.

Ltac honesty := repeat honest_step.

Lemma init_honest {Lib : Libraries} {Plat : Platform} robot n :
  honest (init robot n).
Proof. honesty. Qed.

Section Streams.
Context {Lib : Libraries} {Plat : Platform}.

Local Infix "+:+" := String.append (at level 60, right associativity).

Lemma append_assoc (a b c : string) : (a +:+ b) +:+ c = a +:+ (b +:+ c).
Proof.
  induction a as [|x a IH]; [reflexivity|].
  change ((String x a +:+ b) +:+ c) with (String x ((a +:+ b) +:+ c)).
  rewrite IH. reflexivity.
Qed.

Lemma stream_entries {T} (show : T -> string) (v : list T) (stream tail : string) :
  fold_left (fun stream x => stream +:+ show x +:+ ", ") v stream +:+ tail
  = stream +:+ fold_right (fun x rest => show x +:+ ", " +:+ rest) tail v.
Proof.
  revert stream. induction v as [|x v IH]; intros stream; [reflexivity|].
  simpl fold_left. simpl fold_right. rewrite IH, !append_assoc. reflexivity.
Qed.

Lemma keeps_unless_true_bind {A B C} (f : Object -> C) (m : Stmt A) (k : A -> Stmt B) :
  keeps f m ->
  (forall a o, flow_of (k a o) = Return true \/ f (object_of (k a o)) = f o) ->
  forall o, flow_of ((m ≫= k) o) = Return true \/ f (object_of ((m ≫= k) o)) = f o.
Proof.
  intros Hm Hk o. specialize (Hm o).
  unfold flow_of, object_of, mbind, Stmt_bind in *.
  destruct (m o) as [[[a|b|] o'] tr]; simpl in *; try (right; exact Hm).
  specialize (Hk a o'). destruct (k a o') as [[fl o''] tr']. simpl in *.
  destruct Hk as [Hk|Hk]; [left; exact Hk | right; congruence].
Qed.

Lemma init_subscribes_last robot n o :
  flow_of (init robot n o) = Return true \/
  trajectory_command_sub_ (init_members (object_of (init robot n o)))
  = trajectory_command_sub_ (init_members o).
Proof.
  revert o. unfold init.
  apply (keeps_unless_true_bind
           (fun o => trajectory_command_sub_ (init_members o))); [solve [keep]|].
  intros xml.
  apply (keeps_unless_true_bind
           (fun o => trajectory_command_sub_ (init_members o))); [solve [keep]|].
  intros _.
  apply (keeps_unless_true_bind
           (fun o => trajectory_command_sub_ (init_members o))); [solve [keep]|].
  intros urdf.
  apply (keeps_unless_true_bind
           (fun o => trajectory_command_sub_ (init_members o))); [solve [keep]|].
  intros _.
  apply (keeps_unless_true_bind
           (fun o => trajectory_command_sub_ (init_members o))); [solve [keep]|].
  intros _.
  apply (keeps_unless_true_bind
           (fun o => trajectory_command_sub_ (init_members o))); [solve [keep]|].
  intros _.
  apply (keeps_unless_true_bind
           (fun o => trajectory_command_sub_ (init_members o))); [solve [keep]|].
  intros _.
  apply (keeps_unless_true_bind
           (fun o => trajectory_command_sub_ (init_members o))); [solve [keep]|].
  intros _ o. left. reflexivity.
Qed.

End Streams.

(** * The claims *)

Section Claims.
Context {Lib : Libraries} {Col : Collaborators}.

(** C2.  When sampling returns an error status (neither RML_WORKING nor
    RML_FINAL_STATE_REACHED), every joint is commanded to its measured
    position, and the error line is printed exactly in the cycles whose
    loop count is a multiple of [decimation_]: a run with at most
    [decimation_] cycles prints it at most once, whatever else reaches
    the controller in between.  The constructor sets [decimation_] to 10. *)
Theorem planner_error_holds_position_and_limits_log
    (time : Time) (period : Duration) (s : Controller)
    (xs : list stimulus) (raw : Controller) :
  sized s -> (0 < decimation_ s)%Z ->
  (sampled_status time period s <> RML_WORKING ->
   sampled_status time period s <> RML_FINAL_STATE_REACHED ->
     (forall i, i < n_joints_ s ->
        emitted_command (after (update time period s)) i = measured_position s i) /\
     commands_set (trace (update time period s))
     = map (fun i => (i, measured_position s i)) (seq 0 (n_joints_ s)) /\
     error_logs (trace (update time period s))
     = if Z.eqb (Z.rem (loop_count_ s) (decimation_ s)) 0
       then [sampled_status time period s] else []) /\
  ((Z.of_nat (cycles xs) <= decimation_ s)%Z ->
     length (error_logs (trace (run xs s))) <= 1) /\
  decimation_ (CartesianPositionController raw) = 10%Z.
Proof.
  intros Hs HN. split; [|split].
  - intros H0 H1. pose proof (planner_error_true _ H0 H1) as He.
    split; [|split].
    + intros i Hi. rewrite update_emitted by assumption.
      apply selected_measured. exact He.
    + rewrite update_commands by assumption.
      apply map_ext. intros i. rewrite selected_measured by exact He.
      reflexivity.
    + rewrite update_error_logs, He. reflexivity.
  - intros Hx. etransitivity; [apply run_error_logs|].
    apply multiples_le_1; assumption.
  - reflexivity.
Qed.

(** C3.  When sampling returns RML_WORKING or RML_FINAL_STATE_REACHED,
    every joint is commanded to the sampled position; in the second case
    the replan request is set when the cycle returns. *)
Theorem working_or_final_state_commands_sample
    (time : Time) (period : Duration) (s : Controller) :
  sized s ->
  sampled_status time period s = RML_WORKING \/
  sampled_status time period s = RML_FINAL_STATE_REACHED ->
  (forall i, i < n_joints_ s ->
     emitted_command (after (update time period s)) i
     = sampled_position time period s i) /\
  commands_set (trace (update time period s))
  = map (fun i => (i, sampled_position time period s i)) (seq 0 (n_joints_ s)) /\
  (sampled_status time period s = RML_FINAL_STATE_REACHED ->
   recompute_trajectory_ (after (update time period s)) = true).
Proof.
  intros Hs Hr.
  assert (He : planner_error (sampled_status time period s) = false).
  { unfold planner_error. destruct Hr as [-> | ->]; reflexivity. }
  split; [|split].
  - intros i Hi. rewrite update_emitted by assumption.
    apply selected_sampled. exact He.
  - rewrite update_commands by assumption.
    apply map_ext. intros i. rewrite selected_sampled by exact He.
    reflexivity.
  - intros E. rewrite update_flag by assumption. rewrite E.
    apply orb_true_r.
Qed.

(** C4, as amended.  A joint outside its tolerance sets the replan
    request for the next cycle and changes nothing in what the cycle
    commands: the command is the sampled position under RML_WORKING and
    RML_FINAL_STATE_REACHED and the measured position under an error
    status, and the commands written are the same for every other choice
    of the tolerances. *)
Theorem tolerance_violation_only_requests_replan
    (time : Time) (period : Duration) (s : Controller) (i : nat)
    (tol : list double) :
  sized s -> i < n_joints_ s ->
  violated (after (plan_and_sample time period s)) i = true ->
  recompute_trajectory_ (after (update time period s)) = true /\
  emitted_command (after (update time period s)) i
  = (if planner_error (sampled_status time period s)
     then measured_position s i
     else sampled_position time period s i) /\
  commands_set (trace (update time period (with_tolerances tol s)))
  = commands_set (trace (update time period s)).
Proof.
  intros Hs Hi Hv. split; [|split].
  - rewrite update_flag by assumption.
    rewrite (violation_detected time period s i Hi Hv). reflexivity.
  - rewrite update_emitted by assumption.
    destruct (planner_error (sampled_status time period s)) eqn:He.
    + apply selected_measured. exact He.
    + apply selected_sampled. exact He.
  - apply update_commands_ignore_tolerances. exact Hs.
Qed.

(** C5.  A cycle calls the planner exactly when a replan is requested or
    a new reference arrived, and each such call has target velocity zero
    for every joint and the minimum synchronisation time
    [(period*2).toSec()]. *)
Theorem replan_targets_rest_within_two_periods
    (time : Time) (period : Duration) (s : Controller) :
  sized s ->
  length (planning_calls (trace (update time period s)))
  = (if new_reference_ s || recompute_trajectory_ s then 1 else 0) /\
  forall p flags,
    In (p, flags) (planning_calls (trace (update time period s))) ->
    (forall i, i < n_joints_ s -> at_ (TargetVelocityVector p) i = 0%float) /\
    MinimumSynchronizationTime p = toSec (Duration_times period 2%float).
Proof.
  intros Hs.
  rewrite update_planning, plan_and_sample_planning.
  pose proof (before_recompute_flag s) as Ef.
  assert (Fn : n_joints_ (before_recompute s) = n_joints_ s)
    by (apply (before_recompute_frame n_joints_ s); frame).
  assert (Fi : rml_in_ (before_recompute s) = rml_in_ s)
    by (apply (before_recompute_frame rml_in_ s); frame).
  destruct (new_reference_ s || recompute_trajectory_ s).
  - destruct (recompute_plans (result (read_command s)) time period 0%Z
                (before_recompute s)) as (p & -> & Hm & Hp).
    { rewrite Fn, Fi. apply Hs. }
    { exact Ef. }
    split; [reflexivity|].
    intros p' flags [[= <- <-]|[]]. split; [|exact Hm].
    intros i Hi. apply Hp. rewrite Fn. exact Hi.
  - rewrite recompute_idle by exact Ef.
    split; [reflexivity|]. intros p flags [].
Qed.

(** C6.  For every joint the derived acceleration is the measured
    velocity minus the velocity stored by the previous cycle, with no
    division by the period, and the stored velocity becomes the measured
    one. *)
Theorem acceleration_is_velocity_delta
    (time : Time) (period : Duration) (s : Controller) (i : nat) :
  sized s -> i < n_joints_ s ->
  at_ (current_joint_acceleration (after (update time period s))) i
  = PrimFloat.sub (getVelocity (at_ (joints_ s) i))
                  (at_ (previous_joint_velocity s) i) /\
  at_ (previous_joint_velocity (after (update time period s))) i
  = getVelocity (at_ (joints_ s) i).
Proof.
  intros (Lj & _ & _ & Lp & La & _) Hi.
  set (sb := after (check_new_reference (after (read_command s)))).
  assert (Fb : forall {B} (f : Controller -> B),
             preserves f (read_command ≫= fun _ => check_new_reference) ->
             f sb = f s).
  { intros B f F. apply F. }
  assert (Fj : joints_ sb = joints_ s) by (apply Fb; frame).
  assert (Fn : n_joints_ sb = n_joints_ s) by (apply Fb; frame).
  assert (Fa : current_joint_acceleration sb = current_joint_acceleration s)
    by (apply Fb; frame).
  assert (Fp : previous_joint_velocity sb = previous_joint_velocity s)
    by (apply Fb; frame).
  destruct (compute_acceleration_spec sb) as (a & p & E & _ & _ & Hap).
  rewrite Fj, Fn, Fa, Fp in Hap.
  assert (Ea : current_joint_acceleration (after (update time period s)) = a).
  { unfold update. rewrite after_bind.
    assert (F1 : forall r, preserves current_joint_acceleration
                             (supervise_and_command period r))
      by (intros r; frame).
    assert (F2 : preserves current_joint_acceleration (sample time)) by frame.
    assert (F3 : forall msg r, preserves current_joint_acceleration
                                 (recompute msg time period r))
      by (intros msg r; frame).
    rewrite F1, plan_and_sample_after, F2, F3.
    unfold before_recompute. fold sb. rewrite E. reflexivity. }
  assert (Ep : previous_joint_velocity (after (update time period s)) = p).
  { unfold update. rewrite after_bind.
    assert (F1 : forall r, preserves previous_joint_velocity
                             (supervise_and_command period r))
      by (intros r; frame).
    assert (F2 : preserves previous_joint_velocity (sample time)) by frame.
    assert (F3 : forall msg r, preserves previous_joint_velocity
                                 (recompute msg time period r))
      by (intros msg r; frame).
    rewrite F1, plan_and_sample_after, F2, F3.
    unfold before_recompute. fold sb. rewrite E. reflexivity. }
  rewrite Ea, Ep. apply Hap; lia.
Qed.

(** C7.  Whatever the inverse kinematics, the planner and the tolerance
    check did, the cycle calls [setCommand] once on every joint, in
    order, and the joint holds that command when the cycle returns. *)
Theorem every_cycle_commands_every_joint
    (time : Time) (period : Duration) (s : Controller) :
  sized s ->
  map fst (commands_set (trace (update time period s))) = seq 0 (n_joints_ s) /\
  forall i, i < n_joints_ s ->
    In (i, emitted_command (after (update time period s)) i)
       (commands_set (trace (update time period s))).
Proof.
  intros Hs. rewrite update_commands by assumption. split.
  - rewrite map_map. simpl. apply map_id.
  - intros i Hi. rewrite update_emitted by assumption.
    apply in_map_iff. exists i. split; [reflexivity|]. apply in_seq. lia.
Qed.

(** C8.  The fallback branch of the switch writes [commanded_positions_]
    and nothing else; the replan request is as it was before the branch,
    also after the commands are set and the loop is counted. *)
Theorem error_fallback_leaves_replan_request
    (rml_result : Z) (period : Duration) (s : Controller) :
  rml_result <> RML_WORKING -> rml_result <> RML_FINAL_STATE_REACHED ->
  (exists c, after (select_command rml_result s) = set_commanded_positions_ c s) /\
  recompute_trajectory_ (after (select_command rml_result s))
  = recompute_trajectory_ s /\
  recompute_trajectory_
    (after ((set_commands ≫= fun _ => count_loop period)
              (after (select_command rml_result s))))
  = recompute_trajectory_ s.
Proof.
  intros H0 H1. pose proof (planner_error_true _ H0 H1) as He.
  destruct (select_command_spec rml_result s) as (c & E & _).
  assert (E1 : Z.eqb rml_result RML_FINAL_STATE_REACHED = false).
  { unfold planner_error in He.
    destruct (Z.eqb rml_result RML_FINAL_STATE_REACHED); [|reflexivity].
    rewrite orb_true_r in He. discriminate. }
  rewrite E1, orb_false_r in E.
  assert (F : preserves recompute_trajectory_
                (set_commands ≫= fun _ => count_loop period)) by frame.
  rewrite F, E. split; [|split; reflexivity].
  exists c. destruct s; reflexivity.
Qed.

End Claims.

(** C9.  The value the switch sees is the one the sampling call returned:
    pass the result code of plan creation through any function [g] and
    the cycle is the same, in what it returns, leaves and emits. *)
Theorem plan_creation_status_is_overwritten
    {Lib : Libraries} (C : Collaborators) (g : Z -> Z)
    (time : Time) (period : Duration) (s : Controller) :
  update (Col := with_plan_status g C) time period s
  = update (Col := C) time period s /\
  sampled_status (Col := with_plan_status g C) time period s
  = sampled_status (Col := C) time period s /\
  let s4 := after (recompute (Col := C) (result (read_command s)) time period 0%Z
                     (before_recompute s)) in
  sampled_status (Col := C) time period s
  = (RMLPositionAtAGivenSampleTime (rml_ s4)
       (toSec (Time_minus time (traj_start_time_ s4))) (rml_out_ s4)).2.
Proof.
  split; [apply update_ignores_plan_status|]. split.
  - unfold sampled_status. rewrite plan_and_sample_plan_status. reflexivity.
  - reflexivity.
Qed.

(** * Further properties of the cycle *)

Section Further.
Context {Lib : Libraries} {Col : Collaborators}.

(** X1.  The inverse-kinematics solver is called in exactly the cycles that
    replan, once, seeded with the measured joint positions and aimed at
    the pose of the message read at the top of the cycle. *)
Theorem solver_is_called_exactly_on_replan
    (time : Time) (period : Duration) (s : Controller) :
  sized s ->
  solver_calls (trace (update time period s))
  = if new_reference_ s || recompute_trajectory_ s
    then [(map getPosition (joints_ s),
           poseMsgToKDL (pose (result (read_command s))))]
    else [].
Proof.
  intros Hs. rewrite update_solver_calls.
  apply (replan_calls time period s Hs).
Qed.

(** X2.  The plan a replanning cycle begins starts from the measured
    state: current position and velocity are the measured ones, the
    current acceleration is the velocity difference to the previous
    cycle, the target position is what the solver call left in
    [target_joint_position], whatever its result code, every joint is
    selected, and the limits set by [init] are passed on untouched. *)
Theorem replan_starts_from_the_measured_state
    (time : Time) (period : Duration) (s : Controller) :
  sized s ->
  new_reference_ s || recompute_trajectory_ s = true ->
  let msg := result (read_command s) in
  let x := CartToJnt (tracik_solver s) (map getPosition (joints_ s))
                     (poseMsgToKDL (pose msg)) (target_joint_position s) in
  exists p,
    planning_calls (trace (update time period s)) = [(p, plan_flags)] /\
    CurrentPositionVector p = map getPosition (joints_ s) /\
    CurrentVelocityVector p = map getVelocity (joints_ s) /\
    SelectionVector p = replicate (n_joints_ s) true /\
    (MaxVelocityVector p, MaxAccelerationVector p, MaxJerkVector p)
    = (MaxVelocityVector (rml_in_ s), MaxAccelerationVector (rml_in_ s),
       MaxJerkVector (rml_in_ s)) /\
    forall i, i < n_joints_ s ->
      at_ (CurrentAccelerationVector p) i
      = PrimFloat.sub (getVelocity (at_ (joints_ s) i))
                      (at_ (previous_joint_velocity s) i) /\
      at_ (TargetPositionVector p) i = at_ x.1.2 i.
Proof.
  intros Hs Hf. cbv zeta.
  destruct (replan_input time period s Hs Hf)
    as (p & T & E1 & E2 & E3 & _ & _ & Fm & Hp).
  exists p. rewrite update_planning, plan_and_sample_planning.
  repeat split; try assumption; apply (Hp i); assumption.
Qed.

(** X3.  Every cycle samples the trajectory exactly once, at the time
    elapsed since the trajectory was started: zero in a cycle that
    replans, since the start time is then the cycle's own time, and
    measured from the stored start time otherwise. *)
Theorem trajectory_is_sampled_once_per_cycle
    (time : Time) (period : Duration) (s : Controller) :
  sized s ->
  sampling_calls (trace (update time period s))
  = [toSec (Time_minus time
       (if new_reference_ s || recompute_trajectory_ s
        then time else traj_start_time_ s))].
Proof.
  intros Hs. rewrite update_sampling_calls.
  destruct (replan_calls time period s Hs) as (_ & -> & ->).
  reflexivity.
Qed.

(** X4.  The tracking warnings of a cycle name exactly the joints whose
    sampled position is further from the measured one than the joint's
    tolerance, in joint order, each with that distance and the
    tolerance. *)
Theorem warnings_name_the_joints_out_of_tolerance
    (time : Time) (period : Duration) (s : Controller) :
  let err := fun i => PrimFloat.abs
                        (PrimFloat.sub (sampled_position time period s i)
                                       (measured_position s i)) in
  tracking_warnings (trace (update time period s))
  = map (fun i => (i, err i, at_ (position_tolerances_ s) i))
        (List.filter (fun i => PrimFloat.ltb (at_ (position_tolerances_ s) i) (err i))
                     (seq 0 (n_joints_ s))).
Proof.
  cbv zeta. rewrite update_tracking_warnings, check_tolerances_warnings.
  assert (Fn : preserves n_joints_ (plan_and_sample time period)) by frame.
  assert (Fj : preserves joints_ (plan_and_sample time period)) by frame.
  assert (Ft : preserves position_tolerances_ (plan_and_sample time period))
    by frame.
  unfold violated, tracking_error, sampled_position, measured_position.
  rewrite Fn, Fj, Ft. reflexivity.
Qed.

(** X5.  When the cycle returns, the new-reference flag is down, and the
    replan request is up exactly when some joint was out of tolerance or
    the sampled trajectory reported its final state: what the two flags
    were on entry, and an error status of the planner, do not matter. *)
Theorem cycle_exit_flags
    (time : Time) (period : Duration) (s : Controller) :
  sized s ->
  new_reference_ (after (update time period s)) = false /\
  (recompute_trajectory_ (after (update time period s)) = true <->
   tolerance_violated time period s = true \/
   sampled_status time period s = RML_FINAL_STATE_REACHED).
Proof.
  intros Hs. split; [apply update_clears_new_reference|].
  rewrite (update_flag time period s Hs), orb_true_iff, Z.eqb_eq.
  reflexivity.
Qed.

(** X6.  A cycle that was not asked to replan leaves the plan alone: no
    solver call, no planner call, and the planner's input and flags, the
    trajectory start time, the joint and cartesian targets and the
    solver are as they were. *)
Theorem idle_cycle_keeps_the_plan
    (time : Time) (period : Duration) (s : Controller) :
  new_reference_ s || recompute_trajectory_ s = false ->
  plan_bookkeeping (after (update time period s)) = plan_bookkeeping s /\
  solver_calls (trace (update time period s)) = [] /\
  planning_calls (trace (update time period s)) = [].
Proof.
  intros Hf.
  assert (Ei : recompute (result (read_command s)) time period 0%Z
                 (before_recompute s)
               = (0%Z, before_recompute s, []))
    by (apply recompute_idle; rewrite before_recompute_flag; exact Hf).
  split; [|split].
  - rewrite update_after.
    assert (F1 : forall r, preserves plan_bookkeeping
                             (supervise_and_command period r))
      by (intros r; frame).
    assert (F2 : preserves plan_bookkeeping (sample time)) by frame.
    rewrite F1, plan_and_sample_after, F2, Ei.
    apply (before_recompute_frame plan_bookkeeping s); frame.
  - rewrite update_solver_calls, Ei. reflexivity.
  - rewrite update_planning, plan_and_sample_planning, Ei. reflexivity.
Qed.

(** X7.  After a cycle that saw every joint within tolerance and no final
    state, fresh readings and another cycle make no solver and no planner
    call: the next cycle only samples the trajectory already begun, at the
    time elapsed since that trajectory was started. *)
Theorem quiet_cycle_is_followed_by_sampling_only
    (time : Time) (period : Duration) (s : Controller)
    (readings : list (double * double)) (time' : Time) (period' : Duration) :
  sized s ->
  tolerance_violated time period s = false ->
  sampled_status time period s <> RML_FINAL_STATE_REACHED ->
  let tr := trace (run [hardware_read readings; cycle time' period']
                       (after (update time period s))) in
  solver_calls tr = [] /\
  planning_calls tr = [] /\
  sampling_calls tr
  = [toSec (Time_minus time'
       (if new_reference_ s || recompute_trajectory_ s
        then time else traj_start_time_ s))].
Proof.
  intros Hs Hv Hr. cbv zeta. rewrite read_then_cycle_trace.
  pose proof (update_sized time period s Hs) as Hs1.
  pose proof (update_clears_new_reference time period s) as Fn.
  pose proof (update_flag time period s Hs) as Ff.
  rewrite Hv in Ff.
  destruct (Z.eqb_spec (sampled_status time period s) RML_FINAL_STATE_REACHED)
    as [|_]; [contradiction|].
  pose proof (update_start_time time period s) as Fx.
  destruct (replan_calls time period s Hs) as (_ & _ & Ex).
  rewrite Ex in Fx. clear Ex.
  forget (after (update time period s)) s1.
  pose proof (read_sized readings s1 Hs1) as Hs2.
  remember (set_joints_ (refresh readings (joints_ s1)) s1) as s2 eqn:E2.
  assert (Gn : new_reference_ s2 = false) by (rewrite E2; exact Fn).
  assert (Gf : recompute_trajectory_ s2 = false) by (rewrite E2; exact Ff).
  assert (Gx : traj_start_time_ s2
               = if new_reference_ s || recompute_trajectory_ s
                 then time else traj_start_time_ s)
    by (rewrite E2; exact Fx).
  clear E2.
  assert (Hf : new_reference_ s2 || recompute_trajectory_ s2 = false)
    by (rewrite Gn, Gf; reflexivity).
  destruct (idle_cycle_calls time' period' s2 Hf) as (T1 & T2).
  split; [exact T1|]. split; [exact T2|].
  rewrite update_sampling_calls.
  destruct (replan_calls time' period' s2 Hs2) as (_ & -> & ->).
  rewrite Hf, Gx. reflexivity.
Qed.

(** X8.  After a cycle that saw a joint out of tolerance or the final
    state, the next cycle replans, and it does so from the readings that
    arrived in between: the solver is seeded with the new positions and
    the plan starts from the new positions and velocities, at the next
    cycle's own time. *)
Theorem next_cycle_replans_from_the_next_reading
    (time : Time) (period : Duration) (s : Controller)
    (readings : list (double * double)) (time' : Time) (period' : Duration) :
  sized s ->
  length readings = n_joints_ s ->
  tolerance_violated time period s = true \/
  sampled_status time period s = RML_FINAL_STATE_REACHED ->
  let s' := after (update time period s) in
  let tr := trace (run [hardware_read readings; cycle time' period'] s') in
  solver_calls tr
  = [(map fst readings, poseMsgToKDL (pose (result (read_command s'))))] /\
  (exists p,
     planning_calls tr = [(p, plan_flags)] /\
     CurrentPositionVector p = map fst readings /\
     CurrentVelocityVector p = map snd readings) /\
  sampling_calls tr = [toSec (Time_minus time' time')].
Proof.
  intros Hs Lr Hc. cbv zeta. rewrite read_then_cycle_trace.
  pose proof (update_sized time period s Hs) as Hs1.
  assert (Ff : recompute_trajectory_ (after (update time period s)) = true).
  { rewrite (update_flag time period s Hs).
    destruct Hc as [-> | ->]; [reflexivity | apply orb_true_r]. }
  assert (Fc : n_joints_ (after (update time period s)) = n_joints_ s).
  { assert (F : preserves n_joints_ (update time period)) by frame. apply F. }
  forget (after (update time period s)) s1.
  pose proof (read_sized readings s1 Hs1) as Hs2.
  destruct (refresh_measured readings (joints_ s1)) as [Rp Rv].
  { rewrite Lr, <- Fc. symmetry. apply Hs1. }
  assert (Em : result (read_command
                         (set_joints_ (refresh readings (joints_ s1)) s1))
               = result (read_command s1)) by reflexivity.
  remember (set_joints_ (refresh readings (joints_ s1)) s1) as s2 eqn:E2.
  assert (Gj : joints_ s2 = refresh readings (joints_ s1))
    by (rewrite E2; reflexivity).
  assert (Gf : recompute_trajectory_ s2 = true) by (rewrite E2; exact Ff).
  clear E2.
  assert (Hf : new_reference_ s2 || recompute_trajectory_ s2 = true)
    by (rewrite Gf; apply orb_true_r).
  split; [|split].
  - rewrite update_solver_calls.
    destruct (replan_calls time' period' s2 Hs2) as (-> & _).
    rewrite Hf, Gj, Rp, Em. reflexivity.
  - destruct (replan_input time' period' s2 Hs2 Hf)
      as (p & T & P1 & P2 & _).
    exists p. rewrite update_planning, plan_and_sample_planning.
    rewrite Gj, Rp in P1. rewrite Gj, Rv in P2.
    split; [exact T|]. split; assumption.
  - rewrite update_sampling_calls.
    destruct (replan_calls time' period' s2 Hs2) as (_ & -> & ->).
    rewrite Hf. reflexivity.
Qed.

(** X9.  [starting] commands nothing and calls neither solver nor planner:
    it sets every commanded position to the measured one, seeds the
    command buffer with the pose that forward kinematics gives for the
    measured joint positions, raises the new-reference flag, and leaves
    the sizes as they are. *)
Theorem starting_holds_the_measured_pose (time : Time) (s : Controller) :
  sized s ->
  let q0 := map getPosition (joints_ s) in
  let r := JntToCart (fk_solver s) q0 Frame_default in
  after (starting time s)
  = set_new_reference_ true
      (set_commanded_positions_ q0
         (set_trajectory_command_buffer_
            (initRT (trajectory_command_buffer_ s)
                    (mkPoseStamped Header_default (poseKDLToMsg r.2)))
            (set_fk_solver r.1 s))) /\
  trace (starting time s) = [] /\
  sized (after (starting time s)).
Proof.
  intros Hs. cbv zeta.
  destruct (starting_spec time s Hs) as [E T].
  split; [exact E|]. split; [exact T|].
  apply starting_sized. exact Hs.
Qed.

(** X10.  The first cycle after [starting] replans, whatever the flags
    were: it calls the solver once, seeded with the measured joint
    positions, on the pose read back from the buffer that [starting]
    initialised with the forward kinematics of those positions. *)
Theorem first_cycle_after_starting_plans_to_the_current_pose
    (t0 time : Time) (period : Duration) (s : Controller) :
  sized s ->
  (forall b msg, pose (readFromRT (initRT b msg)).2 = pose msg) ->
  let q0 := map getPosition (joints_ s) in
  let s0 := after (starting t0 s) in
  solver_calls (trace (update time period s0))
  = [(q0, poseMsgToKDL
            (poseKDLToMsg (JntToCart (fk_solver s) q0 Frame_default).2))] /\
  length (planning_calls (trace (update time period s0))) = 1 /\
  sampling_calls (trace (update time period s0))
  = [toSec (Time_minus time time)].
Proof.
  intros Hs Hb. cbv zeta.
  destruct (starting_spec t0 s Hs) as [E _]. cbv zeta in E.
  pose proof (starting_sized t0 s Hs) as Hs0.
  forget (after (starting t0 s)) s0.
  assert (Gn : new_reference_ s0 = true) by (rewrite E; reflexivity).
  assert (Gj : joints_ s0 = joints_ s) by (rewrite E; reflexivity).
  assert (Gm : pose (result (read_command s0))
               = poseKDLToMsg
                   (JntToCart (fk_solver s) (map getPosition (joints_ s))
                              Frame_default).2).
  { rewrite E.
    change (result (read_command ?x))
      with ((readFromRT (trajectory_command_buffer_ x)).2).
    apply Hb. }
  clear E.
  assert (Hf : new_reference_ s0 || recompute_trajectory_ s0 = true)
    by (rewrite Gn; reflexivity).
  split; [|split].
  - rewrite update_solver_calls.
    destruct (replan_calls time period s0 Hs0) as (-> & _).
    rewrite Hf, Gj, Gm. reflexivity.
  - rewrite update_planning, plan_and_sample_planning.
    destruct (replan_input time period s0 Hs0 Hf) as (p & -> & _).
    reflexivity.
  - rewrite update_sampling_calls.
    destruct (replan_calls time period s0 Hs0) as (_ & -> & ->).
    rewrite Hf. reflexivity.
Qed.

(** X11.  However many commands arrive before a cycle, the cycle replans
    once: the solver is called once, on the pose read from the buffer
    all the commands were written to, the planner is called once, and the
    new-reference flag is down again when the cycle returns. *)
Theorem commands_before_a_cycle_give_one_plan
    (msgs : list PoseStamped) (time : Time) (period : Duration)
    (s : Controller) :
  sized s -> msgs <> [] ->
  let xs := map command_received msgs ++ [cycle time period] in
  let buffer := fold_left writeFromNonRT msgs (trajectory_command_buffer_ s) in
  solver_calls (trace (run xs s))
  = [(map getPosition (joints_ s), poseMsgToKDL (pose (readFromRT buffer).2))] /\
  length (planning_calls (trace (run xs s))) = 1 /\
  new_reference_ (after (run xs s)) = false.
Proof.
  intros Hs Hn. cbv zeta.
  rewrite run_app_trace, run_app_after, run_one_trace, run_one_after.
  change (react (cycle time period)) with (update time period).
  pose proof (run_sized (map command_received msgs) s Hs) as Hs1.
  pose proof (commands_received_flag msgs s Hn) as Gn.
  pose proof (commands_received_buffer msgs s) as Gb.
  assert (Gj : joints_ (after (run (map command_received msgs) s)) = joints_ s)
    by (apply commands_received_frame; intros msg; frame).
  assert (S1 : solver_calls (trace (run (map command_received msgs) s)) = [])
    by (apply commands_received_silent; intros msg; hush).
  assert (S2 : planning_calls (trace (run (map command_received msgs) s)) = [])
    by (apply commands_received_silent; intros msg; hush).
  unfold solver_calls, planning_calls in *.
  rewrite !omap_app, S1, S2, !app_nil_l. clear S1 S2.
  forget (after (run (map command_received msgs) s)) s1.
  assert (Hf : new_reference_ s1 || recompute_trajectory_ s1 = true)
    by (rewrite Gn; reflexivity).
  split; [|split].
  - pose proof (update_solver_calls time period s1) as U.
    unfold solver_calls in U. rewrite U.
    destruct (replan_calls time period s1 Hs1) as (T & _).
    unfold solver_calls in T. rewrite T, Hf, Gj.
    change (result (read_command s1))
      with ((readFromRT (trajectory_command_buffer_ s1)).2).
    rewrite Gb. reflexivity.
  - pose proof (update_planning time period s1) as U.
    unfold planning_calls in U. rewrite U.
    pose proof (plan_and_sample_planning time period s1) as U'.
    unfold planning_calls in U'. rewrite U'.
    destruct (replan_input time period s1 Hs1 Hf) as (p & T & _).
    unfold planning_calls in T. rewrite T. reflexivity.
  - apply update_clears_new_reference.
Qed.

(** X12.  Nothing that reaches a running controller changes what [init]
    configured: the number of joints, the tolerances, the decimation, the
    sampling resolution, the forward-kinematics solver and the velocity,
    acceleration and jerk limits are the same after any run. *)
Theorem run_leaves_the_configuration (xs : list stimulus) (s : Controller) :
  configuration (after (run xs s)) = configuration s.
Proof.
  revert s. induction xs as [|x xs IH]; intros s; [reflexivity|].
  rewrite run_cons_after, IH. apply react_configuration.
Qed.

(** X13.  A cycle writes the command of every joint handle and nothing
    else of it: the measured positions and velocities are the same when
    the cycle returns. *)
Theorem cycle_leaves_the_measurements
    (time : Time) (period : Duration) (s : Controller) :
  measured (after (update time period s)) = measured s.
Proof.
  revert s. change (preserves measured (update time period)).
  unfold update, supervise_and_command.
  apply preserves_bind; [frame|intros r].
  apply preserves_bind; [frame|intros _].
  apply preserves_bind; [frame|intros _].
  apply preserves_bind; [frame|intros _].
  apply preserves_bind; [apply set_commands_measured|intros _].
  frame.
Qed.

(** X14.  The loop count counts the cycles: after any run it has grown by
    the number of [update] calls in the run, as long as that stays within
    the range of [int]; commands and hardware readings do not count. *)
Theorem run_counts_the_cycles (xs : list stimulus) (s : Controller) :
  (loop_count_ s + Z.of_nat (cycles xs) <= 2147483647)%Z ->
  loop_count_ (after (run xs s)) = (loop_count_ s + Z.of_nat (cycles xs))%Z.
Proof.
  intros _. revert s. induction xs as [|x xs IH]; intros s.
  - change (after (run [] s)) with s. simpl cycles. lia.
  - rewrite run_cons_after, IH, react_loop_count.
    change (cycles (x :: xs)) with ((if is_cycle x then 1 else 0) + cycles xs).
    destruct (is_cycle x); lia.
Qed.


(** X16.  The vectors keep the size [init] gave them through
    [starting] and through any run of commands, readings and cycles. *)
Theorem run_keeps_the_sizes (time : Time) (xs : list stimulus) (s : Controller) :
  sized s -> sized (after (run xs (after (starting time s)))).
Proof. intros Hs. apply run_sized, starting_sized, Hs. Qed.

(** X17.  The calls of one cycle come in program order: the solver, then
    the planner, then the sampler, then the joints.  Taking the log lines
    out of the trace leaves exactly the solver calls, followed by the
    planner calls, the sampling calls and the commands. *)
Theorem calls_come_in_program_order
    (time : Time) (period : Duration) (s : Controller) :
  let tr := trace (update time period s) in
  collaborator_calls tr
  = map (fun c => CartToJnt_called c.1 c.2) (solver_calls tr)
    ++ map (fun c => RMLPosition_called c.1 c.2) (planning_calls tr)
    ++ map RMLPositionAtAGivenSampleTime_called (sampling_calls tr)
    ++ map (fun c => setCommand_called c.1 c.2) (commands_set tr).
Proof.
  cbv zeta. rewrite update_trace.
  forget (after (plan_and_sample time period s)) s1.
  forget (sampled_status time period s) r0.
  assert (Q1 : forall r, silent solver_call (supervise_and_command period r))
    by (intros r; hush).
  assert (Q2 : forall r, silent planning_call (supervise_and_command period r))
    by (intros r; hush).
  assert (Q3 : forall r, silent sampling_call (supervise_and_command period r))
    by (intros r; hush).
  pose proof (only_commands (trace (supervise_and_command period r0 s1))
                (Q1 _ _) (Q2 _ _) (Q3 _ _)) as Oc.
  unfold collaborator_calls, solver_calls, planning_calls, sampling_calls,
    commands_set in *.
  rewrite !omap_app, Q1, Q2, Q3, Oc, !app_nil_r.
  clear Q1 Q2 Q3 Oc.
  forget (omap command_set (trace (supervise_and_command period r0 s1))) cs.
  rewrite (plan_and_sample_silent_commands time period s), app_nil_l.
  rewrite !app_assoc. f_equal. rewrite <- !app_assoc.
  rewrite plan_and_sample_trace, !omap_app, sample_trace.
  assert (A1 : silent collaborator_call read_command) by hush.
  assert (A2 : silent solver_call read_command) by hush.
  assert (A3 : silent planning_call read_command) by hush.
  assert (A4 : silent sampling_call read_command) by hush.
  assert (B1 : silent collaborator_call check_new_reference) by hush.
  assert (B2 : silent solver_call check_new_reference) by hush.
  assert (B3 : silent planning_call check_new_reference) by hush.
  assert (B4 : silent sampling_call check_new_reference) by hush.
  assert (C1 : silent collaborator_call compute_acceleration) by hush.
  assert (C2 : silent solver_call compute_acceleration) by hush.
  assert (C3 : silent planning_call compute_acceleration) by hush.
  assert (C4 : silent sampling_call compute_acceleration) by hush.
  rewrite A1, A2, A3, A4, B1, B2, B3, B4, C1, C2, C3, C4, !app_nil_l.
  clear A1 A2 A3 A4 B1 B2 B3 B4 C1 C2 C3 C4.
  forget (result (read_command s)) msg.
  forget (before_recompute s) sc.
  destruct (recompute_trajectory_ sc) eqn:Hf.
  - rewrite (recompute_trace _ _ _ _ _ Hf).
    destruct (solve_inverse_kinematics_spec msg sc) as (q & _ & _ & -> & _).
    rewrite !omap_app.
    assert (D1 : silent collaborator_call (prepare_plan time period)) by hush.
    assert (D2 : silent solver_call (prepare_plan time period)) by hush.
    assert (D3 : silent planning_call (prepare_plan time period)) by hush.
    assert (D4 : silent sampling_call (prepare_plan time period)) by hush.
    rewrite D1, D2, D3, D4. reflexivity.
  - rewrite (recompute_idle _ _ _ _ _ Hf). reflexivity.
Qed.

End Further.

(** * [init] and the life of the controller *)

Section Commissioning.
Context {Lib : Libraries} {Col : Collaborators} {Plat : Platform}.

Local Infix "+:+" := String.append (at level 60, right associativity).

(** X18.  When [init] returns [true] the controller is configured: the
    parameter [joint_names] is an array of strings, one joint is loaded
    for each, with its handle from the hardware, its tolerance, its
    acceleration and jerk limits from the parameter server or the
    defaults 0.1, 1 and 1000, and its velocity limit from the URDF; every
    vector of the cycle has one entry per joint, every joint is selected,
    the planner's input passed its validity check, the solvers are built
    and the command subscriber is in place. *)
Theorem init_success_configures
    (robot : PositionJointInterface) (n : NodeHandle) (o : Object) :
  (forall k, constructed k (new_RMLPositionInputParameters k)) ->
  flow_of (init robot n o) = Return true ->
  configured robot n (object_of (init robot n o)).
Proof.
  intros Hnew Hf. pose proof (init_spec robot n o Hnew) as H.
  unfold wp in H. rewrite Hf in H. exact H.
Qed.


(** X20.  When [init] does not return, the hardware has no handle for a
    joint of [joint_names], or the URDF joint of that name has no limits;
    no error line was printed. *)
Theorem init_is_stranded_for_a_reason
    (robot : PositionJointInterface) (n : NodeHandle) (o : Object) :
  (forall k, constructed k (new_RMLPositionInputParameters k)) ->
  flow_of (init robot n o) = Abort ->
  stranded robot n /\ errors (console_of (init robot n o)) = [].
Proof.
  intros Hnew Hf. split.
  - pose proof (init_spec robot n o Hnew) as H.
    unfold wp in H. rewrite Hf in H. exact H.
  - pose proof (init_honest robot n o) as H. rewrite Hf in H. exact H.
Qed.


(** X22.  However [init] ends, it leaves the loop count, the decimation,
    the two flags of the cycle, the planner's flags, the trajectory start
    time, the cartesian target and the command buffer alone: after the
    constructor and [init] the loop count is 0, the decimation 10 and
    both flags are down. *)
Theorem init_leaves_the_flags
    (robot : PositionJointInterface) (n : NodeHandle)
    (raw : Controller) (m : Members) :
  let o := mkObject (CartesianPositionController raw) m in
  let c := cycle_members (object_of (init robot n o)) in
  loop_count_ c = 0%Z /\ decimation_ c = 10%Z /\
  new_reference_ c = false /\ recompute_trajectory_ c = false /\
  (rml_flags_ c, traj_start_time_ c, target_cart_position c,
   trajectory_command_buffer_ c)
  = (rml_flags_ raw, traj_start_time_ raw, target_cart_position raw,
     trajectory_command_buffer_ raw).
Proof.
  cbv zeta.
  pose proof (init_flags_kept robot n
                (mkObject (CartesianPositionController raw) m)) as K.
  cbv beta zeta in K. injection K as -> -> -> -> -> -> -> ->.
  repeat split.
Qed.


(** X24.  [rml_debug] changes nothing and prints twelve lines, all at the
    level it is given. *)
Theorem rml_debug_prints_twelve_lines (level : Level) (o : Object) :
  flow_of (rml_debug level o) = Next tt /\
  object_of (rml_debug level o) = o /\
  length (console_of (rml_debug level o)) = 12 /\
  Forall (fun e => exists text, e = ROS_LOG_STREAM level text)
         (console_of (rml_debug level o)).
Proof.
  pose proof (rml_debug_spec level o) as H. unfold wp in H.
  destruct (flow_of (rml_debug level o)) as [[]|b|]; try contradiction.
  destruct H as (E & L & F). repeat split; assumption.
Qed.

(** X25.  [operator<<] writes an opening bracket, every entry of the
    vector followed by a comma and a blank, the last one too, and a
    closing bracket. *)
Theorem stream_RMLVector_separates_every_entry
    {T : Type} (show : T -> string) (stream : string) (rml_vec : list T) :
  stream_RMLVector show stream rml_vec
  = stream +:+ "[ "
    +:+ fold_right (fun x rest => show x +:+ ", " +:+ rest) "]"%string rml_vec.
Proof.
  unfold stream_RMLVector. rewrite stream_entries, append_assoc. reflexivity.
Qed.

End Commissioning.

(** * The claims on the bench *)

Import Bench.

Ltac bench_sized := vm_compute; repeat split; reflexivity.

(** C1.  The cycle below enters with the replan request set and an
    inverse-kinematics solve that fails with -3.  The planner is called
    all the same, on the target the failed solve left behind, and the
    request is cleared: the result code [rc] is never read. *)
Example ik_failure_still_replans :
  let C := rig (-3) 0 0 [1.5; 2.5]%float in
  let s := two_joints moving [1; 1]%float [3; 4]%float true 0 in
  let r := update (Col := C) 5%float 0.5%float s in
  recompute_trajectory_ s = true /\
  result (solve_inverse_kinematics (Col := C) (result (read_command (Col := C) s))
            (before_recompute (Col := C) s)) = (-3)%Z /\
  map (fun c => TargetPositionVector c.1) (planning_calls (trace r))
  = [[0; 0]%float] /\
  recompute_trajectory_ (after r) = false.
Proof. vm_compute. repeat split; reflexivity. Qed.

Lemma planner_error_holds_position_and_limits_log_witness :
  let C := rig 0 0 (-100) [1.5; 2.5]%float in
  let s := two_joints moving [1; 1]%float [3; 4]%float false 0 in
  let xs := [cycle 5%float 0.5%float;
             hardware_read [(1.25, 0.5); (2, 0.25)]%float;
             cycle 5.5%float 0.5%float] in
  sized s /\ (0 < decimation_ s)%Z /\
  (sampled_status (Col := C) 5%float 0.5%float s <> RML_WORKING ->
   sampled_status (Col := C) 5%float 0.5%float s <> RML_FINAL_STATE_REACHED ->
     (forall i, i < n_joints_ s ->
        emitted_command (after (update (Col := C) 5%float 0.5%float s)) i
        = measured_position s i) /\
     commands_set (trace (update (Col := C) 5%float 0.5%float s))
     = map (fun i => (i, measured_position s i)) (seq 0 (n_joints_ s)) /\
     error_logs (trace (update (Col := C) 5%float 0.5%float s))
     = if Z.eqb (Z.rem (loop_count_ s) (decimation_ s)) 0
       then [sampled_status (Col := C) 5%float 0.5%float s] else []) /\
  ((Z.of_nat (cycles xs) <= decimation_ s)%Z ->
     length (error_logs (trace (run (Col := C) xs s))) <= 1) /\
  decimation_ (CartesianPositionController s) = 10%Z.
Proof.
  intros C s xs.
  split; [bench_sized|]. split; [reflexivity|].
  apply (planner_error_holds_position_and_limits_log (Col := C));
    [bench_sized | reflexivity].
Defined.

Lemma working_or_final_state_commands_sample_witness :
  let C := rig 0 0 1 [1.5; 2.5]%float in
  let s := two_joints moving [1; 1]%float [3; 4]%float false 0 in
  sized s /\
  (sampled_status (Col := C) 5%float 0.5%float s = RML_WORKING \/
   sampled_status (Col := C) 5%float 0.5%float s = RML_FINAL_STATE_REACHED) /\
  (forall i, i < n_joints_ s ->
     emitted_command (after (update (Col := C) 5%float 0.5%float s)) i
     = sampled_position (Col := C) 5%float 0.5%float s i) /\
  commands_set (trace (update (Col := C) 5%float 0.5%float s))
  = map (fun i => (i, sampled_position (Col := C) 5%float 0.5%float s i))
        (seq 0 (n_joints_ s)) /\
  (sampled_status (Col := C) 5%float 0.5%float s = RML_FINAL_STATE_REACHED ->
   recompute_trajectory_ (after (update (Col := C) 5%float 0.5%float s)) = true).
Proof.
  intros C s.
  split; [bench_sized|]. split; [right; reflexivity|].
  apply (working_or_final_state_commands_sample (Col := C));
    [bench_sized | right; reflexivity].
Defined.

(** C4, as stated, fails on this cycle: joint 0 is outside its tolerance
    and the planner reports the error -100, so the replan request is set
    but what joint 0 is commanded is its measured position 1, not the
    sampled position 1.5. *)
Lemma tolerance_violation_under_planner_error :
  let C := rig 0 0 (-100) [1.5; 2.5]%float in
  let s := two_joints moving [0.25; 1]%float [3; 4]%float false 0 in
  sized s /\
  violated (after (plan_and_sample (Col := C) 5%float 0.5%float s)) 0 = true /\
  recompute_trajectory_ (after (update (Col := C) 5%float 0.5%float s)) = true /\
  emitted_command (after (update (Col := C) 5%float 0.5%float s)) 0
  <> sampled_position (Col := C) 5%float 0.5%float s 0.
Proof.
  intros C s. split; [bench_sized|]. split; [reflexivity|]. split; [reflexivity|].
  intros E.
  apply (f_equal (fun x => PrimFloat.eqb x 1.5%float)) in E.
  vm_compute in E. discriminate E.
Qed.

Lemma tolerance_violation_only_requests_replan_witness :
  let C := rig 0 0 (-100) [1.5; 2.5]%float in
  let s := two_joints moving [0.25; 1]%float [3; 4]%float false 0 in
  let tol := [1; 1]%float in
  sized s /\ 0 < n_joints_ s /\
  violated (after (plan_and_sample (Col := C) 5%float 0.5%float s)) 0 = true /\
  recompute_trajectory_ (after (update (Col := C) 5%float 0.5%float s)) = true /\
  emitted_command (after (update (Col := C) 5%float 0.5%float s)) 0
  = (if planner_error (sampled_status (Col := C) 5%float 0.5%float s)
     then measured_position s 0
     else sampled_position (Col := C) 5%float 0.5%float s 0) /\
  commands_set (trace (update (Col := C) 5%float 0.5%float (with_tolerances tol s)))
  = commands_set (trace (update (Col := C) 5%float 0.5%float s)).
Proof.
  intros C s tol.
  split; [bench_sized|]. split; [vm_compute; lia|]. split; [reflexivity|].
  apply (tolerance_violation_only_requests_replan (Col := C));
    [bench_sized | vm_compute; lia | reflexivity].
Defined.

Lemma replan_targets_rest_within_two_periods_witness :
  let C := rig 0 0 0 [1.5; 2.5]%float in
  let s := two_joints moving [1; 1]%float [3; 4]%float true 0 in
  sized s /\
  length (planning_calls (trace (update (Col := C) 5%float 0.5%float s)))
  = (if new_reference_ s || recompute_trajectory_ s then 1 else 0) /\
  forall p flags,
    In (p, flags) (planning_calls (trace (update (Col := C) 5%float 0.5%float s))) ->
    (forall i, i < n_joints_ s -> at_ (TargetVelocityVector p) i = 0%float) /\
    MinimumSynchronizationTime p
    = toSec (Collaborators := C) (Duration_times (Collaborators := C) 0.5%float 2%float).
Proof.
  intros C s. split; [bench_sized|].
  apply (replan_targets_rest_within_two_periods (Col := C)). bench_sized.
Defined.

Lemma acceleration_is_velocity_delta_witness :
  let C := rig 0 0 0 [1.5; 2.5]%float in
  let s := two_joints moving [1; 1]%float [3; 4]%float false 0 in
  sized s /\ 1 < n_joints_ s /\
  at_ (current_joint_acceleration (after (update (Col := C) 5%float 0.5%float s))) 1
  = PrimFloat.sub (getVelocity (at_ (joints_ s) 1))
                  (at_ (previous_joint_velocity s) 1) /\
  at_ (previous_joint_velocity (after (update (Col := C) 5%float 0.5%float s))) 1
  = getVelocity (at_ (joints_ s) 1).
Proof.
  intros C s. split; [bench_sized|]. split; [vm_compute; lia|].
  apply (acceleration_is_velocity_delta (Col := C)); [bench_sized | vm_compute; lia].
Defined.

Lemma every_cycle_commands_every_joint_witness :
  let C := rig (-3) (-100) (-100) [1.5; 2.5]%float in
  let s := two_joints moving [0.25; 1]%float [3; 4]%float true 0 in
  sized s /\
  map fst (commands_set (trace (update (Col := C) 5%float 0.5%float s)))
  = seq 0 (n_joints_ s) /\
  forall i, i < n_joints_ s ->
    In (i, emitted_command (after (update (Col := C) 5%float 0.5%float s)) i)
       (commands_set (trace (update (Col := C) 5%float 0.5%float s))).
Proof.
  intros C s. split; [bench_sized|].
  apply (every_cycle_commands_every_joint (Col := C)). bench_sized.
Defined.

Lemma error_fallback_leaves_replan_request_witness :
  let C := rig 0 0 (-100) [1.5; 2.5]%float in
  let s := two_joints moving [1; 1]%float [3; 4]%float true 0 in
  (-100)%Z <> RML_WORKING /\ (-100)%Z <> RML_FINAL_STATE_REACHED /\
  (exists c, after (select_command (-100) s) = set_commanded_positions_ c s) /\
  recompute_trajectory_ (after (select_command (-100) s))
  = recompute_trajectory_ s /\
  recompute_trajectory_
    (after ((set_commands ≫= fun _ => count_loop (Col := C) 0.5%float)
              (after (select_command (-100) s))))
  = recompute_trajectory_ s.
Proof.
  intros C s. split; [discriminate|]. split; [discriminate|].
  apply (error_fallback_leaves_replan_request (Col := C)); discriminate.
Defined.

(** * Further properties on the bench and on the stand *)

Import Stand.

Lemma stand_constructed names description valid k :
  constructed k (new_RMLPositionInputParameters
                   (Platform := stand names description valid) k).
Proof.
  unfold constructed, input_sized. cbn. rewrite !length_replicate.
  repeat split; reflexivity.
Qed.

Lemma solver_is_called_exactly_on_replan_witness :
  let C := rig 0 0 0 [1.5; 2.5]%float in
  let s := two_joints moving [1; 1]%float [3; 4]%float true 0 in
  sized s /\
  solver_calls (trace (update (Col := C) 5%float 0.5%float s))
  = if new_reference_ s || recompute_trajectory_ s
    then [(map getPosition (joints_ s),
           poseMsgToKDL (Collaborators := C)
             (pose (result (read_command (Col := C) s))))]
    else [].
Proof.
  intros C s. split; [bench_sized|].
  apply (solver_is_called_exactly_on_replan (Col := C)). bench_sized.
Defined.

Lemma replan_starts_from_the_measured_state_witness :
  let C := rig (-3) 0 0 [1.5; 2.5]%float in
  let s := two_joints moving [1; 1]%float [3; 4]%float true 0 in
  let msg := result (read_command (Col := C) s) in
  let x := CartToJnt (Collaborators := C) (tracik_solver s)
             (map getPosition (joints_ s))
             (poseMsgToKDL (Collaborators := C) (pose msg))
             (target_joint_position s) in
  sized s /\ new_reference_ s || recompute_trajectory_ s = true /\
  exists p,
    planning_calls (trace (update (Col := C) 5%float 0.5%float s))
    = [(p, plan_flags)] /\
    CurrentPositionVector p = map getPosition (joints_ s) /\
    CurrentVelocityVector p = map getVelocity (joints_ s) /\
    SelectionVector p = replicate (n_joints_ s) true /\
    (MaxVelocityVector p, MaxAccelerationVector p, MaxJerkVector p)
    = (MaxVelocityVector (rml_in_ s), MaxAccelerationVector (rml_in_ s),
       MaxJerkVector (rml_in_ s)) /\
    forall i, i < n_joints_ s ->
      at_ (CurrentAccelerationVector p) i
      = PrimFloat.sub (getVelocity (at_ (joints_ s) i))
                      (at_ (previous_joint_velocity s) i) /\
      at_ (TargetPositionVector p) i = at_ x.1.2 i.
Proof.
  intros C s msg x. split; [bench_sized|]. split; [reflexivity|].
  apply (replan_starts_from_the_measured_state (Col := C));
    [bench_sized | reflexivity].
Defined.

Lemma trajectory_is_sampled_once_per_cycle_witness :
  let C := rig 0 0 0 [1.5; 2.5]%float in
  let s := two_joints moving [1; 1]%float [3; 4]%float false 0 in
  sized s /\
  sampling_calls (trace (update (Col := C) 5%float 0.5%float s))
  = [toSec (Collaborators := C)
       (Time_minus (Collaborators := C) 5%float
          (if new_reference_ s || recompute_trajectory_ s
           then 5%float else traj_start_time_ s))].
Proof.
  intros C s. split; [bench_sized|].
  apply (trajectory_is_sampled_once_per_cycle (Col := C)). bench_sized.
Defined.

Lemma cycle_exit_flags_witness :
  let C := rig 0 0 (-100) [1; 2]%float in
  let s := two_joints moving [1; 1]%float [3; 4]%float true 0 in
  sized s /\
  new_reference_ (after (update (Col := C) 5%float 0.5%float s)) = false /\
  (recompute_trajectory_ (after (update (Col := C) 5%float 0.5%float s)) = true <->
   tolerance_violated (Col := C) 5%float 0.5%float s = true \/
   sampled_status (Col := C) 5%float 0.5%float s = RML_FINAL_STATE_REACHED).
Proof.
  intros C s. split; [bench_sized|].
  apply (cycle_exit_flags (Col := C)). bench_sized.
Defined.

Lemma idle_cycle_keeps_the_plan_witness :
  let C := rig 0 0 0 [1.5; 2.5]%float in
  let s := two_joints moving [1; 1]%float [3; 4]%float false 0 in
  new_reference_ s || recompute_trajectory_ s = false /\
  plan_bookkeeping (after (update (Col := C) 5%float 0.5%float s))
  = plan_bookkeeping s /\
  solver_calls (trace (update (Col := C) 5%float 0.5%float s)) = [] /\
  planning_calls (trace (update (Col := C) 5%float 0.5%float s)) = [].
Proof.
  intros C s. split; [reflexivity|].
  apply (idle_cycle_keeps_the_plan (Col := C)). reflexivity.
Defined.

Lemma quiet_cycle_is_followed_by_sampling_only_witness :
  let C := rig 0 0 0 [1; 2]%float in
  let s := two_joints moving [1; 1]%float [3; 4]%float true 0 in
  let readings := [(1.25, 0.5); (2, 0.25)]%float in
  let tr := trace (run (Col := C)
                     [hardware_read readings; cycle 5.5%float 0.5%float]
                     (after (update (Col := C) 5%float 0.5%float s))) in
  sized s /\
  tolerance_violated (Col := C) 5%float 0.5%float s = false /\
  sampled_status (Col := C) 5%float 0.5%float s <> RML_FINAL_STATE_REACHED /\
  solver_calls tr = [] /\
  planning_calls tr = [] /\
  sampling_calls tr
  = [toSec (Collaborators := C)
       (Time_minus (Collaborators := C) 5.5%float
          (if new_reference_ s || recompute_trajectory_ s
           then 5%float else traj_start_time_ s))].
Proof.
  intros C s readings tr.
  split; [bench_sized|]. split; [reflexivity|]. split; [discriminate|].
  apply (quiet_cycle_is_followed_by_sampling_only (Col := C));
    [bench_sized | reflexivity | discriminate].
Defined.

Lemma next_cycle_replans_from_the_next_reading_witness :
  let C := rig 0 0 0 [1.5; 2.5]%float in
  let s := two_joints moving [0.25; 1]%float [3; 4]%float false 0 in
  let readings := [(1.25, 0.5); (2, 0.25)]%float in
  let s' := after (update (Col := C) 5%float 0.5%float s) in
  let tr := trace (run (Col := C)
                     [hardware_read readings; cycle 5.5%float 0.5%float] s') in
  sized s /\ length readings = n_joints_ s /\
  (tolerance_violated (Col := C) 5%float 0.5%float s = true \/
   sampled_status (Col := C) 5%float 0.5%float s = RML_FINAL_STATE_REACHED) /\
  solver_calls tr
  = [(map fst readings,
      poseMsgToKDL (Collaborators := C)
        (pose (result (read_command (Col := C) s'))))] /\
  (exists p,
     planning_calls tr = [(p, plan_flags)] /\
     CurrentPositionVector p = map fst readings /\
     CurrentVelocityVector p = map snd readings) /\
  sampling_calls tr
  = [toSec (Collaborators := C)
       (Time_minus (Collaborators := C) 5.5%float 5.5%float)].
Proof.
  intros C s readings s' tr.
  split; [bench_sized|]. split; [reflexivity|]. split; [left; reflexivity|].
  apply (next_cycle_replans_from_the_next_reading (Col := C));
    [bench_sized | reflexivity | left; reflexivity].
Defined.

Lemma starting_holds_the_measured_pose_witness :
  let C := rig 0 0 0 [1.5; 2.5]%float in
  let s := two_joints moving [1; 1]%float [3; 4]%float false 0 in
  let q0 := map getPosition (joints_ s) in
  let r := JntToCart (Collaborators := C) (fk_solver s) q0
             (Frame_default (Collaborators := C)) in
  sized s /\
  after (starting (Col := C) 4%float s)
  = set_new_reference_ true
      (set_commanded_positions_ q0
         (set_trajectory_command_buffer_
            (initRT (Collaborators := C) (trajectory_command_buffer_ s)
                    (mkPoseStamped (Header_default (Collaborators := C))
                                   (poseKDLToMsg (Collaborators := C) r.2)))
            (set_fk_solver r.1 s))) /\
  trace (starting (Col := C) 4%float s) = [] /\
  sized (after (starting (Col := C) 4%float s)).
Proof.
  intros C s q0 r. split; [bench_sized|].
  apply (starting_holds_the_measured_pose (Col := C)). bench_sized.
Defined.

Lemma first_cycle_after_starting_plans_to_the_current_pose_witness :
  let C := rig 0 0 0 [1.5; 2.5]%float in
  let s := two_joints moving [1; 1]%float [3; 4]%float false 0 in
  let q0 := map getPosition (joints_ s) in
  let s0 := after (starting (Col := C) 4%float s) in
  sized s /\
  (forall b msg,
     pose (readFromRT (Collaborators := C)
             (initRT (Collaborators := C) b msg)).2 = pose msg) /\
  solver_calls (trace (update (Col := C) 5%float 0.5%float s0))
  = [(q0, poseMsgToKDL (Collaborators := C)
            (poseKDLToMsg (Collaborators := C)
               (JntToCart (Collaborators := C) (fk_solver s) q0
                          (Frame_default (Collaborators := C))).2))] /\
  length (planning_calls (trace (update (Col := C) 5%float 0.5%float s0))) = 1 /\
  sampling_calls (trace (update (Col := C) 5%float 0.5%float s0))
  = [toSec (Collaborators := C)
       (Time_minus (Collaborators := C) 5%float 5%float)].
Proof.
  intros C s q0 s0. split; [bench_sized|].
  split; [intros b msg; reflexivity|].
  apply (first_cycle_after_starting_plans_to_the_current_pose (Col := C));
    [bench_sized | intros b msg; reflexivity].
Defined.

Lemma commands_before_a_cycle_give_one_plan_witness :
  let C := rig 0 0 0 [1.5; 2.5]%float in
  let s := two_joints moving [1; 1]%float [3; 4]%float false 0 in
  let msgs := [mkPoseStamped tt [5; 6]%float; mkPoseStamped tt [7; 8]%float] in
  let xs := map command_received msgs ++ [cycle 5%float 0.5%float] in
  let buffer := fold_left (writeFromNonRT (Collaborators := C)) msgs
                          (trajectory_command_buffer_ s) in
  sized s /\ msgs <> [] /\
  solver_calls (trace (run (Col := C) xs s))
  = [(map getPosition (joints_ s),
      poseMsgToKDL (Collaborators := C)
        (pose (readFromRT (Collaborators := C) buffer).2))] /\
  length (planning_calls (trace (run (Col := C) xs s))) = 1 /\
  new_reference_ (after (run (Col := C) xs s)) = false.
Proof.
  intros C s msgs xs buffer. split; [bench_sized|]. split; [discriminate|].
  apply (commands_before_a_cycle_give_one_plan (Col := C));
    [bench_sized | discriminate].
Defined.

Lemma run_counts_the_cycles_witness :
  let C := rig 0 0 0 [1.5; 2.5]%float in
  let s := two_joints moving [1; 1]%float [3; 4]%float false 41 in
  let xs := [cycle 5%float 0.5%float;
             command_received (mkPoseStamped tt [5; 6]%float);
             hardware_read [(1.25, 0.5); (2, 0.25)]%float;
             cycle 5.5%float 0.5%float] in
  (loop_count_ s + Z.of_nat (cycles xs) <= 2147483647)%Z /\
  loop_count_ (after (run (Col := C) xs s))
  = (loop_count_ s + Z.of_nat (cycles xs))%Z.
Proof.
  intros C s xs. split; [vm_compute; discriminate|].
  apply (run_counts_the_cycles (Col := C)). vm_compute. discriminate.
Defined.

Lemma run_keeps_the_sizes_witness :
  let C := rig 0 0 (-100) [1.5; 2.5]%float in
  let s := two_joints moving [0.25; 1]%float [3; 4]%float false 0 in
  let xs := [cycle 5%float 0.5%float;
             command_received (mkPoseStamped tt [5; 6]%float);
             hardware_read [(1.25, 0.5)]%float;
             cycle 5.5%float 0.5%float] in
  sized s /\
  sized (after (run (Col := C) xs (after (starting (Col := C) 4%float s)))).
Proof.
  intros C s xs. split; [bench_sized|].
  apply (run_keeps_the_sizes (Col := C)). bench_sized.
Defined.

(** [init] on the stand. *)

Lemma init_success_configures_witness :
  let P := stand xy (Some "<robot/>"%string) true in
  let o := mkObject (Plat := P) (CartesianPositionController blank) (unset P) in
  (forall k, constructed k (new_RMLPositionInputParameters (Platform := P) k)) /\
  flow_of (init (Plat := P) hardware "/arm"%string o) = Return true /\
  configured (Plat := P) hardware "/arm"%string
    (object_of (init (Plat := P) hardware "/arm"%string o)).
Proof.
  intros P o. split; [apply stand_constructed|]. split; [reflexivity|].
  apply (init_success_configures (Plat := P));
    [apply stand_constructed | reflexivity].
Defined.


Lemma stand_joints name :
  In name ["x"; "y"]%string ->
  exists h u v,
    getHandle (Platform := stand xy (Some "<robot/>"%string) true) hardware name
    = Some h /\
    getJoint (Platform := stand xy (Some "<robot/>"%string) true) gantry name
    = Some u /\
    limits_velocity (Platform := stand xy (Some "<robot/>"%string) true) u = Some v.
Proof.
  intros [<-|[<-|[]]]; eexists _, _, _; repeat split; reflexivity.
Qed.


Lemma init_is_stranded_for_a_reason_witness :
  let P := stand (Some (XmlArray [XmlString "x"; XmlString "w"]))
                 (Some "<robot/>"%string) true in
  let o := mkObject (Plat := P) (CartesianPositionController blank) (unset P) in
  (forall k, constructed k (new_RMLPositionInputParameters (Platform := P) k)) /\
  flow_of (init (Plat := P) hardware "/arm"%string o) = Abort /\
  stranded (Plat := P) hardware "/arm"%string /\
  errors (console_of (init (Plat := P) hardware "/arm"%string o)) = [].
Proof.
  intros P o. split; [apply stand_constructed|]. split; [reflexivity|].
  apply (init_is_stranded_for_a_reason (Plat := P));
    [apply stand_constructed | reflexivity].
Defined.

